(** * RNAView: the profiling module, the end-to-end test script and the
      result model of the pairing core

    The development follows the repository file by file:
    - [Profile]     src/rnaview_profile.c and include/rnaview_profile.h
    - [TestScript]  the end-to-end regression script (test.sh)
    - [Core]        the record set, reducer, multiplets and statistics of
                    the pairing engine (fpair.c, fpair_sub.c, statistics.c)
    - [Process]     a process that calls the profiling entry points around
                    the steps of an analysis
    - [Demo]        a small engine and inputs to run the model on

    Integers of the C code are [Z]; [long] and [long long] are 64 bits wide
    on the x86_64-linux-gnu target the build scripts select, and arithmetic
    on them wraps ([wrap64]).  A [char] is an [ascii], a [char] array is a
    [list ascii], and a C string is the run of characters before the first
    NUL of such an array. *)

From Stdlib Require Import ZArith String Ascii DecimalString.
From stdpp Require Import base option list gmap strings sorting.

Module Profile.

(** ** Machine integers *)

Definition wrap64 (z : Z) : Z := ((z + 2 ^ 63) `mod` 2 ^ 64 - 2 ^ 63)%Z.

(** ** C strings *)

Definition NUL : ascii := Ascii.zero.

Definition is_nul (c : ascii) : bool := Ascii.eqb c NUL.

(** [strlen s]: the number of characters before the first NUL; the end of
    the list stands for the terminator of a string given by its contents. *)
Fixpoint strlen (s : list ascii) : nat :=
  match s with
  | [] => 0
  | c :: s' => if is_nul c then 0 else S (strlen s')
  end.

(** The C string stored at the start of a character array. *)
Definition c_str (s : list ascii) : list ascii := take (strlen s) s.

(** [memcpy dst src n]: the first [n] bytes of [dst] replaced by those of
    [src]. *)
Definition memcpy (dst src : list ascii) (n : nat) : list ascii :=
  take n src ++ drop n dst.

(** [copy_str dst cap src].  [dst] and [src] are pointers: [None] is the
    null pointer, [Some m] the memory the pointer addresses.  The result is
    the memory at [dst] after the call.  The caller passes the size of the
    array at [dst] as [cap]; the properties below are stated for a [dst] of
    at least [cap] bytes. *)
Definition copy_str (dst : option (list ascii)) (cap : nat)
    (src : option (list ascii)) : option (list ascii) :=
  match dst with
  | None => None
  | Some d =>
      if (cap =? 0)%nat then Some d
      else
        match src with
        | None => Some (<[0%nat := NUL]> d)
        | Some s =>
            let n := strlen s in
            let n := if (cap <=? n)%nat then (cap - 1)%nat else n in
            Some (<[n := NUL]> (memcpy d s n))
        end
  end.

(** The number of characters [copy_str] copies from a non-null [src]: the
    value of its local [n] at the [memcpy]. *)
Definition copied (cap : nat) (s : list ascii) : nat :=
  if (cap <=? strlen s)%nat then (cap - 1)%nat else strlen s.

(** ** The clock *)

Record timespec : Type := mkTimespec { tv_sec : Z; tv_nsec : Z }.

(** [rnaview_profile_now_ns clk]: [clk] is what [clock_gettime] delivers,
    [None] when it returns a non-zero status. *)
Definition rnaview_profile_now_ns (clk : option timespec) : Z :=
  match clk with
  | None => 0%Z
  | Some ts => wrap64 (wrap64 (tv_sec ts * 1000000000) + tv_nsec ts)
  end.

(** ** The profile record (struct RnaViewProfile) *)

Definition PATH_CAP : nat := 1024.

Record RnaViewProfile : Type := mkProfile {
  enabled : Z;
  num_residue : Z;
  cand_pairs : Z;
  all_pairs_check_pairs_calls : Z;
  all_pairs_base_stack_calls : Z;
  all_pairs_hbond_pair_calls : Z;
  all_pairs_hbond_pair_h_catalog_calls : Z;
  all_pairs_lw_pair_type_calls : Z;
  all_pairs_lw_get_hbond_ij_calls : Z;
  best_pair_check_pairs_calls : Z;
  begin_ns : Z;
  end_ns : Z;
  base_info_ns : Z;
  all_pairs_total_ns : Z;
  all_pairs_candidate_ns : Z;
  all_pairs_check_pairs_ns : Z;
  all_pairs_base_stack_ns : Z;
  all_pairs_hbond_pair_ns : Z;
  all_pairs_hbond_pair_h_catalog_ns : Z;
  all_pairs_lw_pair_type_ns : Z;
  all_pairs_lw_get_hbond_ij_ns : Z;
  best_pair_total_ns : Z;
  best_pair_check_pairs_ns : Z;
  input_path : list ascii;
  json_path : list ascii
}.

(** Assignment to one field of the global. *)
Definition set_enabled (v : Z) (p : RnaViewProfile) : RnaViewProfile :=
  let 'mkProfile f0 f1 f2 f3 f4 f5 f6 f7 f8 f9 f10 f11 f12
                f13 f14 f15 f16 f17 f18 f19 f20 f21 f22 f23 f24 := p in
  mkProfile v f1 f2 f3 f4 f5 f6 f7 f8 f9 f10 f11 f12
             f13 f14 f15 f16 f17 f18 f19 f20 f21 f22 f23 f24.

Definition set_num_residue (v : Z) (p : RnaViewProfile) : RnaViewProfile :=
  let 'mkProfile f0 f1 f2 f3 f4 f5 f6 f7 f8 f9 f10 f11 f12
                f13 f14 f15 f16 f17 f18 f19 f20 f21 f22 f23 f24 := p in
  mkProfile f0 v f2 f3 f4 f5 f6 f7 f8 f9 f10 f11 f12
             f13 f14 f15 f16 f17 f18 f19 f20 f21 f22 f23 f24.

Definition set_begin_ns (v : Z) (p : RnaViewProfile) : RnaViewProfile :=
  let 'mkProfile f0 f1 f2 f3 f4 f5 f6 f7 f8 f9 f10 f11 f12
                f13 f14 f15 f16 f17 f18 f19 f20 f21 f22 f23 f24 := p in
  mkProfile f0 f1 f2 f3 f4 f5 f6 f7 f8 f9 v f11 f12
             f13 f14 f15 f16 f17 f18 f19 f20 f21 f22 f23 f24.

Definition set_end_ns (v : Z) (p : RnaViewProfile) : RnaViewProfile :=
  let 'mkProfile f0 f1 f2 f3 f4 f5 f6 f7 f8 f9 f10 f11 f12
                f13 f14 f15 f16 f17 f18 f19 f20 f21 f22 f23 f24 := p in
  mkProfile f0 f1 f2 f3 f4 f5 f6 f7 f8 f9 f10 v f12
             f13 f14 f15 f16 f17 f18 f19 f20 f21 f22 f23 f24.

Definition set_all_pairs_hbond_pair_h_catalog_calls (v : Z) (p : RnaViewProfile) : RnaViewProfile :=
  let 'mkProfile f0 f1 f2 f3 f4 f5 f6 f7 f8 f9 f10 f11 f12
                f13 f14 f15 f16 f17 f18 f19 f20 f21 f22 f23 f24 := p in
  mkProfile f0 f1 f2 f3 f4 f5 v f7 f8 f9 f10 f11 f12
             f13 f14 f15 f16 f17 f18 f19 f20 f21 f22 f23 f24.

Definition set_all_pairs_hbond_pair_h_catalog_ns (v : Z) (p : RnaViewProfile) : RnaViewProfile :=
  let 'mkProfile f0 f1 f2 f3 f4 f5 f6 f7 f8 f9 f10 f11 f12
                f13 f14 f15 f16 f17 f18 f19 f20 f21 f22 f23 f24 := p in
  mkProfile f0 f1 f2 f3 f4 f5 f6 f7 f8 f9 f10 f11 f12
             f13 f14 f15 f16 f17 v f19 f20 f21 f22 f23 f24.

Definition set_all_pairs_lw_get_hbond_ij_calls (v : Z) (p : RnaViewProfile) : RnaViewProfile :=
  let 'mkProfile f0 f1 f2 f3 f4 f5 f6 f7 f8 f9 f10 f11 f12
                f13 f14 f15 f16 f17 f18 f19 f20 f21 f22 f23 f24 := p in
  mkProfile f0 f1 f2 f3 f4 f5 f6 f7 v f9 f10 f11 f12
             f13 f14 f15 f16 f17 f18 f19 f20 f21 f22 f23 f24.

Definition set_all_pairs_lw_get_hbond_ij_ns (v : Z) (p : RnaViewProfile) : RnaViewProfile :=
  let 'mkProfile f0 f1 f2 f3 f4 f5 f6 f7 f8 f9 f10 f11 f12
                f13 f14 f15 f16 f17 f18 f19 f20 f21 f22 f23 f24 := p in
  mkProfile f0 f1 f2 f3 f4 f5 f6 f7 f8 f9 f10 f11 f12
             f13 f14 f15 f16 f17 f18 f19 v f21 f22 f23 f24.

Definition set_input_path (v : list ascii) (p : RnaViewProfile) : RnaViewProfile :=
  let 'mkProfile f0 f1 f2 f3 f4 f5 f6 f7 f8 f9 f10 f11 f12
                f13 f14 f15 f16 f17 f18 f19 f20 f21 f22 f23 f24 := p in
  mkProfile f0 f1 f2 f3 f4 f5 f6 f7 f8 f9 f10 f11 f12
             f13 f14 f15 f16 f17 f18 f19 f20 f21 f22 v f24.

Definition set_json_path (v : list ascii) (p : RnaViewProfile) : RnaViewProfile :=
  let 'mkProfile f0 f1 f2 f3 f4 f5 f6 f7 f8 f9 f10 f11 f12
                f13 f14 f15 f16 f17 f18 f19 f20 f21 f22 f23 f24 := p in
  mkProfile f0 f1 f2 f3 f4 f5 f6 f7 f8 f9 f10 f11 f12
             f13 f14 f15 f16 f17 f18 f19 f20 f21 f22 f23 v.

(** [RNAVIEW_PROFILE = {0}] and [memset (&RNAVIEW_PROFILE, 0, sizeof ...)]. *)
Definition zero_profile : RnaViewProfile :=
  mkProfile 0 0 0 0 0 0 0 0 0 0 0 0 0 0 0 0 0 0 0 0 0 0 0
            (replicate PATH_CAP NUL) (replicate PATH_CAP NUL).

Definition RNAVIEW_PROFILE_init : RnaViewProfile := zero_profile.

(** Both path arrays have their declared size and hold a terminated
    string. *)
Definition paths_fit (p : RnaViewProfile) : Prop :=
  length (input_path p) = PATH_CAP ∧ length (json_path p) = PATH_CAP
  ∧ strlen (input_path p) < PATH_CAP ∧ strlen (json_path p) < PATH_CAP.

(** The eight call counters and the eleven time accumulators. *)
Definition counters (p : RnaViewProfile) : list Z :=
  [ cand_pairs p; all_pairs_check_pairs_calls p; all_pairs_base_stack_calls p;
    all_pairs_hbond_pair_calls p; all_pairs_hbond_pair_h_catalog_calls p;
    all_pairs_lw_pair_type_calls p; all_pairs_lw_get_hbond_ij_calls p;
    best_pair_check_pairs_calls p ].

Definition accumulators (p : RnaViewProfile) : list Z :=
  [ base_info_ns p; all_pairs_total_ns p; all_pairs_candidate_ns p;
    all_pairs_check_pairs_ns p; all_pairs_base_stack_ns p; all_pairs_hbond_pair_ns p;
    all_pairs_hbond_pair_h_catalog_ns p; all_pairs_lw_pair_type_ns p;
    all_pairs_lw_get_hbond_ij_ns p; best_pair_total_ns p; best_pair_check_pairs_ns p ].

(** Every field other than [enabled] has the same value in [p] and [q]. *)
Definition same_but_enabled (p q : RnaViewProfile) : Prop :=
  num_residue q = num_residue p ∧ counters q = counters p
  ∧ begin_ns q = begin_ns p ∧ end_ns q = end_ns p
  ∧ accumulators q = accumulators p
  ∧ input_path q = input_path p ∧ json_path q = json_path p.

(** The array [buf] holds the string [src], cut to fit, and NUL bytes from
    the end of the string to the end of the array. *)
Definition holds_copy (buf : list ascii) (src : option (list ascii)) : Prop :=
  length buf = PATH_CAP
  ∧ c_str buf = take (PATH_CAP - 1) (c_str (default [] src))
  ∧ ∀ k, strlen buf ≤ k < PATH_CAP → buf !! k = Some NUL.

(** [getenv] returned a null pointer or an empty string. *)
Definition unset_or_empty (env : option (list ascii)) : Prop :=
  match env with
  | None => True
  | Some path => strlen path = 0%nat
  end.

Definition rnaview_profile_is_enabled (p : RnaViewProfile) : Z :=
  if (enabled p =? 0)%Z then 0%Z else 1%Z.

(** [rnaview_profile_begin env clk in_path num_residue p]: [env] is the
    value of [getenv "RNAVIEW_PROFILE_JSON"], [clk] the clock reading,
    [in_path] the argument [input_path], [p] the global before the call. *)
Definition rnaview_profile_begin (env : option (list ascii))
    (clk : option timespec) (in_path : option (list ascii))
    (num_residue : Z) (p : RnaViewProfile) : RnaViewProfile :=
  match env with
  | None => set_enabled 0 p
  | Some path =>
      if (strlen path =? 0)%nat then set_enabled 0 p
      else
        let p := zero_profile in
        let p := set_enabled 1 p in
        let p := set_num_residue num_residue p in
        let p := set_input_path
                   (default (input_path p)
                      (copy_str (Some (input_path p)) PATH_CAP in_path)) p in
        let p := set_json_path
                   (default (json_path p)
                      (copy_str (Some (json_path p)) PATH_CAP (Some path))) p in
        set_begin_ns (rnaview_profile_now_ns clk) p
  end.

Definition rnaview_profile_add_all_pairs_hbond_pair_h_catalog (delta_ns : Z)
    (p : RnaViewProfile) : RnaViewProfile :=
  if (enabled p =? 0)%Z then p
  else
    let p := set_all_pairs_hbond_pair_h_catalog_ns
               (wrap64 (all_pairs_hbond_pair_h_catalog_ns p + delta_ns)) p in
    set_all_pairs_hbond_pair_h_catalog_calls
      (wrap64 (all_pairs_hbond_pair_h_catalog_calls p + 1)) p.

Definition rnaview_profile_add_all_pairs_lw_get_hbond_ij (delta_ns : Z)
    (p : RnaViewProfile) : RnaViewProfile :=
  if (enabled p =? 0)%Z then p
  else
    let p := set_all_pairs_lw_get_hbond_ij_ns
               (wrap64 (all_pairs_lw_get_hbond_ij_ns p + delta_ns)) p in
    set_all_pairs_lw_get_hbond_ij_calls
      (wrap64 (all_pairs_lw_get_hbond_ij_calls p + 1)) p.

(** ** Output of the profile *)

(** What the process does to the file system, in program order. *)
Inductive io_event : Type :=
  | Fopen (path : string) (mode : string) (ok : bool)
  | Fprintf (text : string)
  | Fclose.

Definition nl : string := String "010"%char EmptyString.
Definition dq : string := String "034"%char EmptyString.

(** [%ld] and [%lld]. *)
Definition fmt_d (z : Z) : string := NilZero.string_of_int (Z.to_int z).

(** [%s] applied to a character array. *)
Definition fmt_s (buf : list ascii) : string := string_of_list_ascii (c_str buf).

Definition json_kv (k : string) (v : Z) (comma : bool) : string :=
  "    " ++ dq ++ k ++ dq ++ ": " ++ fmt_d v ++ (if comma then "," else EmptyString) ++ nl.

Definition json_kv_ll (k : string) (v : Z) (comma : bool) : io_event :=
  Fprintf (json_kv k v comma).

Definition json_kv_long (k : string) (v : Z) (comma : bool) : io_event :=
  Fprintf (json_kv k v comma).

(** The [fprintf] calls of [rnaview_profile_dump], in order. *)
Definition dump_body (p : RnaViewProfile) : list io_event :=
  [ Fprintf ("{" ++ nl);
    Fprintf ("  " ++ dq ++ "schema_version" ++ dq ++ ": 1," ++ nl);
    Fprintf ("  " ++ dq ++ "input" ++ dq ++ ": " ++ dq ++ fmt_s (input_path p) ++ dq ++ "," ++ nl);
    Fprintf ("  " ++ dq ++ "num_residue" ++ dq ++ ": " ++ fmt_d (num_residue p) ++ "," ++ nl);
    Fprintf ("  " ++ dq ++ "counts" ++ dq ++ ": {" ++ nl);
    json_kv_long "cand_pairs" (cand_pairs p) true;
    json_kv_long "all_pairs_check_pairs_calls" (all_pairs_check_pairs_calls p) true;
    json_kv_long "all_pairs_base_stack_calls" (all_pairs_base_stack_calls p) true;
    json_kv_long "all_pairs_hbond_pair_calls" (all_pairs_hbond_pair_calls p) true;
    json_kv_long "all_pairs_hbond_pair_h_catalog_calls" (all_pairs_hbond_pair_h_catalog_calls p) true;
    json_kv_long "all_pairs_lw_pair_type_calls" (all_pairs_lw_pair_type_calls p) true;
    json_kv_long "all_pairs_lw_get_hbond_ij_calls" (all_pairs_lw_get_hbond_ij_calls p) true;
    json_kv_long "best_pair_check_pairs_calls" (best_pair_check_pairs_calls p) false;
    Fprintf ("  }," ++ nl);
    Fprintf ("  " ++ dq ++ "times_ns" ++ dq ++ ": {" ++ nl);
    json_kv_ll "total" (wrap64 (end_ns p - begin_ns p)) true;
    json_kv_ll "base_info" (base_info_ns p) true;
    json_kv_ll "all_pairs_total" (all_pairs_total_ns p) true;
    json_kv_ll "all_pairs_candidate" (all_pairs_candidate_ns p) true;
    json_kv_ll "all_pairs_check_pairs" (all_pairs_check_pairs_ns p) true;
    json_kv_ll "all_pairs_base_stack" (all_pairs_base_stack_ns p) true;
    json_kv_ll "all_pairs_hbond_pair" (all_pairs_hbond_pair_ns p) true;
    json_kv_ll "all_pairs_hbond_pair_h_catalog" (all_pairs_hbond_pair_h_catalog_ns p) true;
    json_kv_ll "all_pairs_lw_pair_type" (all_pairs_lw_pair_type_ns p) true;
    json_kv_ll "all_pairs_lw_get_hbond_ij" (all_pairs_lw_get_hbond_ij_ns p) true;
    json_kv_ll "best_pair_total" (best_pair_total_ns p) true;
    json_kv_ll "best_pair_check_pairs" (best_pair_check_pairs_ns p) false;
    Fprintf ("  }" ++ nl);
    Fprintf ("}" ++ nl) ].

(** [rnaview_profile_dump fopen_ok clk p]: [fopen_ok path] tells whether
    [fopen (path, "w")] succeeds.  The result is the global after the call
    and the file operations performed. *)
Definition rnaview_profile_dump (fopen_ok : string -> bool)
    (clk : option timespec) (p : RnaViewProfile) : RnaViewProfile * list io_event :=
  if (enabled p =? 0)%Z || (strlen (json_path p) =? 0)%nat then (p, [])
  else
    let p := set_end_ns (rnaview_profile_now_ns clk) p in
    let path := fmt_s (json_path p) in
    if fopen_ok path
    then (p, Fopen path "w" true :: dump_body p ++ [Fclose])
    else (p, [Fopen path "w" false]).

End Profile.

(** * The end-to-end regression script (test.sh) *)

Module TestScript.

(** What the script finds when it runs: the exit status of every external
    command it may start, and the two paths the commands deliver. *)
Record ShellEnv : Type := mkShellEnv {
  root_dir_status : nat;      (* cd -- $(dirname -- ...) && pwd *)
  ROOT_DIR : string;
  rnaview_executable : bool;  (* [[ -x $ROOT_DIR/bin/rnaview ]] *)
  build_status : nat;         (* bash $ROOT_DIR/tools/build_legacy_rnaview.sh *)
  mktemp_status : nat;        (* mktemp -d *)
  OUT_DIR : string;
  batch_status : nat;         (* python3 $ROOT_DIR/tools/rnaview_batch.py run ... *)
  rm_status : nat             (* rm -rf $OUT_DIR *)
}.

Inductive DirState : Type := NotCreated | Present | Removed.

Record ScriptState : Type := mkScriptState {
  invoked : list (list string * nat);   (* argv and exit status of the commands
                                           run, latest first *)
  out_dir : DirState;
  stderr : list string
}.

Definition initial : ScriptState := mkScriptState [] NotCreated [].

(** A shell under [set -e]: a step either goes on with a value or ends the
    script with an exit status; the state is kept in both cases. *)
Inductive step (A : Type) : Type :=
  | Go (a : A)
  | Exit (status : nat).
Arguments Go {A} a.
Arguments Exit {A} status.

Definition Sh (A : Type) : Type := ScriptState -> step A * ScriptState.

Definition ret {A : Type} (a : A) : Sh A := fun s => (Go a, s).

Definition bind {A B : Type} (m : Sh A) (k : A -> Sh B) : Sh B :=
  fun s =>
    match m s with
    | (Go a, s') => k a s'
    | (Exit n, s') => (Exit n, s')
    end.

Notation "x <- m ;; k" := (bind m (fun x => k))
  (at level 100, m at next level, right associativity).
Notation "m ;;; k" := (bind m (fun _ => k))
  (at level 100, right associativity).

Definition exit {A : Type} (n : nat) : Sh A := fun s => (Exit n, s).

Definition log (argv : list string) (status : nat) : Sh unit :=
  fun s => (Go tt, mkScriptState ((argv, status) :: invoked s) (out_dir s) (stderr s)).

Definition set_out_dir (d : DirState) : Sh unit :=
  fun s => (Go tt, mkScriptState (invoked s) d (stderr s)).

Definition echo_stderr (msg : string) : Sh unit :=
  fun s => (Go tt, mkScriptState (invoked s) (out_dir s) (stderr s ++ [msg])).

(** A simple command: under [set -e] a non-zero status ends the script with
    that status. *)
Definition cmd (argv : list string) (status : nat) : Sh unit :=
  log argv status ;;; if (status =? 0)%nat then ret tt else exit status.

(** A command in the condition of an [if]: its status is tested, [set -e]
    does not apply. *)
Definition cmd_if (argv : list string) (status : nat) : Sh bool :=
  log argv status ;;; ret (status =? 0)%nat.

Definition inputs : list string :=
  [ "test/pdb/pdb1nvy/pdb1nvy.pdb";
    "test/pdb/test1/test1.pdb";
    "test/pdb/tr0001/tr0001.pdb";
    "test/pdb/url064/url064.pdb";
    "test/pdb/urx053/urx053.pdb";
    "test/mmcif/insertion_code/1EFW/1EFW.cif";
    "test/mmcif/insertion_code/1VVJ/1VVJ.cif";
    "test/mmcif/insertion_code/4ARC/4ARC.cif";
    "test/mmcif/nmr_structure/8if5/8if5.cif";
    "test/mmcif/other/6pom/6pom.cif";
    "test/mmcif/x-ray/3P4J/assembly-1/3p4j-assembly1.cif";
    "test/mmcif/x-ray/434D/assembly-1/434d-assembly1.cif";
    "test/mmcif/x-ray/434D/assembly-2/434d-assembly2.cif";
    "test/mmcif/x-ray/4NMG/assembly-1/4nmg-assembly1.cif" ].

Definition batch_argv (e : ShellEnv) : list string :=
  [ "python3"; (ROOT_DIR e ++ "/tools/rnaview_batch.py")%string; "run" ]
  ++ inputs
  ++ [ "--out-dir"; OUT_DIR e; "--regress"; "--regress-mode"; "out"; "--keep-going" ].

Definition build_argv (e : ShellEnv) : list string :=
  [ "bash"; (ROOT_DIR e ++ "/tools/build_legacy_rnaview.sh")%string ].

Definition test_sh (e : ShellEnv) : Sh unit :=
  (* ROOT_DIR=$(cd -- $(dirname -- ${BASH_SOURCE[0]}) && pwd) *)
  cmd [ "cd"; "--"; "$(dirname -- ${BASH_SOURCE[0]})" ] (root_dir_status e) ;;;
  (* if [[ ! -x $ROOT_DIR/bin/rnaview ]]; then bash ...; fi *)
  (if rnaview_executable e then ret tt else cmd (build_argv e) (build_status e)) ;;;
  (* OUT_DIR=$(mktemp -d) *)
  cmd [ "mktemp"; "-d" ] (mktemp_status e) ;;;
  set_out_dir Present ;;;
  (* if python3 ... run ... --keep-going; then rm -rf $OUT_DIR; exit 0; fi *)
  ok <- cmd_if (batch_argv e) (batch_status e) ;;
  if ok : bool then
    cmd [ "rm"; "-rf"; OUT_DIR e ] (rm_status e) ;;;
    set_out_dir Removed ;;;
    exit 0
  else
    (* echo FAILED ... >&2; exit 1 *)
    echo_stderr ("FAILED: outputs kept at " ++ OUT_DIR e)%string ;;;
    exit 1.

(** The exit status of the script; falling off the end is status 0. *)
Definition exit_status (e : ShellEnv) : nat :=
  match fst (test_sh e initial) with
  | Go _ => 0
  | Exit n => n
  end.

Definition final (e : ShellEnv) : ScriptState := snd (test_sh e initial).

(** Whether the batch command was run, and with what status it ended. *)
Definition batch_result (e : ShellEnv) : option nat :=
  snd <$> find (fun c => bool_decide (head c.1 = Some "python3")) (invoked (final e)).

(** Modelled from the spec: the two regression modes of the batch tool
    (section 6.1); tools/rnaview_batch.py is missing.  [core] compares the
    record sets field by field, [out] compares the bytes of the outputs. *)
Inductive RegressMode : Type := RegressCore | RegressOut.

(** Modelled from the spec: the value of [--regress-mode]. *)
Definition mode_of_name (name : string) : option RegressMode :=
  if String.eqb name "core" then Some RegressCore
  else if String.eqb name "out" then Some RegressOut
  else None.

(** Modelled from the spec: a candidate output passes the regression against
    the golden output; [extract] gives the records of an output. *)
Definition regress_pass {R : Type} (extract : string -> list R)
    (m : RegressMode) (golden candidate : string) : Prop :=
  match m with
  | RegressOut => golden = candidate
  | RegressCore => ∀ r, r ∈ extract golden ↔ r ∈ extract candidate
  end.

(** The steps before the batch command succeed. *)
Definition reaches_batch (e : ShellEnv) : Prop :=
  root_dir_status e = 0
  ∧ (rnaview_executable e = true ∨ build_status e = 0)
  ∧ mktemp_status e = 0.

(** The script exits with status 0 and removes its output directory if and
    only if the batch command succeeds, and otherwise exits with status 1
    and keeps the directory. *)
Definition gate_as_stated (e : ShellEnv) : Prop :=
  (exit_status e = 0 ∧ out_dir (final e) = Removed ↔ batch_result e = Some 0)
  ∧ (batch_result e ≠ Some 0 → exit_status e = 1 ∧ out_dir (final e) = Present).

End TestScript.

(** * The record set of the pairing core

    The engine itself (fpair.c, fpair_sub.c, pair_type.c, statistics.c) is
    described by the specification only; this module follows sections 3,
    4.7 to 4.10 and 7 of it.  Geometry, hydrogen-bond tables and the
    emitters are components of the [Engine] interface. *)

Module Core.

(** Modelled from the spec: the edge characters [W], [H], [S], [+], [-], [?]
    of section 3; the engine source that defines them is missing. *)
Inductive Edge : Type := EW | EH | ES | EPlus | EMinus | EUnresolved.

(** Modelled from the spec: the character of an edge in the [lw] code and in
    the statistics keys (sections 3 and 4.9); the emitter source is missing. *)
Definition edge_char (e : Edge) : ascii :=
  match e with
  | EW => "W" | EH => "H" | ES => "S" | EPlus => "+" | EMinus => "-" | EUnresolved => "?"
  end%char.

(** Modelled from the spec: the orientation [cis] / [tran] of section 3; the
    engine source is missing. *)
Inductive Orientation : Type := cis | tran.

(** Modelled from the spec: the residue identity of section 3; the parser
    that produces it is missing. *)
Record ResidueId : Type := mkResidueId {
  chain_id : string;
  resseq : Z;
  icode : string;
  model : Z
}.

(** Modelled from the spec: [kind] of a PairRecord (section 3). *)
Inductive Kind : Type := KPair | KStacked | KUnknown.

#[export] Instance Kind_eq_dec : EqDecision Kind.
Proof. solve_decision. Defined.

(** Modelled from the spec: the verdict on one candidate (sections 4.5, 4.6
    and 7).  The LW edges, the orientation and the Saenger code exist for a
    pair only, as the invariants of section 3 require; the classifier
    source is missing. *)
Inductive Verdict : Type :=
  | VPair (edge_i edge_j : Edge) (orient : Orientation) (saenger_code : option string)
  | VStacked
  | VUnknown.

(** Modelled from the spec: PairRecord of section 3; the source that builds
    the records (all_pairs) is missing. *)
Record PairRecord : Type := mkPairRecord {
  i : nat;
  j : nat;
  res_i : ResidueId;
  res_j : ResidueId;
  base_i : ascii;
  base_j : ascii;
  verdict : Verdict;
  syn_i : bool;
  syn_j : bool;
  note : string
}.

(** Modelled from the spec: the fields [kind], [lw], [orientation] and
    [saenger] of a PairRecord (section 3), read off its verdict; the source
    that builds the records is missing. *)
Definition kind (r : PairRecord) : Kind :=
  match verdict r with
  | VPair _ _ _ _ => KPair
  | VStacked => KStacked
  | VUnknown => KUnknown
  end.

(** Modelled from the spec: [lw], present only when [kind = pair]. *)
Definition lw (r : PairRecord) : option (Edge * Edge) :=
  match verdict r with
  | VPair e1 e2 _ _ => Some (e1, e2)
  | _ => None
  end.

(** Modelled from the spec: [orientation], absent unless [kind = pair]. *)
Definition orientation (r : PairRecord) : option Orientation :=
  match verdict r with
  | VPair _ _ o _ => Some o
  | _ => None
  end.

(** Modelled from the spec: [saenger], absent unless [kind = pair]. *)
Definition saenger (r : PairRecord) : option string :=
  match verdict r with
  | VPair _ _ _ s => s
  | _ => None
  end.

(** Modelled from the spec: the test [kind = pair] (sections 4.7 to 4.9). *)
Definition is_pair (r : PairRecord) : bool :=
  match kind r with KPair => true | _ => false end.

(** Modelled from the spec: the test [kind = stacked] (section 4.7). *)
Definition is_stacked (r : PairRecord) : bool :=
  match kind r with KStacked => true | _ => false end.

(** Modelled from the spec: the index pair [(i, j)] that identifies a record
    in the final set (section 3). *)
Definition key (r : PairRecord) : nat * nat := (i r, j r).

(** Modelled from the spec: the unordered index pair [{i, j}] of a record
    (invariants of section 3). *)
Definition unordered (r : PairRecord) : gset nat := {[i r; j r]}.

(** Modelled from the spec: Multiplet and Stats of section 3. *)
Record Multiplet : Type := mkMultiplet {
  indices : list nat;
  text : string
}.

(** Modelled from the spec: Stats of section 3; statistics.c is missing. *)
Record Stats : Type := mkStats {
  total_pairs : nat;
  total_bases : nat;
  pair_type_counts : gmap string nat
}.

(** Modelled from the spec: the [core] object of section 6.2. *)
Record CoreRecord : Type := mkCoreRecord {
  base_pairs : list PairRecord;
  multiplets : list Multiplet;
  stats : Stats
}.

(** Modelled from the spec: the error kinds of section 7. *)
Inductive ErrorKind : Type :=
  | SkippedResidue
  | AmbiguousPair
  | MalformedStructure
  | InternalInvariantViolation.

(** Modelled from the spec: an analysis either completes with a record set
    and the conditions it reports, or aborts with a diagnostic (section 7). *)
Inductive Outcome : Type :=
  | Completed (core : CoreRecord) (reported : list ErrorKind)
  | Aborted (diagnostic : ErrorKind).

(** Modelled from the spec: what the classifier returns for one candidate
    (sections 4.4 to 4.6): the verdict, the syn flags, the total bond count
    and the tail annotation. *)
Record Classified : Type := mkClassified {
  c_verdict : Verdict;
  c_syn_i : bool;
  c_syn_j : bool;
  c_bonds : nat;
  c_note : string
}.

(** Modelled from the spec: the components whose tables and thresholds the
    specification leaves to the implementation (base-letter assignment 4.1,
    candidate filter, hydrogen bonds, classifier and stacking detector 4.3
    to 4.6, the multiplet text 4.8, the emitters 4.10) and the upstream
    parser with its options (section 6.3).  Their sources are missing. *)
Class Engine : Type := mkEngine {
  Residue : Type;
  Options : Type;
  upstream : list Byte.byte -> Options -> list Residue;
  res_id : Residue -> ResidueId;
  base_letter : Residue -> option ascii;
  classify : Residue -> Residue -> list Classified;
  multiplet_text : list nat -> list PairRecord -> string;
  emit_json : CoreRecord -> string;
  emit_text : CoreRecord -> string
}.

Section Pipeline.
Context `{Eng : Engine}.

(** Modelled from the spec: BaseIndex (section 3).  The recognised residues
    in the order of the upstream parser; the residue at position [k] of
    this list has BaseIndex [k + 1]. *)
Definition bases (s : list Residue) : list (Residue * ascii) :=
  omap (fun r => pair r <$> base_letter r) s.

(** Modelled from the spec: every [(i, j)] with [i < j] (section 4.3), in
    ascending order. *)
Definition index_pairs (n : nat) : list (nat * nat) :=
  a ← seq 1 n; pair a <$> seq (S a) (n - a).

(** Modelled from the spec: a raw verdict (section 4.7): the record together
    with its bond count (section 4.4), which the best-pair pass orders by. *)
Record Raw : Type := mkRaw {
  record : PairRecord;
  bonds : nat
}.

(** Modelled from the spec: the record of candidate [(a, b)]: indices,
    identifiers and base letters of the two residues, and what the
    classifier returned (section 3). *)
Definition make_raw (a b : nat) (ra rb : Residue * ascii) (c : Classified) : Raw :=
  mkRaw (mkPairRecord a b (res_id ra.1) (res_id rb.1) ra.2 rb.2
           (c_verdict c) (c_syn_i c) (c_syn_j c) (c_note c))
        (c_bonds c).

(** Modelled from the spec: the raw verdicts of all candidates (data flow of
    section 2). *)
Definition raw_verdicts (bs : list (Residue * ascii)) : list Raw :=
  ab ← index_pairs (length bs);
  match bs !! (ab.1 - 1), bs !! (ab.2 - 1) with
  | Some ra, Some rb => make_raw ab.1 ab.2 ra rb <$> classify ra.1 rb.1
  | _, _ => []
  end.

(** Modelled from the spec: deduplication (section 4.7).  Within an [(i, j)]
    one verdict is kept, and a verdict that is not [stacked] wins over a
    stacked one. *)
Definition dedup_step (m : gmap (nat * nat) Raw) (r : Raw) : gmap (nat * nat) Raw :=
  match m !! key (record r) with
  | None => <[key (record r) := r]> m
  | Some r0 =>
      if is_stacked (record r0) && negb (is_stacked (record r))
      then <[key (record r) := r]> m
      else m
  end.

(** Modelled from the spec: the deduplicated verdicts, by index pair. *)
Definition dedup (rs : list Raw) : gmap (nat * nat) Raw :=
  foldl dedup_step ∅ rs.

(** Modelled from the spec: within an [(i, j)] there is one verdict: every
    verdict kept by the deduplication satisfies [P] and is stored under its
    own index pair. *)
Definition kept_ok (P : Raw -> Prop) (m : gmap (nat * nat) Raw) : Prop :=
  ∀ k r, m !! k = Some r → key (record r) = k ∧ P r.

(** Modelled from the spec: the order of the best-pair pass (section 4.7):
    descending bond count, then ascending [|i - j|]. *)
Definition span (r : Raw) : nat := j (record r) - i (record r).


(** Modelled from the spec: [r1] comes before [r2] in the best-pair pass. *)
Definition better (r1 r2 : Raw) : Prop :=
  bonds r2 < bonds r1 ∨ (bonds r1 = bonds r2 ∧ span r1 ≤ span r2).

#[export] Instance better_dec r1 r2 : Decision (better r1 r2).
Proof. unfold better. apply _. Defined.

(** Modelled from the spec: the greedy choice of the best-pair pass (section
    4.7): a pair becomes a best pair when neither of its residues is in a
    best pair already. *)
Definition best_step (acc : gset nat * gset (nat * nat)) (r : Raw)
    : gset nat * gset (nat * nat) :=
  let a := i (record r) in
  let b := j (record r) in
  if decide (a ∈ acc.1 ∨ b ∈ acc.1) then acc
  else ({[a; b]} ∪ acc.1, {[key (record r)]} ∪ acc.2).

(** Modelled from the spec: the index pairs of the best pairs. *)
Definition best_pairs (rs : list Raw) : gset (nat * nat) :=
  (foldl best_step (∅, ∅)
     (merge_sort better (filter (fun r => is_pair (record r) = true) rs))).2.

(** Modelled from the spec: a pair that is not a best pair receives the
    tertiary mark [!]. *)
Definition mark_tertiary (best : gset (nat * nat)) (r : Raw) : PairRecord :=
  let p := record r in
  if is_pair p && bool_decide (key p ∉ best)
  then mkPairRecord (i p) (j p) (res_i p) (res_j p) (base_i p) (base_j p)
         (verdict p) (syn_i p) (syn_j p) ("!" ++ note p)
  else p.

(** Modelled from the spec: the final order, ascending by [i], then [j]. *)
Definition key_le (r1 r2 : PairRecord) : Prop :=
  i r1 < i r2 ∨ (i r1 = i r2 ∧ j r1 ≤ j r2).

#[export] Instance key_le_dec r1 r2 : Decision (key_le r1 r2).
Proof. unfold key_le. apply _. Defined.

(** Modelled from the spec: the pair-set reducer (section 4.7):
    deduplication, best-pair pass, sort. *)
Definition reduce (rs : list Raw) : list PairRecord :=
  let kept := (map_to_list (dedup rs)).*2 in
  let best := best_pairs kept in
  merge_sort key_le (mark_tertiary best <$> kept).

(** Modelled from the spec: multiplet synthesis (section 4.8).  The graph
    has an edge for every record of kind [pair]; a multiplet is a connected
    component with at least three members. *)
Definition neighbours (recs : list PairRecord) (v : nat) : gset nat :=
  list_to_set
    (r ← recs;
     if is_pair r
     then (if decide (i r = v) then [j r] else [])
          ++ (if decide (j r = v) then [i r] else [])
     else []).

(** Modelled from the spec: a set of indices with all its neighbours in the
    pair graph; [n] rounds from [v] give the connected component of [v]
    among [n] bases. *)
Definition grow (recs : list PairRecord) (c : gset nat) : gset nat :=
  c ∪ ⋃ (neighbours recs <$> elements c).

(** Modelled from the spec: the connected component of [v] (section 4.8). *)
Definition component (recs : list PairRecord) (n v : nat) : gset nat :=
  Nat.iter n (grow recs) {[v]}.

(** Modelled from the spec: the multiplet whose smallest index is [v], with
    its indices in ascending order (section 3). *)
Definition multiplet_at (recs : list PairRecord) (n v : nat) : option Multiplet :=
  let idx := merge_sort le (elements (component recs n v)) in
  if decide (head idx = Some v ∧ 3 ≤ length idx)
  then Some (mkMultiplet idx (multiplet_text idx recs))
  else None.

(** Modelled from the spec: all multiplets, sorted by indices. *)
Definition multiplets_of (recs : list PairRecord) (n : nat) : list Multiplet :=
  omap (multiplet_at recs n) (seq 1 n).

(** Modelled from the spec: statistics (section 4.9).  The key of a pair is
    the two edge characters, a dash and the orientation ([cis] / [tra]). *)
Definition orient_str (o : Orientation) : string :=
  match o with cis => "cis" | tran => "tra" end.

(** Modelled from the spec: the key [<edge_i><edge_j>-<orient>]. *)
Definition pair_type_key (e1 e2 : Edge) (o : Orientation) : string :=
  String (edge_char e1) (String (edge_char e2) ("-" ++ orient_str o)).

(** Modelled from the spec: the key a record is counted under; only pairs
    are counted. *)
Definition type_key (r : PairRecord) : option string :=
  match verdict r with
  | VPair e1 e2 o _ => Some (pair_type_key e1 e2 o)
  | _ => None
  end.

(** Modelled from the spec: one record added to [pair_type_counts]. *)
Definition count_type (r : PairRecord) (m : gmap string nat) : gmap string nat :=
  match type_key r with
  | Some k => <[k := S (default 0 (m !! k))]> m
  | None => m
  end.

(** Modelled from the spec: [total_pairs], [total_bases] and
    [pair_type_counts] of a record set over [n] bases (section 4.9). *)
Definition stats_of (recs : list PairRecord) (n : nat) : Stats :=
  mkStats (length (filter (fun r => kind r = KPair) recs)) n
          (foldr count_type ∅ recs).

(** Modelled from the spec: the sum of the values of [pair_type_counts]
    (section 8, stats closure). *)
Definition counts_sum (m : gmap string nat) : nat :=
  map_fold (fun _ v acc => v + acc) 0 m.

(** Modelled from the spec: the invariants of section 3 whose failure is an
    InternalInvariantViolation (section 7): index range and order, and no
    duplicate [(i, j)].  A pair without [lw] cannot be built ([Verdict]). *)
Definition index_ok (n : nat) (r : PairRecord) : Prop :=
  1 ≤ i r ∧ i r < j r ∧ j r ≤ n.

(** Modelled from the spec: the invariants of the final record set. *)
Definition invariants_hold (n : nat) (recs : list PairRecord) : Prop :=
  Forall (index_ok n) recs ∧ NoDup (key <$> recs).

#[export] Instance invariants_hold_dec n recs : Decision (invariants_hold n recs).
Proof. unfold invariants_hold, index_ok. apply _. Defined.

(** Modelled from the spec: the empty-structure result (section 7). *)
Definition empty_core : CoreRecord :=
  mkCoreRecord [] [] (mkStats 0 0 ∅).

(** Modelled from the spec: one analysis (data flow of section 2, error
    handling of section 7).  A structure without recognised residue gives
    the empty-structure result and reports MalformedStructure. *)
Definition analyse (s : list Residue) : Outcome :=
  let bs := bases s in
  let n := length bs in
  if decide (n = 0) then Completed empty_core [MalformedStructure]
  else
    let recs := reduce (raw_verdicts bs) in
    if decide (invariants_hold n recs)
    then Completed (mkCoreRecord recs (multiplets_of recs n) (stats_of recs n)) []
    else Aborted InternalInvariantViolation.

End Pipeline.
End Core.

(** * A process: the profile, the analysis state and the file system *)

Module Process.
Import Profile.

(** The file system maps a path to the contents of the file. *)
Definition io_step (st : option string * gmap string string) (e : io_event)
    : option string * gmap string string :=
  match e with
  | Fopen path _ ok =>
      if ok then (Some path, <[path := EmptyString]> st.2) else (None, st.2)
  | Fprintf txt =>
      match st.1 with
      | Some path => (st.1, <[path := (default EmptyString (st.2 !! path) ++ txt)%string]> st.2)
      | None => st
      end
  | Fclose => (None, st.2)
  end.

Definition exec_io (evs : list io_event) (fs : gmap string string) : gmap string string :=
  (foldl io_step (None, fs) evs).2.

Section World.
Context {A : Type}.

(** [analysis] is the state of the analysis: every object of the process
    other than [RNAVIEW_PROFILE]. *)
Record World : Type := mkWorld {
  profile : RnaViewProfile;
  analysis : A;
  fs : gmap string string
}.

(** One step of the process: a call of a profiling entry point, with what
    the environment delivers to it, or a step [Analysis f] of code that does
    not refer to the profiling module, where [f] is any function on the rest
    of the process state.  The steps of the engine that read or assign
    [RNAVIEW_PROFILE] are those of [Instrumented]. *)
Inductive call : Type :=
  | Begin (env : option (list ascii)) (clk : option timespec)
          (in_path : option (list ascii)) (num_residue : Z)
  | AddHbondPairHCatalog (delta_ns : Z)
  | AddLwGetHbondIj (delta_ns : Z)
  | Dump (fopen_ok : string -> bool) (clk : option timespec)
  | Analysis (f : A -> A).

Definition exec (w : World) (c : call) : World :=
  match c with
  | Begin env clk in_path n =>
      mkWorld (rnaview_profile_begin env clk in_path n (profile w)) (analysis w) (fs w)
  | AddHbondPairHCatalog d =>
      mkWorld (rnaview_profile_add_all_pairs_hbond_pair_h_catalog d (profile w))
              (analysis w) (fs w)
  | AddLwGetHbondIj d =>
      mkWorld (rnaview_profile_add_all_pairs_lw_get_hbond_ij d (profile w))
              (analysis w) (fs w)
  | Dump fopen_ok clk =>
      let '(p, evs) := rnaview_profile_dump fopen_ok clk (profile w) in
      mkWorld p (analysis w) (exec_io evs (fs w))
  | Analysis f => mkWorld (profile w) (f (analysis w)) (fs w)
  end.

Definition run (cs : list call) (w : World) : World := foldl exec w cs.

End World.
Arguments World A : clear implicits.
Arguments call A : clear implicits.

(** The path of the profile file of a world. *)
Definition profile_file {A : Type} (w : World A) : string :=
  fmt_s (json_path (profile w)).

(** A process at its start: the global is [{0}]. *)
Definition fresh {A : Type} (a : A) (files : gmap string string) : World A :=
  mkWorld RNAVIEW_PROFILE_init a files.

(** The global is reset at the start of every analysis: after
    [rnaview_profile_begin] it is what it would be had the process done
    nothing before. *)
Definition reset_at_begin : Prop :=
  ∀ (cs : list (call unit)) env clk in_path n,
    profile (run (cs ++ [Begin env clk in_path n]) (fresh tt ∅))
    = profile (run [Begin env clk in_path n] (fresh tt ∅)).

(** ** The core record of a process *)

Section CoreRecords.
Import Core.
Context `{Eng : Engine}.




End CoreRecords.
End Process.

(** * A small engine to run the model on *)

Module Demo.
Import Core.

(** A residue is a chain, a number and the letter the base-letter
    assignment gives it.  Two bases stack when their numbers differ by at
    most 2, and pair when their numbers add up to a multiple of 10, with
    three bonds when the sum is 10 and two otherwise. *)
Definition demo_classify (a b : string * Z * option ascii) : list Classified :=
  (if decide (Z.abs (b.1.2 - a.1.2) ≤ 2)%Z
   then [ mkClassified VStacked false false 0 EmptyString ]
   else [])
  ++ (if decide ((a.1.2 + b.1.2) `mod` 10 = 0)%Z
      then [ mkClassified (VPair EPlus EPlus cis (Some "XIX")) false false
               (if decide (a.1.2 + b.1.2 = 10)%Z then 3 else 2) EmptyString ]
      else []).

#[export] Instance demo_engine : Engine := {|
  Residue := string * Z * option ascii;
  Options := unit;
  upstream := fun _ _ => [];
  res_id := fun r => mkResidueId r.1.1 r.1.2 EmptyString 1;
  base_letter := fun r => r.2;
  classify := demo_classify;
  multiplet_text := fun _ _ => EmptyString;
  emit_json := fun _ => EmptyString;
  emit_text := fun _ => EmptyString
|}.

Definition water : @Residue demo_engine := ("A", 1%Z, None).

Definition demo_structure : list (@Residue demo_engine) :=
  [ ("A", 4%Z, Some "G"%char); water; ("A", 6%Z, Some "C"%char);
    ("A", 14%Z, Some "G"%char); ("B", 16%Z, Some "c"%char);
    ("B", 17%Z, Some "U"%char) ].

Definition no_bases : list (@Residue demo_engine) := [ water; water ].

(** The global after the start of a profiled analysis of 76 residues and
    one timed section. *)
Definition profiled : Profile.RnaViewProfile :=
  Profile.rnaview_profile_add_all_pairs_lw_get_hbond_ij 100
    (Profile.rnaview_profile_begin (Some (list_ascii_of_string "prof.json"))
       (Some (Profile.mkTimespec 5 7)) (Some (list_ascii_of_string "a.pdb")) 76
       Profile.zero_profile).

(** The index pair, kind and note of a record. *)
Definition brief (r : PairRecord) : nat * nat * Kind * string :=
  (i r, j r, kind r, note r).

End Demo.

(** * Runs of the profiling entry points *)

Module ProfileRuns.
Import Profile Process.

(** The intervals passed to the two accumulator functions in a run. *)
Definition hbond_pair_h_catalog_deltas_of {A : Type} (cs : list (call A)) : list Z :=
  omap (fun c => match c with AddHbondPairHCatalog d => Some d | _ => None end) cs.

Definition lw_get_hbond_ij_deltas_of {A : Type} (cs : list (call A)) : list Z :=
  omap (fun c => match c with AddLwGetHbondIj d => Some d | _ => None end) cs.

Definition is_begin {A : Type} (c : call A) : bool :=
  match c with Begin _ _ _ _ => true | _ => false end.

Definition is_add {A : Type} (c : call A) : bool :=
  match c with AddHbondPairHCatalog _ | AddLwGetHbondIj _ => true | _ => false end.

Definition sumZ (l : list Z) : Z := foldr Z.add 0%Z l.

(** The six call counters and nine time accumulators for which the module
    has no accumulator function. *)
Definition engine_fields (p : RnaViewProfile) : list Z :=
  [ cand_pairs p; all_pairs_check_pairs_calls p; all_pairs_base_stack_calls p;
    all_pairs_hbond_pair_calls p; all_pairs_lw_pair_type_calls p;
    best_pair_check_pairs_calls p;
    base_info_ns p; all_pairs_total_ns p; all_pairs_candidate_ns p;
    all_pairs_check_pairs_ns p; all_pairs_base_stack_ns p; all_pairs_hbond_pair_ns p;
    all_pairs_lw_pair_type_ns p; best_pair_total_ns p; best_pair_check_pairs_ns p ].

(** The value of a [long] or [long long]. *)
Definition in_range (z : Z) : Prop := (- 2 ^ 63 ≤ z < 2 ^ 63)%Z.

(** The text a list of file operations prints. *)
Definition printed (evs : list io_event) : string :=
  foldr (fun e acc => match e with Fprintf txt => (txt ++ acc)%string | _ => acc end)
        EmptyString evs.

(** A clock reading as [clock_gettime] delivers it before the year 2262. *)
Definition valid_reading (ts : timespec) : Prop :=
  (0 ≤ tv_sec ts < 9223372036)%Z ∧ (0 ≤ tv_nsec ts < 1000000000)%Z.

(** [t1] is not later than [t2]. *)
Definition not_later (t1 t2 : timespec) : Prop :=
  (tv_sec t1 < tv_sec t2)%Z ∨ (tv_sec t1 = tv_sec t2 ∧ tv_nsec t1 ≤ tv_nsec t2)%Z.

(** The file [rnaview_profile_dump] opens after [rnaview_profile_begin] saw
    the value [path] of RNAVIEW_PROFILE_JSON. *)
Definition opened_path (path : list ascii) : string :=
  string_of_list_ascii (take (PATH_CAP - 1) (c_str path)).

(** The text [rnaview_profile_dump] prints for the input path after
    [rnaview_profile_begin] was given [ip]: its first 1023 characters, and
    nothing for a null pointer. *)
Definition shown_input (ip : option (list ascii)) : string :=
  string_of_list_ascii (take (PATH_CAP - 1) (c_str (default [] ip))).

End ProfileRuns.


(** * The engine and the profiling module *)

Module Instrumented.
Import Profile Process ProfileRuns.

Section Engine.
Context {A : Type}.

(** Modelled from the spec: a step of the analysis engine (rnaview.c,
    fpair.c, fpair_sub.c and pair_type.c, which are missing) as
    rnaview_profile.h lets it use the profiling module.  The header declares
    the global [RNAVIEW_PROFILE], [rnaview_profile_is_enabled] and
    [rnaview_profile_now_ns] to the engine (lines 37 to 40), and fifteen
    counters and timers of the global have no accumulator function.  A step
    is given the global and the values [rnaview_profile_now_ns] returns
    during it; it gives the analysis state and the global it leaves.  The
    core does no disk or network I/O (section 5). *)
Definition engine_step : Type := RnaViewProfile -> list Z -> A -> A * RnaViewProfile.

(** Modelled from the spec: "the counters are instrumentation, not
    semantics" (section 9), said of a step of the missing engine.  The
    analysis state the step leaves depends on neither the global nor the
    clock, and the step assigns counters and timers only: [enabled] and
    [json_path] are as [rnaview_profile_begin] left them. *)
Definition instrumentation (s : engine_step) : Prop :=
  (∀ p p' now now' a, (s p now a).1 = (s p' now' a).1)
  ∧ (∀ p now a, enabled (s p now a).2 = enabled p
                ∧ json_path (s p now a).2 = json_path p).

(** Modelled from the spec: one step of a process whose engine is
    instrumented: a step of [Process.call], or a step of the missing engine
    with the clock readings of its calls of [rnaview_profile_now_ns]. *)
Inductive action : Type :=
  | Entry (c : call A)
  | Engine (clk : list (option timespec)) (s : engine_step).

(** Modelled from the spec: the effect of a step; that of an entry point is
    the one of [Process.exec]. *)
Definition perform (w : World A) (x : action) : World A :=
  match x with
  | Entry c => exec w c
  | Engine clk s =>
      let r := s (profile w) (rnaview_profile_now_ns <$> clk) (analysis w) in
      mkWorld r.2 r.1 (fs w)
  end.

(** Modelled from the spec: a process as the sequence of its steps. *)
Definition play (xs : list action) (w : World A) : World A := foldl perform w xs.


(** Modelled from the spec: two steps of the same program on the same input
    (section 8, determinism): the same code, met
    with other values of RNAVIEW_PROFILE_JSON, other clock readings, other
    measured intervals, other results of [fopen] and another name of the
    input file. *)
Inductive same_code : action -> action -> Prop :=
  | same_begin env clk ip env' clk' ip' n :
      same_code (Entry (Begin env clk ip n)) (Entry (Begin env' clk' ip' n))
  | same_add_hbond_pair_h_catalog d d' :
      same_code (Entry (AddHbondPairHCatalog d)) (Entry (AddHbondPairHCatalog d'))
  | same_add_lw_get_hbond_ij d d' :
      same_code (Entry (AddLwGetHbondIj d)) (Entry (AddLwGetHbondIj d'))
  | same_dump fopen_ok clk fopen_ok' clk' :
      same_code (Entry (Dump fopen_ok clk)) (Entry (Dump fopen_ok' clk'))
  | same_analysis f :
      same_code (Entry (Analysis f)) (Entry (Analysis f))
  | same_engine clk clk' s :
      same_code (Engine clk s) (Engine clk' s).







End Engine.
Arguments engine_step A : clear implicits.
Arguments action A : clear implicits.

(** Modelled from the spec: a step of an engine that keeps a clock reading
    in the analysis state; the header allows it, and it is not
    instrumentation. *)
Definition keeps_reading : engine_step Z :=
  fun p now _ => (hd 0%Z now, p).

End Instrumented.
(** * The build scripts (tools/)

    [build_legacy_rnaview_sh]  the script that builds [bin/rnaview], with its
                               toolchain fallbacks
    [cargo_sysroot_sh]         the wrapper that runs [cargo] with the
                               toolchain of the sysroot
    [build_rnaview_rustcore_sh]  tools/build_rnaview_rustcore.sh

    All three run under [set -euo pipefail].  The scripts are modelled for
    an environment in which HOME and PATH are set, as their expansions
    under [set -u] require. *)

Module Tools.

(** What a script has done: the commands it ran with their exit status
    (latest first), the variables it exported, and the lines it echoed. *)
Record ToolState : Type := mkToolState {
  commands : list (list string * nat);
  exports : gmap string string;
  stdout : list string;
  stderr : list string
}.

Definition start : ToolState := mkToolState [] ∅ [] [].

Definition Tool (A : Type) : Type := ToolState -> TestScript.step A * ToolState.

Definition ret {A : Type} (a : A) : Tool A := fun s => (TestScript.Go a, s).

Definition bind {A B : Type} (m : Tool A) (k : A -> Tool B) : Tool B :=
  fun s =>
    match m s with
    | (TestScript.Go a, s') => k a s'
    | (TestScript.Exit n, s') => (TestScript.Exit n, s')
    end.

Notation "x <- m ;; k" := (bind m (fun x => k))
  (at level 100, m at next level, right associativity).
Notation "m ;;; k" := (bind m (fun _ => k))
  (at level 100, right associativity).

Definition exit {A : Type} (n : nat) : Tool A := fun s => (TestScript.Exit n, s).

Definition log (argv : list string) (status : nat) : Tool unit :=
  fun s => (TestScript.Go tt,
            mkToolState ((argv, status) :: commands s) (exports s) (stdout s) (stderr s)).

(** The state after a command has run. *)
Definition logged (argv : list string) (n : nat) (s : ToolState) : ToolState :=
  mkToolState ((argv, n) :: commands s) (exports s) (stdout s) (stderr s).

(** A simple command under [set -e]. *)
Definition cmd (argv : list string) (status : nat) : Tool unit :=
  log argv status ;;; if (status =? 0)%nat then ret tt else exit status.

(** A command whose status is tested ([if], [&&]). *)
Definition cmd_if (argv : list string) (status : nat) : Tool bool :=
  log argv status ;;; ret (status =? 0)%nat.

(** [command || true]. *)
Definition cmd_or_true (argv : list string) (status : nat) : Tool unit :=
  log argv status.

(** [exec command]: the command takes the place of the shell, its status is
    the status of the script. *)
Definition exec_cmd {A : Type} (argv : list string) (status : nat) : Tool A :=
  log argv status ;;; exit status.

Definition export (name value : string) : Tool unit :=
  fun s => (TestScript.Go tt,
            mkToolState (commands s) (<[name := value]> (exports s)) (stdout s) (stderr s)).

Definition echo (line : string) : Tool unit :=
  fun s => (TestScript.Go tt,
            mkToolState (commands s) (exports s) (stdout s ++ [line]) (stderr s)).

Definition echo_err (line : string) : Tool unit :=
  fun s => (TestScript.Go tt,
            mkToolState (commands s) (exports s) (stdout s) (stderr s ++ [line])).

(** [for x in words; do body; done] *)
Fixpoint for_each {X : Type} (words : list X) (body : X -> Tool unit) : Tool unit :=
  match words with
  | [] => ret tt
  | x :: rest => body x ;;; for_each rest body
  end.

(** The exit status of a script; falling off the end is the status of the
    last command, which is 0 wherever a script below can reach its end. *)
Definition status_of (r : TestScript.step unit * ToolState) : nat :=
  match fst r with
  | TestScript.Go _ => 0
  | TestScript.Exit n => n
  end.

(** The status of the latest command with the given program name, if the
    script ran one. *)
Definition ran (prog : string) (s : ToolState) : option nat :=
  snd <$> find (fun c => bool_decide (head c.1 = Some prog)) (commands s).

(** How often the script ran the program. *)
Definition times_ran (prog : string) (s : ToolState) : nat :=
  length (filter (fun c => head c.1 = Some prog) (commands s)).

(** ** Paths of the sysroot toolchain *)

Definition toolchain_dir (home : string) : string :=
  (home ++ "/.cache/rnaview-toolchain")%string.

Definition sysroot_of (home : string) : string :=
  (toolchain_dir home ++ "/root")%string.

(** [PATH="${SYSROOT}/usr/bin:${SYSROOT}/bin:${PATH}"] *)
Definition sysroot_PATH (sysroot path : string) : string :=
  (sysroot ++ "/usr/bin:" ++ sysroot ++ "/bin:" ++ path)%string.

(** The four library directories of the sysroot, joined by colons. *)
Definition sysroot_libs (sysroot : string) : string :=
  (sysroot ++ "/usr/lib/x86_64-linux-gnu:" ++ sysroot ++ "/lib/x86_64-linux-gnu:"
   ++ sysroot ++ "/usr/lib:" ++ sysroot ++ "/lib")%string.

(** [${VAR:+:${VAR}}]: a colon and the value when [VAR] is set and not
    empty, nothing otherwise. *)
Definition colon_if_set (v : option string) : string :=
  match v with
  | None | Some EmptyString => EmptyString
  | Some s => (":" ++ s)%string
  end.

(** [${VAR:+ ${VAR}}] *)
Definition space_if_set (v : option string) : string :=
  match v with
  | None | Some EmptyString => EmptyString
  | Some s => (" " ++ s)%string
  end.

(** The arguments of [make] with the sysroot compiler. *)
Definition sysroot_make_argv (sysroot : string) : list string :=
  [ "make";
    ("CC=" ++ sysroot ++ "/usr/bin/gcc-14")%string;
    ("CFLAGS=--sysroot=" ++ sysroot ++ " -isystem " ++ sysroot ++ "/usr/include -isystem "
     ++ sysroot ++ "/usr/include/x86_64-linux-gnu -Iinclude")%string;
    ("LDFLAGS=--sysroot=" ++ sysroot)%string ].

(** The entries of a colon-separated list. *)
Fixpoint split_colon (s : string) : list string :=
  match s with
  | EmptyString => [EmptyString]
  | String c s' =>
      if Ascii.eqb c ":" then EmptyString :: split_colon s'
      else match split_colon s' with
           | h :: t => String c h :: t
           | [] => [String c EmptyString]
           end
  end.

Definition no_colon (s : string) : Prop :=
  Forall (fun c => c ≠ ":"%char) (list_ascii_of_string s).

(** ** build_legacy_rnaview.sh *)

Inductive LegacyStep : Type :=
  | LRepoRoot        (* REPO_ROOT=$(cd -- $(dirname -- ...)/.. && pwd) *)
  | LCd              (* cd $REPO_ROOT *)
  | LCommandMake     (* command -v make *)
  | LCommandCc       (* command -v cc *)
  | LMake            (* make *)
  | LSysrootMake     (* make CC=... with the cached sysroot *)
  | LMkdirApt        (* mkdir -p $APTROOT/lists/partial $APTROOT/cache/archives/partial *)
  | LTruncStatus     (* : > $APTROOT/status *)
  | LAptUpdate       (* apt-get ... update *)
  | LRmToolchain     (* rm -rf $TOOLCHAIN_DIR *)
  | LMkdirToolchain  (* mkdir -p $DEBDIR $SYSROOT *)
  | LCdDebs          (* cd $DEBDIR *)
  | LAptDownload     (* apt-get ... download pkgs *)
  | LLnLib           (* ln -s usr/lib $SYSROOT/lib *)
  | LLnLib64         (* ln -s usr/lib64 $SYSROOT/lib64 *)
  | LLnLd | LLnAs | LLnAr | LLnRanlib | LLnCc   (* ln -sf ... || true *)
  | LCdRepo          (* cd $REPO_ROOT *)
  | LAptMake.        (* make CC=... with the downloaded sysroot *)

#[export] Instance LegacyStep_eq_dec : EqDecision LegacyStep.
Proof. solve_decision. Defined.

(** What the script finds: the status of each command, the values of the
    variables, the results of the file tests, and the words of [./*.deb]
    with the status of [dpkg-deb -x] on each (when no file matches, bash
    passes the pattern itself as the only word, so there is a first word). *)
Record LegacyEnv : Type := mkLegacyEnv {
  l_status : LegacyStep -> nat;
  l_REPO_ROOT : string;
  l_HOME : string;
  l_PATH : string;
  l_sysroot_make_x : bool;   (* [[ -x $SYSROOT/usr/bin/make ]] *)
  l_sysroot_gcc_x : bool;    (* [[ -x $SYSROOT/usr/bin/gcc-14 ]] *)
  l_lib_exists : bool;       (* [[ -e $SYSROOT/lib ]] *)
  l_lib64_exists : bool;     (* [[ -e $SYSROOT/lib64 ]] *)
  l_deb_first : string * nat;
  l_deb_rest : list (string * nat)
}.

Definition pkgs : list string :=
  [ "make";
    "gcc-14"; "gcc-14-x86-64-linux-gnu"; "gcc-14-base";
    "cpp-14"; "cpp-14-x86-64-linux-gnu";
    "libgcc-14-dev"; "libcc1-0";
    "libgmp10"; "libisl23"; "libmpc3"; "libmpfr6";
    "zlib1g"; "libzstd1";
    "libstdc++6"; "libgcc-s1";
    "libgomp1"; "libitm1"; "libatomic1"; "libasan8"; "liblsan0"; "libtsan2";
    "libubsan1"; "libhwasan0"; "libquadmath0";
    "binutils-x86-64-linux-gnu"; "binutils-common"; "libbinutils"; "libctf0";
    "libctf-nobfd0"; "libgprofng0"; "libsframe1"; "libjansson4";
    "libc6"; "libc6-dev"; "libc-dev-bin"; "linux-libc-dev"; "libcrypt-dev";
    "libcrypt1"; "rpcsvc-proto" ].

Definition apt_get_argv (aptroot : string) (action : list string) : list string :=
  [ "apt-get";
    "-o"; ("Dir::State=" ++ aptroot)%string;
    "-o"; ("Dir::State::lists=" ++ aptroot ++ "/lists")%string;
    "-o"; ("Dir::State::status=" ++ aptroot ++ "/status")%string;
    "-o"; ("Dir::Cache=" ++ aptroot ++ "/cache")%string;
    "-o"; ("Dir::Cache::archives=" ++ aptroot ++ "/cache/archives")%string;
    "-o"; "Debug::NoLocking=1" ]
  ++ action.

(** Lines 12 to 97 of the script: the cached sysroot toolchain when it is
    usable, otherwise the download of a toolchain. *)
Definition legacy_fallback (e : LegacyEnv) : Tool unit :=
  let st := l_status e in
  let repo := l_REPO_ROOT e in
  let toolchain := toolchain_dir (l_HOME e) in
  let sysroot := sysroot_of (l_HOME e) in
  if l_sysroot_make_x e && l_sysroot_gcc_x e then
    export "PATH" (sysroot_PATH sysroot (l_PATH e)) ;;;
    export "LD_LIBRARY_PATH" (sysroot_libs sysroot) ;;;
    cmd (sysroot_make_argv sysroot) (st LSysrootMake) ;;;
    echo ("built: " ++ repo ++ "/bin/rnaview")%string ;;;
    exit 0
  else
    let aptroot := (l_HOME e ++ "/.apt")%string in
    let debdir := (toolchain ++ "/debs")%string in
    cmd [ "mkdir"; "-p"; (aptroot ++ "/lists/partial")%string;
          (aptroot ++ "/cache/archives/partial")%string ] (st LMkdirApt) ;;;
    cmd [ ":"; ">"; (aptroot ++ "/status")%string ] (st LTruncStatus) ;;;
    cmd (apt_get_argv aptroot [ "update" ]) (st LAptUpdate) ;;;
    cmd [ "rm"; "-rf"; toolchain ] (st LRmToolchain) ;;;
    cmd [ "mkdir"; "-p"; debdir; sysroot ] (st LMkdirToolchain) ;;;
    cmd [ "cd"; debdir ] (st LCdDebs) ;;;
    cmd (apt_get_argv aptroot ("download" :: pkgs)) (st LAptDownload) ;;;
    for_each (l_deb_first e :: l_deb_rest e)
      (fun deb => cmd [ "dpkg-deb"; "-x"; deb.1; sysroot ] deb.2) ;;;
    (if l_lib_exists e then ret tt
     else cmd [ "ln"; "-s"; "usr/lib"; (sysroot ++ "/lib")%string ] (st LLnLib)) ;;;
    (if l_lib64_exists e then ret tt
     else cmd [ "ln"; "-s"; "usr/lib64"; (sysroot ++ "/lib64")%string ] (st LLnLib64)) ;;;
    cmd_or_true [ "ln"; "-sf"; "x86_64-linux-gnu-ld"; (sysroot ++ "/usr/bin/ld")%string ]
      (st LLnLd) ;;;
    cmd_or_true [ "ln"; "-sf"; "x86_64-linux-gnu-as"; (sysroot ++ "/usr/bin/as")%string ]
      (st LLnAs) ;;;
    cmd_or_true [ "ln"; "-sf"; "x86_64-linux-gnu-ar"; (sysroot ++ "/usr/bin/ar")%string ]
      (st LLnAr) ;;;
    cmd_or_true [ "ln"; "-sf"; "x86_64-linux-gnu-ranlib";
                  (sysroot ++ "/usr/bin/ranlib")%string ] (st LLnRanlib) ;;;
    cmd_or_true [ "ln"; "-sf"; "gcc-14"; (sysroot ++ "/usr/bin/cc")%string ] (st LLnCc) ;;;
    export "PATH" (sysroot_PATH sysroot (l_PATH e)) ;;;
    export "LD_LIBRARY_PATH" (sysroot_libs sysroot) ;;;
    cmd [ "cd"; repo ] (st LCdRepo) ;;;
    cmd (sysroot_make_argv sysroot) (st LAptMake) ;;;
    echo ("built: " ++ repo ++ "/bin/rnaview")%string.

Definition build_legacy_rnaview_sh (e : LegacyEnv) : Tool unit :=
  let st := l_status e in
  cmd [ "cd"; "--"; "$(dirname -- ${BASH_SOURCE[0]})/.." ] (st LRepoRoot) ;;;
  cmd [ "cd"; l_REPO_ROOT e ] (st LCd) ;;;
  (* if command -v make && command -v cc; then make; exit 0; fi *)
  has_make <- cmd_if [ "command"; "-v"; "make" ] (st LCommandMake) ;;
  has_cc <- (if has_make : bool
             then cmd_if [ "command"; "-v"; "cc" ] (st LCommandCc)
             else ret false) ;;
  if has_cc : bool then
    cmd [ "make" ] (st LMake) ;;;
    exit 0
  else legacy_fallback e.

Definition legacy_run (e : LegacyEnv) : TestScript.step unit * ToolState :=
  build_legacy_rnaview_sh e start.

(** The environment [e] with other statuses for the commands. *)
Definition with_status (st : LegacyStep -> nat) (e : LegacyEnv) : LegacyEnv :=
  mkLegacyEnv st (l_REPO_ROOT e) (l_HOME e) (l_PATH e) (l_sysroot_make_x e)
    (l_sysroot_gcc_x e) (l_lib_exists e) (l_lib64_exists e) (l_deb_first e)
    (l_deb_rest e).

(** The five links made with [ln -sf ... || true]. *)
Definition optional_link (s : LegacyStep) : bool :=
  match s with
  | LLnLd | LLnAs | LLnAr | LLnRanlib | LLnCc => true
  | _ => false
  end.

(** The system toolchain is used: [make] and [cc] are both found. *)
Definition system_toolchain (e : LegacyEnv) : Prop :=
  l_status e LCommandMake = 0 ∧ l_status e LCommandCc = 0.

(** The cached sysroot toolchain is usable. *)
Definition cached_toolchain (e : LegacyEnv) : Prop :=
  l_sysroot_make_x e = true ∧ l_sysroot_gcc_x e = true.

(** The words of a loop whose body is one command under [set -e]: the
    words the loop reaches, up to and including the first whose command
    fails, and the status of that command. *)
Fixpoint attempted {X : Type} (status : X -> nat) (words : list X) : list X :=
  match words with
  | [] => []
  | x :: rest => if (status x =? 0)%nat then x :: attempted status rest else [x]
  end.

Fixpoint first_failure {X : Type} (status : X -> nat) (words : list X) : option nat :=
  match words with
  | [] => None
  | x :: rest => if (status x =? 0)%nat then first_failure status rest else Some (status x)
  end.

(** ** cargo_sysroot.sh *)

Record CargoEnv : Type := mkCargoEnv {
  c_root_status : nat;        (* REPO_ROOT=$(cd -- $(dirname -- ...)/.. && pwd) *)
  c_REPO_ROOT : string;
  c_HOME : string;
  c_PATH : string;
  c_LD_LIBRARY_PATH : option string;
  c_RUSTFLAGS : option string;
  c_cc_x : bool;              (* [[ -x $SYSROOT/usr/bin/cc ]] *)
  c_legacy : LegacyEnv;       (* what build_legacy_rnaview.sh finds, if it is run *)
  c_args : list string;       (* the arguments of the script *)
  c_cargo_status : nat        (* exec cargo ... *)
}.

(** The child script runs in the environment of its parent. *)
Definition inherit (repo home path : string) (e : LegacyEnv) : LegacyEnv :=
  mkLegacyEnv (l_status e) repo home path (l_sysroot_make_x e) (l_sysroot_gcc_x e)
    (l_lib_exists e) (l_lib64_exists e) (l_deb_first e) (l_deb_rest e).

Definition legacy_argv (repo : string) : list string :=
  [ "bash"; (repo ++ "/tools/build_legacy_rnaview.sh")%string ].

Definition cargo_link_arg (sysroot : string) (rustflags : option string) : string :=
  ("-C link-arg=--sysroot=" ++ sysroot ++ space_if_set rustflags)%string.

Definition cargo_sysroot_sh (e : CargoEnv) : Tool unit :=
  let repo := c_REPO_ROOT e in
  let sysroot := sysroot_of (c_HOME e) in
  cmd [ "cd"; "--"; "$(dirname -- ${BASH_SOURCE[0]})/.." ] (c_root_status e) ;;;
  (if c_cc_x e then ret tt
   else cmd (legacy_argv repo)
          (status_of (legacy_run (inherit repo (c_HOME e) (c_PATH e) (c_legacy e))))) ;;;
  export "PATH" (sysroot_PATH sysroot (c_PATH e)) ;;;
  export "LD_LIBRARY_PATH"
    (sysroot_libs sysroot ++ colon_if_set (c_LD_LIBRARY_PATH e))%string ;;;
  export "CARGO_TARGET_X86_64_UNKNOWN_LINUX_GNU_LINKER"
    (sysroot ++ "/usr/bin/gcc-14")%string ;;;
  export "RUSTFLAGS" (cargo_link_arg sysroot (c_RUSTFLAGS e)) ;;;
  exec_cmd ("cargo" :: c_args e) (c_cargo_status e).

Definition cargo_run (e : CargoEnv) : TestScript.step unit * ToolState :=
  cargo_sysroot_sh e start.

(** ** build_rnaview_rustcore.sh *)

Record RustcoreEnv : Type := mkRustcoreEnv {
  r_root_status : nat;
  r_REPO_ROOT : string;
  r_HOME : string;
  r_PATH : string;
  r_LD_LIBRARY_PATH : option string;
  r_RUSTFLAGS : option string;
  r_cc_x : bool;                   (* [[ -x $SYSROOT/usr/bin/cc ]] *)
  r_legacy : LegacyEnv;            (* what build_legacy_rnaview.sh finds, if run *)
  r_cargo : CargoEnv;              (* what cargo_sysroot.sh finds *)
  r_lib_exists : bool;             (* [[ -f $RUST_LIB ]] *)
  r_mkdir_status : nat;            (* mkdir -p $OBJ_DIR $REPO_ROOT/bin *)
  r_compile_status : string -> nat;  (* $CC ... -c src/<source> *)
  r_link_status : nat
}.

Definition sources : list string :=
  [ "rnaview.c"; "fpair.c"; "fpair_sub.c"; "pair_type.c"; "nrutil.c"; "ps-xy.c";
    "ps-xy-sub.c"; "vrml.c"; "rnaxml-new.c"; "analyze.c"; "pattern.c"; "xml2ps.c";
    "multiple.c"; "statistics.c" ].

(** [${src%.c}]: the name without a final [.c]. *)
Definition strip_dot_c (src : string) : string :=
  match rev (list_ascii_of_string src) with
  | "c"%char :: "."%char :: r => string_of_list_ascii (rev r)
  | _ => src
  end.

Definition CFLAGS (repo sysroot : string) : list string :=
  [ ("--sysroot=" ++ sysroot)%string;
    "-isystem"; (sysroot ++ "/usr/include")%string;
    "-isystem"; (sysroot ++ "/usr/include/x86_64-linux-gnu")%string;
    ("-I" ++ repo ++ "/include")%string;
    "-g"; "-Wall";
    "-DRNAVIEW_RUST_CHECK_PAIRS"; "-DRNAVIEW_RUST_HBOND_PAIR";
    "-DRNAVIEW_RUST_LW_PAIR_TYPE" ].

Definition obj_of (repo src : string) : string :=
  (repo ++ "/obj/rustcore/" ++ strip_dot_c src ++ ".o")%string.

Definition compile_argv (repo sysroot src : string) : list string :=
  [ (sysroot ++ "/usr/bin/gcc-14")%string ] ++ CFLAGS repo sysroot
  ++ [ "-c"; (repo ++ "/src/" ++ src)%string; "-o"; obj_of repo src ].

Definition rust_lib (repo : string) : string :=
  (repo ++ "/rust/target/debug/librnaview_hotcore.a")%string.

Definition bin_out (repo : string) : string := (repo ++ "/bin/rnaview_rustcore")%string.

Definition link_argv (repo sysroot : string) (objs : list string) : list string :=
  [ (sysroot ++ "/usr/bin/gcc-14")%string; ("--sysroot=" ++ sysroot)%string;
    "-g"; "-Wall"; "-o"; bin_out repo ]
  ++ objs ++ [ rust_lib repo; "-lm"; "-ldl"; "-lpthread" ].

Definition cargo_build_args (repo : string) : list string :=
  [ "build"; "--manifest-path"; (repo ++ "/rust/Cargo.toml")%string; "--lib";
    "--features"; "legacy-ffi" ].

(** What cargo_sysroot.sh finds when this script runs it: the variables are
    the ones this script has exported. *)
Definition child_cargo (e : RustcoreEnv) : CargoEnv :=
  let sysroot := sysroot_of (r_HOME e) in
  mkCargoEnv (c_root_status (r_cargo e)) (r_REPO_ROOT e) (r_HOME e)
    (sysroot_PATH sysroot (r_PATH e))
    (Some (sysroot_libs sysroot ++ colon_if_set (r_LD_LIBRARY_PATH e))%string)
    (r_RUSTFLAGS e) (c_cc_x (r_cargo e)) (c_legacy (r_cargo e))
    (cargo_build_args (r_REPO_ROOT e)) (c_cargo_status (r_cargo e)).

Definition cargo_sysroot_argv (repo : string) : list string :=
  [ "bash"; (repo ++ "/tools/cargo_sysroot.sh")%string ] ++ cargo_build_args repo.

Definition build_rnaview_rustcore_sh (e : RustcoreEnv) : Tool unit :=
  let repo := r_REPO_ROOT e in
  let sysroot := sysroot_of (r_HOME e) in
  cmd [ "cd"; "--"; "$(dirname -- ${BASH_SOURCE[0]})/.." ] (r_root_status e) ;;;
  (if r_cc_x e then ret tt
   else cmd (legacy_argv repo)
          (status_of (legacy_run (inherit repo (r_HOME e) (r_PATH e) (r_legacy e))))) ;;;
  export "PATH" (sysroot_PATH sysroot (r_PATH e)) ;;;
  export "LD_LIBRARY_PATH"
    (sysroot_libs sysroot ++ colon_if_set (r_LD_LIBRARY_PATH e))%string ;;;
  echo_err "== build rust staticlib (legacy-ffi) ==" ;;;
  cmd (cargo_sysroot_argv repo) (status_of (cargo_run (child_cargo e))) ;;;
  (if r_lib_exists e then ret tt
   else echo_err ("missing rust staticlib: " ++ rust_lib repo)%string ;;; exit 2) ;;;
  cmd [ "mkdir"; "-p"; (repo ++ "/obj/rustcore")%string; (repo ++ "/bin")%string ]
    (r_mkdir_status e) ;;;
  for_each sources
    (fun src => cmd (compile_argv repo sysroot src) (r_compile_status e src)) ;;;
  echo_err ("== link " ++ bin_out repo ++ " ==")%string ;;;
  cmd (link_argv repo sysroot (obj_of repo <$> sources)) (r_link_status e) ;;;
  echo_err ("built: " ++ bin_out repo)%string.

Definition rustcore_run (e : RustcoreEnv) : TestScript.step unit * ToolState :=
  build_rnaview_rustcore_sh e start.

(** The steps before the compilation succeed. *)
Definition reaches_compile (e : RustcoreEnv) : Prop :=
  r_root_status e = 0
  ∧ (r_cc_x e = true
     ∨ status_of (legacy_run (inherit (r_REPO_ROOT e) (r_HOME e) (r_PATH e) (r_legacy e))) = 0)
  ∧ status_of (cargo_run (child_cargo e)) = 0
  ∧ r_lib_exists e = true
  ∧ r_mkdir_status e = 0.

(** The statuses that decide the exit status of build_legacy_rnaview.sh, in
    the order in which the script runs the commands: every command under
    [set -e] on the path the script takes.  The tested commands
    ([command -v]) and the links made with [|| true] are not among them. *)
Definition fallback_gates (e : LegacyEnv) : list nat :=
  let st := l_status e in
  if l_sysroot_make_x e && l_sysroot_gcc_x e then [ st LSysrootMake ]
  else [ st LMkdirApt; st LTruncStatus; st LAptUpdate; st LRmToolchain;
         st LMkdirToolchain; st LCdDebs; st LAptDownload ]
       ++ (snd <$> l_deb_first e :: l_deb_rest e)
       ++ (if l_lib_exists e then [] else [ st LLnLib ])
       ++ (if l_lib64_exists e then [] else [ st LLnLib64 ])
       ++ [ st LCdRepo; st LAptMake ].

Definition legacy_gates (e : LegacyEnv) : list nat :=
  let st := l_status e in
  [ st LRepoRoot; st LCd ]
  ++ (if (st LCommandMake =? 0)%nat && (st LCommandCc =? 0)%nat then [ st LMake ]
      else fallback_gates e).

(** The first non-zero status of a list, 0 when there is none. *)
Definition first_nonzero (l : list nat) : nat :=
  default 0 (first_failure id l).

End Tools.

(** * Environments to run the build scripts in *)

Module ToolsDemo.
Import Tools.

(** No system compiler, no cached sysroot; the download succeeds, one of
    the optional links fails. *)
Definition downloading : LegacyEnv :=
  mkLegacyEnv (fun s => match s with LCommandCc => 1 | LLnAs => 1 | _ => 0 end)
    "/repo" "/home/u" "/usr/bin" false true true false
    ("./make.deb", 0) [ ("./gcc-14.deb", 0) ].

(** The same environment with a failing second package. *)
Definition broken_package : LegacyEnv :=
  mkLegacyEnv (l_status downloading) "/repo" "/home/u" "/usr/bin" false true true false
    ("./make.deb", 0) [ ("./gcc-14.deb", 2); ("./libc6.deb", 0) ].

(** The same statuses with all optional links failing. *)
Definition links_fail (s : LegacyStep) : nat :=
  if optional_link s then 1 else l_status downloading s.

(** [make] and [cc] are installed, [make] fails. *)
Definition system_make_fails : LegacyEnv :=
  mkLegacyEnv (fun s => match s with LMake => 2 | _ => 0 end)
    "/repo" "/home/u" "/usr/bin" true true true true ("./*.deb", 1) [].

(** No network: [apt-get update] fails. *)
Definition offline : LegacyEnv :=
  mkLegacyEnv (fun s => match s with LCommandMake => 1 | LAptUpdate => 100 | _ => 0 end)
    "/repo" "/home/u" "/usr/bin" false false false false ("./*.deb", 1) [].

(** The sysroot compiler is there; LD_LIBRARY_PATH and RUSTFLAGS are set. *)
Definition cargo_test : CargoEnv :=
  mkCargoEnv 0 "/repo" "/home/u" "/usr/bin" (Some "/opt/lib:/opt/lib64")
    (Some "-C debuginfo=1") true offline [ "test"; "--manifest-path"; "rust/Cargo.toml" ] 101.

(** The sysroot compiler is missing and cannot be downloaded. *)
Definition cargo_offline : CargoEnv :=
  mkCargoEnv 0 "/repo" "/home/u" "/usr/bin" None None false offline [ "build" ] 0.

(** All tools are there; the third source does not compile. *)
Definition third_source_fails : RustcoreEnv :=
  mkRustcoreEnv 0 "/repo" "/home/u" "/usr/bin" None None true offline
    (mkCargoEnv 0 EmptyString EmptyString EmptyString None None true offline [] 0)
    true 0 (fun src => if String.eqb src "fpair_sub.c" then 1 else 0) 0.

(** All tools are there and every step succeeds. *)
Definition all_good : RustcoreEnv :=
  mkRustcoreEnv 0 "/repo" "/home/u" "/usr/bin" None None true offline
    (mkCargoEnv 0 EmptyString EmptyString EmptyString None None true offline [] 0)
    true 0 (fun _ => 0) 0.


End ToolsDemo.


(** * The commands of test.sh *)

Module TestRuns.
Import TestScript.

(** The commands of test.sh in the order of the script, each with the
    status the environment gives it. *)
Definition planned (e : ShellEnv) : list (list string * nat) :=
  [ ([ "cd"; "--"; "$(dirname -- ${BASH_SOURCE[0]})" ], root_dir_status e) ]
  ++ (if rnaview_executable e then [] else [ (build_argv e, build_status e) ])
  ++ [ ([ "mktemp"; "-d" ], mktemp_status e);
       (batch_argv e, batch_status e);
       ([ "rm"; "-rf"; OUT_DIR e ], rm_status e) ].

(** The commands test.sh has run, earliest first. *)
Definition trace (e : ShellEnv) : list (list string * nat) :=
  rev (invoked (final e)).

End TestRuns.
(** * Properties of the profiling module *)

Section CStrings.
Import Profile.

Lemma strlen_le (s : list ascii) : strlen s ≤ length s.
Proof.
  induction s as [|c s IH]; simpl; [lia|].
  destruct (is_nul c); lia.
Qed.

Lemma c_str_length (s : list ascii) : length (c_str s) = strlen s.
Proof. unfold c_str. rewrite length_take. pose proof (strlen_le s). lia. Qed.

Lemma c_str_no_nul (s : list ascii) :
  Forall (fun c => is_nul c = false) (c_str s).
Proof.
  unfold c_str. induction s as [|c s IH]; simpl; [constructor|].
  destruct (is_nul c) eqn:E; simpl; [constructor|].
  constructor; assumption.
Qed.

Lemma strlen_prefix (l r : list ascii) :
  Forall (fun c => is_nul c = false) l → strlen (l ++ NUL :: r) = length l.
Proof.
  induction 1 as [|c l Hc _ IH]; simpl; [reflexivity|].
  rewrite Hc, IH. reflexivity.
Qed.

Lemma c_str_prefix (l r : list ascii) :
  Forall (fun c => is_nul c = false) l → c_str (l ++ NUL :: r) = l.
Proof.
  intros Hl. unfold c_str. rewrite (strlen_prefix _ _ Hl).
  by rewrite take_app_length.
Qed.

Lemma take_c_str (n : nat) (s : list ascii) :
  n ≤ strlen s → take n s = take n (c_str s).
Proof.
  intros Hn. unfold c_str. rewrite take_take. f_equal. lia.
Qed.

Lemma take_no_nul (n : nat) (s : list ascii) :
  Forall (fun c => is_nul c = false) (take n (c_str s)).
Proof. apply Forall_take, c_str_no_nul. Qed.

(** The memory after the copy of [n] characters and the terminator. *)
Lemma copy_shape (d s : list ascii) (n : nat) :
  n ≤ length s → n < length d →
  <[n := NUL]> (memcpy d s n) = take n s ++ NUL :: drop (S n) d.
Proof.
  intros Hs Hd. unfold memcpy.
  assert (Hlen : length (take n s) = n) by (rewrite length_take; lia).
  rewrite insert_app_r_alt by lia.
  rewrite Hlen, Nat.sub_diag. f_equal.
  destruct (drop n d) as [|x t] eqn:E.
  - apply (f_equal length) in E. rewrite length_drop in E. simpl in E. lia.
  - simpl. f_equal. 
    change t with (drop 1 (x :: t)). rewrite <- E, drop_drop. f_equal. lia.
Qed.

Lemma copied_min (cap : nat) (s : list ascii) :
  0 < cap → copied cap s = strlen s `min` (cap - 1).
Proof.
  intros Hc. unfold copied. destruct (Nat.leb_spec cap (strlen s)); lia.
Qed.

Lemma copy_str_some (d : list ascii) (cap : nat) (s : list ascii) :
  0 < cap → cap ≤ length d →
  copy_str (Some d) cap (Some s)
  = Some (take (cap - 1) (c_str s) ++ NUL :: drop (S (copied cap s)) d).
Proof.
  intros Hc Hd. unfold copy_str.
  destruct (Nat.eqb_spec cap 0) as [->|_]; [lia|].
  fold (copied cap s).
  pose proof (copied_min cap s Hc) as Hm. pose proof (strlen_le s) as Hs.
  rewrite copy_shape by lia.
  do 2 f_equal.
  rewrite take_c_str by lia.
  unfold c_str at 1 2. rewrite !take_take. f_equal. lia.
Qed.

Lemma copy_str_null_src (d : list ascii) (cap : nat) :
  0 < cap → cap ≤ length d →
  copy_str (Some d) cap None = Some (NUL :: drop 1 d).
Proof.
  intros Hc Hd. unfold copy_str.
  destruct (Nat.eqb_spec cap 0) as [->|_]; [lia|].
  destruct d as [|x d]; simpl in *; [lia|]. by rewrite drop_0.
Qed.

End CStrings.

Section CopyStr.
Import Profile.

(** What [copy_str] leaves in a buffer of at least [cap] bytes. *)
Lemma copy_str_spec (d : list ascii) (cap : nat) (src : option (list ascii)) :
  0 < cap → cap ≤ length d →
  ∃ d', copy_str (Some d) cap src = Some d'
    ∧ length d' = length d
    ∧ (∀ k, cap ≤ k → d' !! k = d !! k)
    ∧ strlen d' < cap
    ∧ d' !! strlen d' = Some NUL
    ∧ c_str d' = take (cap - 1) (c_str (default [] src)).
Proof.
  intros Hc Hd. destruct src as [s|]; cbn [default from_option id].
  - rewrite copy_str_some by assumption.
    eexists; split; [reflexivity|].
    pose proof (copied_min cap s Hc) as Hm.
    pose proof (strlen_le s) as Hs.
    pose proof (take_no_nul (cap - 1) s) as Hnn.
    assert (Hl : length (take (cap - 1) (c_str s)) = copied cap s)
      by (rewrite length_take, c_str_length; lia).
    split_and!.
    + rewrite length_app, Hl. simpl. rewrite length_drop. lia.
    + intros k Hk. rewrite lookup_app_r by lia. rewrite Hl.
      replace (k - copied cap s) with (S (k - S (copied cap s))) by lia.
      simpl. rewrite lookup_drop. f_equal. lia.
    + rewrite strlen_prefix by assumption. lia.
    + rewrite strlen_prefix by assumption.
      rewrite lookup_app_r by lia. by rewrite Nat.sub_diag.
    + by rewrite c_str_prefix.
  - rewrite copy_str_null_src by assumption.
    eexists; split; [reflexivity|].
    split_and!.
    + simpl. rewrite length_drop. lia.
    + intros k Hk. destruct k as [|k]; [lia|]. simpl.
      rewrite lookup_drop. reflexivity.
    + simpl. lia.
    + reflexivity.
    + unfold c_str. simpl. by rewrite take_nil.
Qed.

End CopyStr.

Section Begin.
Import Profile.

Lemma PATH_CAP_eq : PATH_CAP = 1024.
Proof. reflexivity. Qed.

Lemma begin_unset (env : option (list ascii)) clk ip n p :
  unset_or_empty env → rnaview_profile_begin env clk ip n p = set_enabled 0 p.
Proof.
  unfold rnaview_profile_begin. destruct env as [path|]; simpl; [|done].
  intros ->. reflexivity.
Qed.

Lemma begin_set (path : list ascii) clk ip n p :
  strlen path ≠ 0 →
  rnaview_profile_begin (Some path) clk ip n p
  = mkProfile 1 n 0 0 0 0 0 0 0 0 (rnaview_profile_now_ns clk) 0
      0 0 0 0 0 0 0 0 0 0 0
      (default (replicate PATH_CAP NUL)
         (copy_str (Some (replicate PATH_CAP NUL)) PATH_CAP ip))
      (default (replicate PATH_CAP NUL)
         (copy_str (Some (replicate PATH_CAP NUL)) PATH_CAP (Some path))).
Proof.
  intros Hne. unfold rnaview_profile_begin.
  destruct (Nat.eqb_spec (strlen path) 0); [done|reflexivity].
Qed.

(** A copy into a zeroed path array: the string, cut to 1023 characters,
    followed by NUL bytes up to the end of the array. *)
Lemma copy_into_zeroed (src : option (list ascii)) :
  let c := take (PATH_CAP - 1) (c_str (default [] src)) in
  copy_str (Some (replicate PATH_CAP NUL)) PATH_CAP src
  = Some (c ++ replicate (PATH_CAP - length c) NUL).
Proof.
  pose proof PATH_CAP_eq as HC.
  assert (Hlen : length (replicate PATH_CAP NUL) = PATH_CAP) by apply length_replicate.
  cbv zeta. destruct src as [s|]; cbn [default from_option id].
  - set (c := take (PATH_CAP - 1) (c_str s)).
    rewrite copy_str_some by lia. f_equal. fold c. f_equal.
    assert (Hc : length c = copied PATH_CAP s).
    { unfold c. rewrite length_take, c_str_length, copied_min by lia. lia. }
    assert (copied PATH_CAP s < PATH_CAP) by (rewrite copied_min by lia; lia).
    rewrite drop_replicate, Hc.
    replace (PATH_CAP - copied PATH_CAP s) with (S (PATH_CAP - S (copied PATH_CAP s))) by lia.
    reflexivity.
  - rewrite copy_str_null_src by lia. reflexivity.
Qed.

(** The facts about a path array that [copy_into_zeroed] gives. *)
Lemma zeroed_path_facts (c : list ascii) :
  Forall (fun x => is_nul x = false) c → length c < PATH_CAP →
  let buf := c ++ replicate (PATH_CAP - length c) NUL in
  length buf = PATH_CAP ∧ c_str buf = c ∧ strlen buf = length c
  ∧ ∀ k, length c ≤ k < PATH_CAP → buf !! k = Some NUL.
Proof.
  intros Hc Hl buf. unfold buf.
  replace (PATH_CAP - length c) with (S (PATH_CAP - S (length c))) by lia.
  split_and!.
  - rewrite length_app, length_replicate. lia.
  - simpl. by apply c_str_prefix.
  - simpl. by apply strlen_prefix.
  - intros k Hk. rewrite lookup_app_r by lia.
    apply lookup_replicate. split; [reflexivity|lia].
Qed.

Lemma cut_path_short (src : option (list ascii)) :
  length (take (PATH_CAP - 1) (c_str (default [] src))) < PATH_CAP.
Proof. rewrite length_take. pose proof PATH_CAP_eq. lia. Qed.

End Begin.

Section ProfileEntryPoints.
Import Profile Process.

Lemma unset_or_empty_dec (env : option (list ascii)) :
  {unset_or_empty env} + {¬ unset_or_empty env}.
Proof. destruct env as [path|]; simpl; [apply Nat.eq_dec|by left]. Defined.

Lemma wrap64_id (z : Z) : (- 2 ^ 63 ≤ z < 2 ^ 63)%Z → wrap64 z = z.
Proof.
  intros Hz. unfold wrap64. rewrite Z.mod_small; lia.
Qed.

Lemma now_ns_exact (ts : timespec) :
  (0 ≤ tv_sec ts < 9223372036)%Z → (0 ≤ tv_nsec ts < 1000000000)%Z →
  rnaview_profile_now_ns (Some ts) = (tv_sec ts * 1000000000 + tv_nsec ts)%Z.
Proof.
  intros Hs Hn. unfold rnaview_profile_now_ns.
  rewrite (wrap64_id (tv_sec ts * 1000000000)) by lia.
  apply wrap64_id. lia.
Qed.

Lemma begin_holds_copy (src : option (list ascii)) :
  holds_copy
    (default (replicate PATH_CAP NUL)
       (copy_str (Some (replicate PATH_CAP NUL)) PATH_CAP src)) src.
Proof.
  rewrite copy_into_zeroed. cbn [default from_option id].
  pose proof (zeroed_path_facts _ (take_no_nul (PATH_CAP - 1) (default [] src))
                (cut_path_short src)) as (Hl & Hc & Hs & Hz).
  unfold holds_copy. split_and!; [done|done|].
  intros k Hk. apply Hz. lia.
Qed.

Lemma holds_copy_fits (buf : list ascii) (src : option (list ascii)) :
  holds_copy buf src → length buf = PATH_CAP ∧ strlen buf < PATH_CAP.
Proof.
  intros (Hl & Hc & _). split; [done|].
  rewrite <- c_str_length, Hc, length_take. pose proof PATH_CAP_eq. lia.
Qed.

Lemma paths_fit_init : paths_fit RNAVIEW_PROFILE_init.
Proof. unfold paths_fit. vm_compute. repeat split; lia. Qed.

Lemma paths_fit_begin env clk ip n p :
  paths_fit p → paths_fit (rnaview_profile_begin env clk ip n p).
Proof.
  intros Hp. destruct (unset_or_empty_dec env) as [Hu|Hs].
  - rewrite begin_unset by done. by destruct p.
  - destruct env as [path|]; [|by destruct Hs]. rewrite begin_set by done.
    unfold paths_fit; cbn [input_path json_path].
    destruct (holds_copy_fits _ _ (begin_holds_copy ip)).
    destruct (holds_copy_fits _ _ (begin_holds_copy (Some path))).
    done.
Qed.

Lemma paths_fit_exec {A : Type} (c : call A) (w : World A) :
  paths_fit (profile w) → paths_fit (profile (exec w c)).
Proof.
  intros Hp. destruct c; simpl.
  - by apply paths_fit_begin.
  - unfold rnaview_profile_add_all_pairs_hbond_pair_h_catalog.
    destruct (enabled (profile w) =? 0)%Z; [done|]. by destruct (profile w).
  - unfold rnaview_profile_add_all_pairs_lw_get_hbond_ij.
    destruct (enabled (profile w) =? 0)%Z; [done|]. by destruct (profile w).
  - unfold rnaview_profile_dump.
    destruct (_ || _); [done|].
    destruct (fopen_ok _); simpl; by destruct (profile w).
  - done.
Qed.

Lemma paths_fit_run {A : Type} (cs : list (call A)) (w : World A) :
  paths_fit (profile w) → paths_fit (profile (run cs w)).
Proof.
  revert w. induction cs as [|c cs IH]; intros w Hp; [done|].
  simpl. apply IH. by apply paths_fit_exec.
Qed.

End ProfileEntryPoints.

Section ProfileClaims.
Import Profile Process.

(** C9.  [copy_str] never overflows and always terminates its output.  With
    a null [dst] or [cap = 0] the memory at [dst] is what it was.  Otherwise,
    for a [dst] of at least [cap] bytes: no byte at offset [cap] or beyond
    changes, the result holds a NUL before offset [cap], and the string it
    holds is the longest prefix of [src] of length at most [cap - 1] (the
    empty string for a null [src]).  Consequently, in every state the
    entry points reach from the initial global, [input_path] and
    [json_path] keep their 1024 bytes and hold a terminated string. *)
Theorem copy_str_bounded (dst : option (list ascii)) (cap : nat)
    (src : option (list ascii)) :
  (dst = None ∨ cap = 0 → copy_str dst cap src = dst)
  ∧ (∀ d, dst = Some d → 0 < cap → cap ≤ length d →
       ∃ d', copy_str dst cap src = Some d'
         ∧ length d' = length d
         ∧ (∀ k, cap ≤ k → d' !! k = d !! k)
         ∧ strlen d' < cap
         ∧ d' !! strlen d' = Some NUL
         ∧ c_str d' = take (cap - 1) (c_str (default [] src)))
  ∧ (∀ (A : Type) (cs : list (call A)) (w : World A),
       profile w = RNAVIEW_PROFILE_init → paths_fit (profile (run cs w)))
  ∧ (∀ path clk ip n p,
       strlen path ≠ 0 →
       let q := rnaview_profile_begin (Some path) clk ip n p in
       c_str (input_path q) = take 1023 (c_str (default [] ip))
       ∧ c_str (json_path q) = take 1023 (c_str path)).
Proof.
  split_and!.
  - intros [-> | ->]; [reflexivity|]. by destruct dst.
  - intros d -> Hc Hd. by apply copy_str_spec.
  - intros A cs w Hw. apply paths_fit_run. rewrite Hw. apply paths_fit_init.
  - intros path clk ip n p Hne q. unfold q. rewrite begin_set by done.
    cbn [input_path json_path].
    destruct (begin_holds_copy ip) as (_ & Hi & _).
    destruct (begin_holds_copy (Some path)) as (_ & Hj & _).
    done.
Qed.

Lemma copy_str_bounded_witness :
  copy_str (Some (replicate 8 "x"%char)) 0 (Some (list_ascii_of_string "hello"))
  = Some (replicate 8 "x"%char)
  ∧ (∃ d', copy_str (Some (replicate 8 "x"%char)) 4 (Some (list_ascii_of_string "hello"))
           = Some d'
       ∧ length d' = 8
       ∧ (∀ k, 4 ≤ k → d' !! k = replicate 8 "x"%char !! k)
       ∧ strlen d' < 4
       ∧ d' !! strlen d' = Some NUL
       ∧ c_str d' = list_ascii_of_string "hel")
  ∧ paths_fit
      (profile (run [ Begin (Some (list_ascii_of_string "prof.json")) None
                            (Some (list_ascii_of_string "a.pdb")) 76 ]
                    (mkWorld RNAVIEW_PROFILE_init tt ∅)))
  ∧ (let q := rnaview_profile_begin (Some (list_ascii_of_string "prof.json")) None
                (Some (repeat "a"%char 2000)) 76 zero_profile in
     c_str (input_path q) = take 1023 (c_str (repeat "a"%char 2000))).
Proof.
  split_and!.
  - apply (proj1 (copy_str_bounded (Some (replicate 8 "x"%char)) 0
                    (Some (list_ascii_of_string "hello")))).
    right. reflexivity.
  - apply (proj1 (proj2 (copy_str_bounded (Some (replicate 8 "x"%char)) 4
                           (Some (list_ascii_of_string "hello"))))
             (replicate 8 "x"%char)).
    + reflexivity.
    + simpl. lia.
    + simpl. lia.
  - apply (proj1 (proj2 (proj2 (copy_str_bounded None 0 None)))). reflexivity.
  - apply (proj2 (proj2 (proj2 (copy_str_bounded None 0 None)))
             (list_ascii_of_string "prof.json")).
    simpl. lia.
Defined.

(** C8.  Postcondition of [rnaview_profile_begin].  When
    RNAVIEW_PROFILE_JSON is unset or empty the call clears [enabled] and
    leaves every other field as it was.  Otherwise the global is zeroed and
    then [enabled = 1], [num_residue] is the argument, the two path arrays
    hold [input_path] and the value of the variable (cut to 1023
    characters), and [begin_ns] is the clock reading.  So after the call,
    whenever [enabled] is non-zero every call counter and every time
    accumulator is zero. *)
Theorem rnaview_profile_begin_post (env : option (list ascii))
    (clk : option timespec) (ip : option (list ascii)) (n : Z) (p : RnaViewProfile) :
  let q := rnaview_profile_begin env clk ip n p in
  (unset_or_empty env → enabled q = 0%Z ∧ same_but_enabled p q)
  ∧ (¬ unset_or_empty env →
       enabled q = 1%Z ∧ num_residue q = n
       ∧ begin_ns q = rnaview_profile_now_ns clk ∧ end_ns q = 0%Z
       ∧ Forall (eq 0%Z) (counters q) ∧ Forall (eq 0%Z) (accumulators q)
       ∧ holds_copy (input_path q) ip ∧ holds_copy (json_path q) env)
  ∧ (∀ ts, clk = Some ts → ¬ unset_or_empty env →
       (0 ≤ tv_sec ts < 9223372036)%Z → (0 ≤ tv_nsec ts < 1000000000)%Z →
       begin_ns q = (tv_sec ts * 1000000000 + tv_nsec ts)%Z)
  ∧ (enabled q ≠ 0%Z →
       Forall (eq 0%Z) (counters q) ∧ Forall (eq 0%Z) (accumulators q)).
Proof.
  intros q.
  assert (Hset : ¬ unset_or_empty env →
       enabled q = 1%Z ∧ num_residue q = n
       ∧ begin_ns q = rnaview_profile_now_ns clk ∧ end_ns q = 0%Z
       ∧ Forall (eq 0%Z) (counters q) ∧ Forall (eq 0%Z) (accumulators q)
       ∧ holds_copy (input_path q) ip ∧ holds_copy (json_path q) env).
  { intros Hs. destruct env as [path|]; [|by destruct Hs].
    unfold q. rewrite begin_set by done.
    cbn [enabled num_residue begin_ns end_ns input_path json_path].
    split_and!; try reflexivity.
    - unfold counters; simpl. repeat constructor.
    - unfold accumulators; simpl. repeat constructor.
    - apply begin_holds_copy.
    - apply begin_holds_copy. }
  assert (Hunset : unset_or_empty env → enabled q = 0%Z ∧ same_but_enabled p q).
  { intros Hu. unfold q. rewrite begin_unset by done.
    destruct p. by split_and!. }
  split_and!; [done|done| |].
  - intros ts -> Hs Hsec Hnsec.
    destruct (Hset Hs) as (_ & _ & -> & _). by apply now_ns_exact.
  - intros Hen. destruct (unset_or_empty_dec env) as [Hu|Hs].
    + destruct (Hunset Hu) as [H0 _]. done.
    + destruct (Hset Hs) as (_ & _ & _ & _ & Hc & Ha & _). done.
Qed.

(** A global with stale values in it. *)
Lemma rnaview_profile_begin_post_witness :
  let stale := rnaview_profile_add_all_pairs_lw_get_hbond_ij 100
                 (rnaview_profile_begin (Some (list_ascii_of_string "old.json")) None
                    (Some (list_ascii_of_string "old.pdb")) 12 zero_profile) in
  (let q := rnaview_profile_begin None None (Some (list_ascii_of_string "a.pdb")) 76 stale in
   enabled q = 0%Z ∧ same_but_enabled stale q)
  ∧ (let q := rnaview_profile_begin (Some (list_ascii_of_string "prof.json"))
                (Some (mkTimespec 5 7)) (Some (list_ascii_of_string "a.pdb")) 76 stale in
     begin_ns q = 5000000007%Z
     ∧ Forall (eq 0%Z) (counters q) ∧ Forall (eq 0%Z) (accumulators q)).
Proof.
  intros stale. split.
  - apply (proj1 (rnaview_profile_begin_post None None
                    (Some (list_ascii_of_string "a.pdb")) 76 stale)).
    exact I.
  - pose proof (rnaview_profile_begin_post (Some (list_ascii_of_string "prof.json"))
                  (Some (mkTimespec 5 7)) (Some (list_ascii_of_string "a.pdb")) 76 stale)
      as (_ & _ & Hclk & Hzero).
    split.
    + apply (Hclk (mkTimespec 5 7)); [reflexivity|simpl; lia|simpl; lia|simpl; lia].
    + apply Hzero. vm_compute. discriminate.
Defined.

(** C10.  With [enabled = 0] the two accumulator functions return with the
    global as it was, and [rnaview_profile_dump] returns with the global as
    it was and without a file operation; the same holds for the dump when
    [json_path] is the empty string.  The file system is then unchanged. *)
Theorem profile_disabled_noop (p : RnaViewProfile) :
  (enabled p = 0%Z →
     ∀ delta_ns,
       rnaview_profile_add_all_pairs_hbond_pair_h_catalog delta_ns p = p
       ∧ rnaview_profile_add_all_pairs_lw_get_hbond_ij delta_ns p = p)
  ∧ (enabled p = 0%Z ∨ strlen (json_path p) = 0 →
     ∀ fopen_ok clk,
       rnaview_profile_dump fopen_ok clk p = (p, [])
       ∧ ∀ (A : Type) (a : A) (files : gmap string string),
           exec (mkWorld p a files) (Dump fopen_ok clk) = mkWorld p a files).
Proof.
  split.
  - intros He delta_ns.
    unfold rnaview_profile_add_all_pairs_hbond_pair_h_catalog,
      rnaview_profile_add_all_pairs_lw_get_hbond_ij.
    by rewrite He.
  - intros Hoff fopen_ok clk.
    assert (Hd : rnaview_profile_dump fopen_ok clk p = (p, [])).
    { unfold rnaview_profile_dump.
      destruct Hoff as [-> | ->]; [reflexivity|].
      by rewrite orb_true_r. }
    split; [done|].
    intros A a files. unfold exec. cbn [profile analysis fs]. by rewrite Hd.
Qed.

Lemma profile_disabled_noop_witness :
  let p := rnaview_profile_begin None None (Some (list_ascii_of_string "a.pdb")) 76
             zero_profile in
  rnaview_profile_add_all_pairs_hbond_pair_h_catalog 250 p = p
  ∧ rnaview_profile_add_all_pairs_lw_get_hbond_ij 250 p = p
  ∧ rnaview_profile_dump (fun _ => true) (Some (mkTimespec 6 0)) p = (p, [])
  ∧ rnaview_profile_dump (fun _ => true) (Some (mkTimespec 6 0)) (set_enabled 1 p)
    = (set_enabled 1 p, []).
Proof.
  intros p.
  pose proof (profile_disabled_noop p) as [Hadd Hdump].
  pose proof (profile_disabled_noop (set_enabled 1 p)) as [_ Hdump1].
  split_and!.
  - apply (Hadd eq_refl).
  - apply (Hadd eq_refl).
  - apply (Hdump (or_introl eq_refl)).
  - apply (Hdump1 (or_intror eq_refl)).
Defined.

End ProfileClaims.

(** * The profile and the analysis *)

Section Frame.
Import Profile Process.


Lemma dump_body_fprintf (p : RnaViewProfile) :
  Forall (fun e => ∃ txt, e = Fprintf txt) (dump_body p).
Proof. unfold dump_body, json_kv_long, json_kv_ll. repeat constructor; eauto. Qed.



End Frame.

Section ProfileAndAnalysis.
Import Profile Process.

(** C2, as stated, fails: a process that profiles one structure and then
    starts the next one with RNAVIEW_PROFILE_JSON unset keeps the counter,
    the accumulated time and the input path of the first analysis in the
    global. *)
Lemma stale_profile_survives_begin :
  let first := [ Begin (Some (list_ascii_of_string "first.json")) (Some (mkTimespec 1 0))
                       (Some (list_ascii_of_string "first.pdb")) 76;
                 AddHbondPairHCatalog 100;
                 Dump (fun _ => true) (Some (mkTimespec 2 0)) ] in
  let second := Begin None (Some (mkTimespec 3 0))
                  (Some (list_ascii_of_string "second.pdb")) 20 in
  let p := profile (run (first ++ [second]) (fresh tt ∅)) in
  all_pairs_hbond_pair_h_catalog_calls p = 1%Z
  ∧ all_pairs_hbond_pair_h_catalog_ns p = 100%Z
  ∧ fmt_s (input_path p) = "first.pdb"
  ∧ p ≠ profile (run [second] (fresh tt ∅))
  ∧ ¬ reset_at_begin.
Proof.
  intros first second p.
  assert (Hne : p ≠ profile (run [second] (fresh tt ∅))).
  { intros Heq. apply (f_equal all_pairs_hbond_pair_h_catalog_calls) in Heq.
    vm_compute in Heq. discriminate. }
  split_and!; [reflexivity|reflexivity|reflexivity|exact Hne|].
  intros Hreset. apply Hne. apply Hreset.
Qed.

(** C2, amended.  When RNAVIEW_PROFILE_JSON is set and not empty,
    [rnaview_profile_begin] leaves a global that does not depend on the
    one before the call.  When it is unset or empty, the stale fields stay
    in the global but nothing reads them out: [enabled] is 0, the
    accumulator functions leave the global as it is, and
    [rnaview_profile_dump] performs no file operation. *)
Theorem begin_resets_or_silences (env : option (list ascii))
    (clk : option timespec) (ip : option (list ascii)) (n : Z) :
  (¬ unset_or_empty env →
     ∀ p p', rnaview_profile_begin env clk ip n p = rnaview_profile_begin env clk ip n p')
  ∧ (unset_or_empty env →
     ∀ p, let q := rnaview_profile_begin env clk ip n p in
       rnaview_profile_is_enabled q = 0%Z
       ∧ same_but_enabled p q
       ∧ (∀ d, rnaview_profile_add_all_pairs_hbond_pair_h_catalog d q = q)
       ∧ (∀ d, rnaview_profile_add_all_pairs_lw_get_hbond_ij d q = q)
       ∧ (∀ fopen_ok clk', rnaview_profile_dump fopen_ok clk' q = (q, []))).
Proof.
  split.
  - intros Hs p p'. destruct env as [path|]; [|by destruct Hs].
    by rewrite !begin_set.
  - intros Hu p q. unfold q. rewrite begin_unset by done.
    split_and!.
    + by destruct p.
    + by destruct p.
    + intros d. by destruct p.
    + intros d. by destruct p.
    + intros fopen_ok clk'. by destruct p.
Qed.

Lemma begin_resets_or_silences_witness :
  let stale := rnaview_profile_add_all_pairs_hbond_pair_h_catalog 100
                 (rnaview_profile_begin (Some (list_ascii_of_string "first.json")) None
                    (Some (list_ascii_of_string "first.pdb")) 76 zero_profile) in
  rnaview_profile_begin (Some (list_ascii_of_string "p.json")) None None 20 stale
  = rnaview_profile_begin (Some (list_ascii_of_string "p.json")) None None 20 zero_profile
  ∧ rnaview_profile_dump (fun _ => true) None
      (rnaview_profile_begin None None None 20 stale)
    = (rnaview_profile_begin None None None 20 stale, []).
Proof.
  intros stale. split.
  - apply (proj1 (begin_resets_or_silences (Some (list_ascii_of_string "p.json"))
                    None None 20)).
    vm_compute. discriminate.
  - apply (proj2 (begin_resets_or_silences None None None 20) I stale).
Defined.

End ProfileAndAnalysis.

(** * The end-to-end script *)

Section Script.
Import TestScript.

(** C7, as stated, fails: without an executable [bin/rnaview] the script
    builds it first, and when the build ends with status 2 the script ends
    with status 2 under [set -e]; the batch command is not run and no
    output directory exists. *)
Lemma build_failure_exits_with_build_status :
  let e := mkShellEnv 0 "/repo" false 2 0 "/tmp/tmp.out" 0 0 in
  exit_status e = 2 ∧ batch_result e = None ∧ out_dir (final e) = NotCreated
  ∧ ¬ gate_as_stated e.
Proof.
  intros e. split_and!; try reflexivity.
  intros [_ Hfail].
  destruct Hfail as [Hexit _]; [discriminate|].
  vm_compute in Hexit. discriminate.
Qed.

(** The options of the batch command. *)
Lemma batch_argv_shape (e : ShellEnv) :
  length inputs = 14
  ∧ batch_argv e
    = [ "python3"; (ROOT_DIR e ++ "/tools/rnaview_batch.py")%string; "run" ]
      ++ inputs
      ++ [ "--out-dir"; OUT_DIR e; "--regress"; "--regress-mode"; "out"; "--keep-going" ].
Proof. split; reflexivity. Qed.

(** C7, amended.  When the steps before it succeed ([bin/rnaview] is
    executable or the build succeeds, and [mktemp] succeeds), the script
    runs the batch command with [--regress --regress-mode out] over its 14
    inputs.  If that command succeeds and [rm] succeeds the script exits
    with status 0 and the output directory is removed; if the command fails
    the script exits with status 1, reports the directory and keeps it.
    The script exits with status 0 only after a successful batch command
    and the removal of the directory.  When an earlier step fails the batch
    command is not run and the script ends with the status of that step.
    The mode [out] compares bytes and is stricter than the mode [core]. *)
Theorem test_sh_gate (e : ShellEnv) :
  (reaches_batch e →
     (batch_argv e, batch_status e) ∈ invoked (final e)
     ∧ batch_result e = Some (batch_status e)
     ∧ (batch_status e = 0 → rm_status e = 0 →
          exit_status e = 0 ∧ out_dir (final e) = Removed)
     ∧ (batch_status e = 0 → rm_status e ≠ 0 →
          exit_status e = rm_status e ∧ out_dir (final e) = Present)
     ∧ (batch_status e ≠ 0 →
          exit_status e = 1 ∧ out_dir (final e) = Present
          ∧ stderr (final e) = [ ("FAILED: outputs kept at " ++ OUT_DIR e)%string ]))
  ∧ (exit_status e = 0 → batch_result e = Some 0 ∧ out_dir (final e) = Removed)
  ∧ (¬ reaches_batch e →
       batch_result e = None ∧ exit_status e ≠ 0 ∧ out_dir (final e) = NotCreated
       ∧ (exit_status e = root_dir_status e ∨ exit_status e = build_status e
          ∨ exit_status e = mktemp_status e))
  ∧ length inputs = 14
  ∧ (∃ pre, batch_argv e
            = pre ++ inputs
              ++ [ "--out-dir"; OUT_DIR e; "--regress"; "--regress-mode"; "out";
                   "--keep-going" ])
  ∧ mode_of_name "out" = Some RegressOut
  ∧ (∀ (R : Type) (extract : string → list R) golden candidate,
       regress_pass extract RegressOut golden candidate →
       regress_pass extract RegressCore golden candidate).
Proof.
  destruct e as [rs root ex bs ms out ps rms].
  unfold reaches_batch, exit_status, final, batch_result; cbn [root_dir_status
    rnaview_executable build_status mktemp_status batch_status rm_status OUT_DIR].
  split_and!.
  - intros (-> & Hbuild & ->).
    assert (Hb : ex = true ∨ (ex = false ∧ bs = 0)).
    { destruct ex; [by left|right]. by destruct Hbuild. }
    clear Hbuild.
    destruct Hb as [-> | [-> ->]];
      (destruct ps as [|ps]; [destruct rms as [|rms]|]);
      (split_and!; [set_solver|reflexivity|try done..]).
  - destruct rs as [|rs]; [|done].
    destruct ex; [|destruct bs as [|bs]; [|done]];
      (destruct ms as [|ms]; [|done]);
      (destruct ps as [|ps]; [|done]);
      (destruct rms as [|rms]; [|done]); done.
  - intros Hnot.
    destruct rs as [|rs]; [|split_and!; auto].
    destruct ex; [|destruct bs as [|bs]; [|split_and!; auto]];
      (destruct ms as [|ms]; [|split_and!; auto]);
      destruct Hnot; auto.
  - reflexivity.
  - eexists. apply batch_argv_shape.
  - reflexivity.
  - intros R extract golden candidate Hout r. simpl in Hout. by rewrite Hout.
Qed.

Lemma test_sh_gate_witness :
  let ok := mkShellEnv 0 "/repo" true 0 0 "/tmp/tmp.out" 0 0 in
  let bad := mkShellEnv 0 "/repo" false 0 0 "/tmp/tmp.out" 1 0 in
  (exit_status ok = 0 ∧ out_dir (final ok) = Removed)
  ∧ (exit_status bad = 1 ∧ out_dir (final bad) = Present
     ∧ stderr (final bad) = [ "FAILED: outputs kept at /tmp/tmp.out" ])
  ∧ batch_result ok = Some 0.
Proof.
  intros ok bad.
  assert (Hok : reaches_batch ok) by (vm_compute; auto).
  assert (Hbad : reaches_batch bad) by (vm_compute; auto).
  pose proof (test_sh_gate ok) as (Hreach & Hzero & _).
  pose proof (test_sh_gate bad) as (Hreach' & _).
  destruct (Hreach Hok) as (_ & _ & Hpass & _).
  destruct (Hreach' Hbad) as (_ & _ & _ & _ & Hfail).
  split; [|split].
  - apply Hpass; reflexivity.
  - apply Hfail. vm_compute. discriminate.
  - apply Hzero. reflexivity.
Defined.

End Script.

(** * The record set *)

Section RecordSet.
Import Core.
Context `{Eng : Engine}.

Lemma index_pairs_spec (n a b : nat) :
  (a, b) ∈ index_pairs n ↔ 1 ≤ a ∧ a < b ∧ b ≤ n.
Proof.
  unfold index_pairs. rewrite list_elem_of_bind. split.
  - intros (x & Hb & Hx). apply elem_of_seq in Hx.
    apply list_elem_of_fmap in Hb as (y & [= -> ->] & Hy).
    apply elem_of_seq in Hy. lia.
  - intros (H1 & H2 & H3). exists a. split.
    + apply list_elem_of_fmap. exists b. split; [done|].
      apply elem_of_seq. lia.
    + apply elem_of_seq. lia.
Qed.

Lemma raw_verdicts_index_ok (bs : list (Residue * ascii)) (r : Raw) :
  r ∈ raw_verdicts bs → index_ok (length bs) (record r).
Proof.
  unfold raw_verdicts. rewrite list_elem_of_bind.
  intros ([a b] & Hr & Hab). apply index_pairs_spec in Hab. simpl in Hr.
  destruct (bs !! (a - 1)) as [ra|]; [|by apply elem_of_nil in Hr].
  destruct (bs !! (b - 1)) as [rb|]; [|by apply elem_of_nil in Hr].
  apply list_elem_of_fmap in Hr as (c & -> & _).
  unfold index_ok. simpl. lia.
Qed.

Lemma dedup_step_kept (P : Raw → Prop) m r :
  kept_ok P m → P r → kept_ok P (dedup_step m r).
Proof.
  intros Hm Hr k r'. unfold dedup_step.
  destruct (m !! key (record r)) as [r0|] eqn:E.
  - destruct (_ && _); [|by apply Hm].
    rewrite lookup_insert. case_decide; [|by apply Hm].
    intros [= <-]. by subst.
  - rewrite lookup_insert. case_decide; [|by apply Hm].
    intros [= <-]. by subst.
Qed.

Lemma foldl_dedup_kept (P : Raw → Prop) (rs : list Raw) m :
  kept_ok P m → Forall P rs → kept_ok P (foldl dedup_step m rs).
Proof.
  intros Hm Hrs. revert m Hm.
  induction Hrs as [|r rs Hr _ IH]; intros m Hm; [done|].
  simpl. apply IH. by apply dedup_step_kept.
Qed.

Lemma dedup_kept (P : Raw → Prop) (rs : list Raw) :
  Forall P rs → kept_ok P (dedup rs).
Proof.
  intros Hrs. apply foldl_dedup_kept; [|done].
  intros k r. by rewrite lookup_empty.
Qed.

Lemma kept_keys (P : Raw → Prop) (m : gmap (nat * nat) Raw) :
  kept_ok P m →
  (key ∘ record) <$> (map_to_list m).*2 = (map_to_list m).*1
  ∧ Forall P (map_to_list m).*2.
Proof.
  intros Hm.
  assert (Hall : Forall (fun kr => key (record kr.2) = kr.1 ∧ P kr.2) (map_to_list m)).
  { apply Forall_forall. intros [k r] Hkr.
    apply elem_of_map_to_list in Hkr. by apply Hm. }
  induction Hall as [|[k r] l [Hk Hp] _ [IH1 IH2]]; [done|].
  csimpl. simpl in Hk, Hp. split; [by rewrite <- Hk, <- IH1|by constructor].
Qed.

Lemma mark_tertiary_key best (r : Raw) :
  key (mark_tertiary best r) = key (record r).
Proof. unfold mark_tertiary. by destruct (_ && _). Qed.

(** The reducer gives records with valid, pairwise distinct indices
    whenever the raw verdicts have valid indices. *)
Lemma reduce_invariants (n : nat) (rs : list Raw) :
  Forall (fun r => index_ok n (record r)) rs → invariants_hold n (reduce rs).
Proof.
  intros Hrs. unfold reduce, invariants_hold.
  destruct (kept_keys _ _ (dedup_kept _ rs Hrs)) as [Hkeys Hok].
  set (kept := (map_to_list (dedup rs)).*2) in *.
  set (best := best_pairs kept).
  rewrite merge_sort_Permutation. split.
  - apply Forall_fmap. eapply Forall_impl; [exact Hok|].
    intros r Hr. unfold compose, index_ok in *.
    pose proof (mark_tertiary_key best r) as Hk. unfold key in Hk.
    injection Hk as Hi Hj. by rewrite Hi, Hj.
  - rewrite <- list_fmap_compose.
    rewrite (list_fmap_ext (key ∘ mark_tertiary best) (key ∘ record) kept)
      by (intros ? r _; apply mark_tertiary_key).
    rewrite Hkeys. apply NoDup_fst_map_to_list.
Qed.

Lemma bases_length (s : list Residue) :
  length (bases s) = length (filter (fun r => is_Some (base_letter r)) s).
Proof.
  unfold bases. induction s as [|r s IH]; [done|].
  simpl. rewrite filter_cons.
  destruct (base_letter r) eqn:E; simpl.
  - f_equal. exact IH.
  - exact IH.
Qed.

(** Every analysis completes. *)
Lemma analyse_completes (s : list Residue) :
  let n := length (bases s) in
  let recs := reduce (raw_verdicts (bases s)) in
  (n = 0 ∧ analyse s = Completed empty_core [MalformedStructure])
  ∨ (n ≠ 0 ∧ invariants_hold n recs
     ∧ analyse s
       = Completed (mkCoreRecord recs (multiplets_of recs n) (stats_of recs n)) []).
Proof.
  intros n recs. unfold analyse. fold n. fold recs.
  destruct (decide (n = 0)) as [Hn|Hn]; [by left|right].
  assert (Hinv : invariants_hold n recs).
  { apply reduce_invariants, Forall_forall. intros r Hr.
    by apply raw_verdicts_index_ok. }
  by rewrite decide_True.
Qed.

End RecordSet.

Section Statistics.
Import Core.

(** Counting one more pair under a key adds one to the sum of the counts. *)
Lemma counts_sum_bump (m : gmap string nat) (k : string) :
  counts_sum (<[k := S (default 0 (m !! k))]> m) = S (counts_sum m).
Proof.
  unfold counts_sum. destruct (m !! k) as [v|] eqn:E; simpl.
  - rewrite <- insert_delete_eq.
    rewrite map_fold_insert_L; [|intros; lia|apply lookup_delete_eq].
    rewrite (map_fold_delete_L _ _ k v m); [|intros; lia|done].
    lia.
  - rewrite map_fold_insert_L; [|intros; lia|done].
    lia.
Qed.

Lemma kind_type_key (r : PairRecord) : kind r = KPair ↔ is_Some (type_key r).
Proof.
  unfold kind, type_key. destruct (verdict r); split; intros Hk;
    try done; try (by eexists); by destruct Hk.
Qed.

Lemma counts_sum_pairs (recs : list PairRecord) :
  counts_sum (foldr count_type ∅ recs)
  = length (filter (fun r => kind r = KPair) recs).
Proof.
  induction recs as [|r recs IH]; [reflexivity|].
  simpl. rewrite filter_cons. unfold count_type at 1.
  pose proof (kind_type_key r) as Hk.
  destruct (type_key r) as [k|].
  - rewrite counts_sum_bump, decide_True by (apply Hk; eauto).
    simpl. by rewrite IH.
  - rewrite decide_False by (intros Hp; apply Hk in Hp; by destruct Hp).
    exact IH.
Qed.

Lemma count_per_key (recs : list PairRecord) (k : string) :
  default 0 (foldr count_type ∅ recs !! k)
  = length (filter (fun r => type_key r = Some k) recs).
Proof.
  induction recs as [|r recs IH]; [reflexivity|].
  simpl. rewrite filter_cons. unfold count_type at 1.
  destruct (type_key r) as [k'|].
  - rewrite lookup_insert. destruct (decide (k' = k)) as [->|Hne].
    + rewrite decide_True by done. simpl. by rewrite IH.
    + rewrite decide_False by congruence. exact IH.
  - rewrite decide_False by done. exact IH.
Qed.

End Statistics.

Section CoreClaims.
Import Core.
Context `{Eng : Engine}.

Lemma unordered_inj (a b c d : nat) :
  a < b → c < d → ({[a; b]} : gset nat) = {[c; d]} → (a, b) = (c, d).
Proof.
  intros Hab Hcd Heq.
  assert (Hl : ∀ x y : nat, x ∈ ({[x; y]} : gset nat))
    by (intros; apply elem_of_union_l; by apply elem_of_singleton).
  assert (Hr : ∀ x y : nat, y ∈ ({[x; y]} : gset nat))
    by (intros; apply elem_of_union_r; by apply elem_of_singleton).
  assert (Ha : a ∈ ({[c; d]} : gset nat)) by (rewrite <- Heq; apply Hl).
  assert (Hb : b ∈ ({[c; d]} : gset nat)) by (rewrite <- Heq; apply Hr).
  assert (Hc : c ∈ ({[a; b]} : gset nat)) by (rewrite Heq; apply Hl).
  assert (Hd : d ∈ ({[a; b]} : gset nat)) by (rewrite Heq; apply Hr).
  rewrite elem_of_union, !elem_of_singleton in Ha.
  rewrite elem_of_union, !elem_of_singleton in Hb.
  rewrite elem_of_union, !elem_of_singleton in Hc.
  rewrite elem_of_union, !elem_of_singleton in Hd.
  f_equal; lia.
Qed.

Lemma unordered_NoDup (n : nat) (recs : list PairRecord) :
  invariants_hold n recs → NoDup (unordered <$> recs).
Proof.
  intros [Hidx Hnd].
  assert (Hun : unordered <$> recs
                = (fun k : nat * nat => ({[k.1; k.2]} : gset nat)) <$> (key <$> recs)).
  { rewrite <- list_fmap_compose. apply list_fmap_ext. done. }
  rewrite Hun. apply NoDup_fmap_2_strong; [|done].
  intros [a b] [c d] Hx Hy Heq. simpl in Heq.
  apply list_elem_of_fmap in Hx as (r1 & [= -> ->] & Hr1).
  apply list_elem_of_fmap in Hy as (r2 & [= -> ->] & Hr2).
  rewrite Forall_forall in Hidx.
  destruct (Hidx _ Hr1) as (_ & H1 & _). destruct (Hidx _ Hr2) as (_ & H2 & _).
  by apply unordered_inj.
Qed.

(** C4.  Every analysis completes, and in its record set every record has
    [1 <= i < j <= total_bases] and no two records have the same index
    pair, ordered or unordered. *)
Theorem final_records_indexed (s : list Residue) :
  ∃ core reported,
    analyse s = Completed core reported
    ∧ Forall (fun r => 1 ≤ i r ∧ i r < j r ∧ j r ≤ total_bases (stats core))
        (base_pairs core)
    ∧ NoDup (key <$> base_pairs core)
    ∧ NoDup (unordered <$> base_pairs core).
Proof.
  destruct (analyse_completes s) as [[Hn ->] | (Hn & Hinv & ->)].
  - exists empty_core, [MalformedStructure]. simpl.
    split_and!; [done|constructor|constructor|constructor].
  - eexists _, _. split; [reflexivity|]. simpl.
    split_and!; [apply Hinv|apply Hinv|].
    by eapply unordered_NoDup.
Qed.

(** C5.  Every analysis completes with statistics in which [total_bases]
    is the number of recognised residues, [total_pairs] the number of
    records of kind [pair], and the values of [pair_type_counts] sum to
    [total_pairs]: the count under a key is the number of pair records with
    that key, and every pair record has one key. *)
Theorem stats_closed (s : list Residue) :
  ∃ core reported,
    analyse s = Completed core reported
    ∧ total_bases (stats core)
      = length (filter (fun r => is_Some (base_letter r)) s)
    ∧ total_pairs (stats core)
      = length (filter (fun r => kind r = KPair) (base_pairs core))
    ∧ counts_sum (pair_type_counts (stats core)) = total_pairs (stats core)
    ∧ (∀ k, default 0 (pair_type_counts (stats core) !! k)
            = length (filter (fun r => type_key r = Some k) (base_pairs core)))
    ∧ (∀ r, r ∈ base_pairs core → kind r = KPair ↔ is_Some (type_key r)).
Proof.
  destruct (analyse_completes s) as [[Hn ->] | (Hn & Hinv & ->)].
  - exists empty_core, [MalformedStructure]. simpl.
    split_and!; try done.
    + by rewrite <- bases_length.
    + intros r Hr. by apply elem_of_nil in Hr.
  - eexists _, _. split; [reflexivity|]. simpl.
    split_and!.
    + apply bases_length.
    + reflexivity.
    + apply counts_sum_pairs.
    + apply count_per_key.
    + intros r _. apply kind_type_key.
Qed.

Lemma bases_none (s : list Residue) :
  Forall (fun r => base_letter r = None) s → bases s = [].
Proof.
  unfold bases. induction 1 as [|r s Hr _ IH]; [done|].
  simpl. rewrite Hr. simpl. exact IH.
Qed.

(** C6.  A structure with no recognised residue raises no error: the
    analysis completes with the empty-structure result ([base_pairs] and
    [multiplets] empty, [total_pairs = 0], [total_bases = 0]) and reports
    MalformedStructure. *)
Theorem empty_structure_result (s : list Residue) :
  Forall (fun r => base_letter r = None) s →
  ∃ core reported,
    analyse s = Completed core reported
    ∧ base_pairs core = [] ∧ multiplets core = []
    ∧ total_pairs (stats core) = 0 ∧ total_bases (stats core) = 0
    ∧ pair_type_counts (stats core) = ∅
    ∧ reported = [MalformedStructure].
Proof.
  intros Hs. exists empty_core, [MalformedStructure].
  unfold analyse. rewrite (bases_none s Hs). simpl.
  by split_and!.
Qed.

End CoreClaims.

Lemma empty_structure_result_witness :
  ∃ core reported,
    Core.analyse Demo.no_bases = Core.Completed core reported
    ∧ Core.base_pairs core = [] ∧ Core.multiplets core = []
    ∧ Core.total_pairs (Core.stats core) = 0 ∧ Core.total_bases (Core.stats core) = 0
    ∧ Core.pair_type_counts (Core.stats core) = ∅
    ∧ reported = [Core.MalformedStructure].
Proof.
  apply (empty_structure_result Demo.no_bases).
  repeat constructor.
Defined.

(** * The model on concrete inputs *)

Section Examples.
Import Profile Process TestScript Core Demo.

Example copy_str_truncates :
  copy_str (Some (replicate 8 "x"%char)) 4 (Some (list_ascii_of_string "hello"))
  = Some [ "h"; "e"; "l"; NUL; "x"; "x"; "x"; "x" ]%char.
Proof. reflexivity. Qed.

Example copy_str_fits :
  copy_str (Some (replicate 8 "x"%char)) 8 (Some (list_ascii_of_string "hello"))
  = Some [ "h"; "e"; "l"; "l"; "o"; NUL; "x"; "x" ]%char.
Proof. reflexivity. Qed.

Example copy_str_null_source :
  copy_str (Some (replicate 3 "x"%char)) 3 None = Some [ NUL; "x"; "x" ]%char.
Proof. reflexivity. Qed.

Example now_ns_reading :
  rnaview_profile_now_ns (Some (mkTimespec 5 7)) = 5000000007%Z
  ∧ rnaview_profile_now_ns None = 0%Z.
Proof. split; reflexivity. Qed.

Example profiled_fields :
  enabled profiled = 1%Z ∧ num_residue profiled = 76%Z
  ∧ begin_ns profiled = 5000000007%Z
  ∧ all_pairs_lw_get_hbond_ij_ns profiled = 100%Z
  ∧ all_pairs_lw_get_hbond_ij_calls profiled = 1%Z
  ∧ fmt_s (input_path profiled) = "a.pdb"
  ∧ fmt_s (json_path profiled) = "prof.json".
Proof. repeat split; reflexivity. Qed.

Example dump_writes_profile_file :
  let '(q, evs) := rnaview_profile_dump (fun _ => true) (Some (mkTimespec 6 7)) profiled in
  end_ns q = 6000000007%Z
  ∧ length evs = 31
  ∧ head evs = Some (Fopen "prof.json" "w" true)
  ∧ evs !! 16 = Some (json_kv_ll "total" 1000000000 true)
  ∧ evs !! 25 = Some (json_kv_ll "all_pairs_lw_get_hbond_ij" 100 true)
  ∧ last evs = Some Fclose
  ∧ dom (exec_io evs {[ "a.out" := "core" ]}) = {[ "a.out"; "prof.json" ]}.
Proof. vm_compute. repeat split. Qed.

Example dump_reports_failed_open :
  snd (rnaview_profile_dump (fun _ => false) None profiled)
  = [ Fopen "prof.json" "w" false ].
Proof. reflexivity. Qed.

Example script_passes :
  exit_status (mkShellEnv 0 "/repo" true 0 0 "/tmp/out" 0 0) = 0
  ∧ out_dir (final (mkShellEnv 0 "/repo" true 0 0 "/tmp/out" 0 0)) = Removed.
Proof. split; reflexivity. Qed.

Example script_fails :
  exit_status (mkShellEnv 0 "/repo" true 0 0 "/tmp/out" 3 0) = 1
  ∧ out_dir (final (mkShellEnv 0 "/repo" true 0 0 "/tmp/out" 3 0)) = Present.
Proof. split; reflexivity. Qed.

Example script_rm_fails :
  exit_status (mkShellEnv 0 "/repo" true 0 0 "/tmp/out" 0 1) = 1
  ∧ batch_result (mkShellEnv 0 "/repo" true 0 0 "/tmp/out" 0 1) = Some 0
  ∧ out_dir (final (mkShellEnv 0 "/repo" true 0 0 "/tmp/out" 0 1)) = Present.
Proof. repeat split; reflexivity. Qed.

Example script_mktemp_fails :
  exit_status (mkShellEnv 0 "/repo" true 0 1 "/tmp/out" 0 0) = 1
  ∧ batch_result (mkShellEnv 0 "/repo" true 0 1 "/tmp/out" 0 0) = None
  ∧ out_dir (final (mkShellEnv 0 "/repo" true 0 1 "/tmp/out" 0 0)) = NotCreated.
Proof. repeat split; reflexivity. Qed.

(** Five bases and a water: the stacked verdict on (1, 2) and on (3, 4)
    gives way to the pair, two of the four pairs are not best pairs, the
    four paired bases form one multiplet. *)
Example demo_analysis :
  ∃ core,
    analyse demo_structure = Completed core []
    ∧ brief <$> base_pairs core
      = [ (1, 2, KPair, EmptyString); (1, 4, KPair, "!"); (2, 3, KPair, "!");
          (3, 4, KPair, EmptyString); (4, 5, KStacked, EmptyString) ]
    ∧ indices <$> multiplets core = [ [1; 2; 3; 4] ]
    ∧ total_pairs (stats core) = 4 ∧ total_bases (stats core) = 5
    ∧ map_to_list (pair_type_counts (stats core)) = [ ("++-cis", 4) ].
Proof. eexists. vm_compute. repeat split. Qed.

End Examples.

(** * Further properties of the profiling module *)

Section CopyStrMore.
Import Profile.

Lemma strlen_take_c_str (n : nat) (s : list ascii) :
  length (take n (c_str s)) = n `min` strlen s.
Proof. by rewrite length_take, c_str_length. Qed.

(** X1.  [copy_str] into a buffer of at least [cap > 0] bytes leaves a
    string of length [min (strlen src) (cap - 1)]; the string read back is
    the source string exactly when the source is shorter than [cap]. *)
Theorem copy_str_round_trip (d : list ascii) (cap : nat) (s : list ascii) :
  0 < cap → cap ≤ length d →
  ∃ d', copy_str (Some d) cap (Some s) = Some d'
    ∧ strlen d' = strlen s `min` (cap - 1)
    ∧ (c_str d' = c_str s ↔ strlen s < cap).
Proof.
  intros Hc Hd.
  destruct (copy_str_spec d cap (Some s) Hc Hd) as (d' & Heq & _ & _ & _ & _ & Hstr).
  cbn [default from_option id] in Hstr.
  exists d'. split; [done|].
  assert (Hlen : strlen d' = strlen s `min` (cap - 1)).
  { rewrite <- (c_str_length d'), Hstr, strlen_take_c_str. lia. }
  split; [done|]. split.
  - intros Hsame. apply (f_equal length) in Hsame.
    rewrite !c_str_length in Hsame. lia.
  - intros Hfit. rewrite Hstr. apply take_ge. rewrite c_str_length. lia.
Qed.

Lemma copy_str_round_trip_witness :
  ∃ d', copy_str (Some (replicate 8 "x"%char)) 6 (Some (list_ascii_of_string "hello"))
        = Some d'
    ∧ strlen d' = 5
    ∧ (c_str d' = c_str (list_ascii_of_string "hello") ↔ 5 < 6).
Proof.
  apply (copy_str_round_trip (replicate 8 "x"%char) 6 (list_ascii_of_string "hello"));
    simpl; lia.
Defined.

(** X2.  [copy_str] does not clear the rest of the buffer: every byte after
    the terminator it writes is what it was before.  Copying the same
    source a second time changes nothing. *)
Theorem copy_str_keeps_tail (d : list ascii) (cap : nat) (src : option (list ascii)) :
  0 < cap → cap ≤ length d →
  ∃ d', copy_str (Some d) cap src = Some d'
    ∧ (∀ k, strlen d' < k → d' !! k = d !! k)
    ∧ copy_str (Some d') cap src = Some d'.
Proof.
  intros Hc Hd. destruct src as [s|].
  - pose proof (copied_min cap s Hc) as Hm. pose proof (strlen_le s) as Hs.
    pose proof (take_no_nul (cap - 1) s) as Hnn.
    assert (Hl : length (take (cap - 1) (c_str s)) = copied cap s)
      by (rewrite strlen_take_c_str; lia).
    set (d' := take (cap - 1) (c_str s) ++ NUL :: drop (S (copied cap s)) d).
    assert (Hlen : length d' = length d).
    { unfold d'. rewrite length_app, Hl. simpl. rewrite length_drop. lia. }
    exists d'. split; [by apply copy_str_some|]. split.
    + intros k Hk. unfold d' in *. rewrite strlen_prefix in Hk by done.
      rewrite lookup_app_r by lia. rewrite Hl.
      replace (k - copied cap s) with (S (k - S (copied cap s))) by lia.
      simpl. rewrite lookup_drop. f_equal. lia.
    + rewrite copy_str_some by lia. f_equal. unfold d' at 2. do 2 f_equal.
      unfold d'. rewrite drop_app_ge by lia. rewrite Hl.
      replace (S (copied cap s) - copied cap s) with 1 by lia.
      simpl. by rewrite drop_0.
  - destruct d as [|x d]; [simpl in Hd; lia|].
    exists (NUL :: d). split; [|split].
    + unfold copy_str. by destruct (Nat.eqb_spec cap 0); [lia|].
    + intros k Hk. simpl in Hk. destruct k as [|k]; [lia|done].
    + unfold copy_str. by destruct (Nat.eqb_spec cap 0); [lia|].
Qed.

Lemma copy_str_keeps_tail_witness :
  ∃ d', copy_str (Some (replicate 8 "x"%char)) 8 (Some (list_ascii_of_string "hi"))
        = Some d'
    ∧ (∀ k, strlen d' < k → d' !! k = replicate 8 "x"%char !! k)
    ∧ copy_str (Some d') 8 (Some (list_ascii_of_string "hi")) = Some d'.
Proof.
  apply (copy_str_keeps_tail (replicate 8 "x"%char) 8
           (Some (list_ascii_of_string "hi"))); simpl; lia.
Defined.

End CopyStrMore.

Section Accumulation.
Import Profile Process ProfileRuns.

Lemma wrap64_in_range (z : Z) : in_range (wrap64 z).
Proof.
  unfold in_range, wrap64.
  pose proof (Z.mod_pos_bound (z + 2 ^ 63) (2 ^ 64)). lia.
Qed.

Lemma wrap64_add_l (a b : Z) : wrap64 (wrap64 a + b) = wrap64 (a + b).
Proof.
  unfold wrap64. f_equal.
  replace ((a + 2 ^ 63) `mod` 2 ^ 64 - 2 ^ 63 + b + 2 ^ 63)%Z
    with ((a + 2 ^ 63) `mod` 2 ^ 64 + b)%Z by lia.
  rewrite Zplus_mod_idemp_l. f_equal. lia.
Qed.

(** What a call other than [rnaview_profile_begin] does to the global. *)
Lemma exec_profile_cases {A : Type} (c : call A) (w : World A) :
  is_begin c = false →
  let p := profile w in
  profile (exec w c) = p
  ∨ (∃ v, profile (exec w c) = set_end_ns v p)
  ∨ (enabled p ≠ 0%Z ∧ ∃ d, c = AddHbondPairHCatalog d
     ∧ profile (exec w c)
       = set_all_pairs_hbond_pair_h_catalog_calls
           (wrap64 (all_pairs_hbond_pair_h_catalog_calls p + 1))
           (set_all_pairs_hbond_pair_h_catalog_ns
              (wrap64 (all_pairs_hbond_pair_h_catalog_ns p + d)) p))
  ∨ (enabled p ≠ 0%Z ∧ ∃ d, c = AddLwGetHbondIj d
     ∧ profile (exec w c)
       = set_all_pairs_lw_get_hbond_ij_calls
           (wrap64 (all_pairs_lw_get_hbond_ij_calls p + 1))
           (set_all_pairs_lw_get_hbond_ij_ns
              (wrap64 (all_pairs_lw_get_hbond_ij_ns p + d)) p)).
Proof.
  intros Hc p. destruct c; try discriminate; simpl.
  - unfold rnaview_profile_add_all_pairs_hbond_pair_h_catalog. fold p.
    destruct (Z.eqb_spec (enabled p) 0); [by left|].
    right; right; left. split; [done|]. exists delta_ns. split; [done|].
    by destruct p.
  - unfold rnaview_profile_add_all_pairs_lw_get_hbond_ij. fold p.
    destruct (Z.eqb_spec (enabled p) 0); [by left|].
    right; right; right. split; [done|]. exists delta_ns. split; [done|].
    by destruct p.
  - unfold rnaview_profile_dump. fold p.
    destruct (_ || _); [by left|].
    right; left. exists (rnaview_profile_now_ns clk).
    by destruct (fopen_ok _).
  - by left.
Qed.

(** A call other than [rnaview_profile_begin] keeps the fields that
    [rnaview_profile_begin] assigns. *)
Lemma exec_begin_fields {A : Type} (c : call A) (w : World A) :
  is_begin c = false →
  let p := profile w in
  let q := profile (exec w c) in
  (enabled q, num_residue q, begin_ns q, input_path q, json_path q)
  = (enabled p, num_residue p, begin_ns p, input_path p, json_path p).
Proof.
  intros Hc.
  destruct (exec_profile_cases c w Hc)
    as [-> | [[v ->] | [(_ & d & _ & ->) | (_ & d & _ & ->)]]];
    by destruct (profile w).
Qed.

(** What every call of a run keeps, the run keeps. *)
Lemma run_preserves {A X : Type} (f : RnaViewProfile → X)
    (cs : list (call A)) (w : World A) :
  (∀ (c : call A) (w : World A),
     is_begin c = false → f (profile (exec w c)) = f (profile w)) →
  Forall (fun c => is_begin c = false) cs →
  f (profile (run cs w)) = f (profile w).
Proof.
  intros Hf Hcs. revert w. induction Hcs as [|c cs Hc _ IH]; intros w; [done|].
  change (run (c :: cs) w) with (run cs (exec w c)).
  rewrite IH. by apply Hf.
Qed.

(** X3.  In a run that does not call [rnaview_profile_begin], the fields
    that only [rnaview_profile_begin] assigns keep their values: [enabled],
    [num_residue], [begin_ns] and the two path arrays. *)
Theorem begin_fields_stable {A : Type} (cs : list (call A)) (w : World A) :
  Forall (fun c => is_begin c = false) cs →
  let p := profile w in
  let q := profile (run cs w) in
  enabled q = enabled p ∧ num_residue q = num_residue p
  ∧ begin_ns q = begin_ns p
  ∧ input_path q = input_path p ∧ json_path q = json_path p.
Proof.
  intros Hcs p q.
  pose proof (run_preserves
                (fun p => (enabled p, num_residue p, begin_ns p, input_path p,
                           json_path p))
                cs w (fun c w Hc => exec_begin_fields c w Hc) Hcs) as H.
  cbv beta in H. fold q p in H.
  by injection H.
Qed.

Lemma begin_fields_stable_witness :
  let w := run [ Begin (Some (list_ascii_of_string "p.json")) (Some (mkTimespec 1 0))
                       (Some (list_ascii_of_string "a.pdb")) 76 ] (fresh tt ∅) in
  let q := profile (run [ AddLwGetHbondIj 5; Dump (fun _ => true) None;
                          AddHbondPairHCatalog 7 ] w) in
  enabled q = enabled (profile w) ∧ num_residue q = num_residue (profile w)
  ∧ begin_ns q = begin_ns (profile w)
  ∧ input_path q = input_path (profile w) ∧ json_path q = json_path (profile w).
Proof.
  intros w.
  apply (begin_fields_stable
           [ AddLwGetHbondIj 5; Dump (fun _ => true) None; AddHbondPairHCatalog 7 ] w).
  repeat constructor.
Defined.

(** The four accumulated fields after one call. *)
Lemma exec_accumulates {A : Type} (c : call A) (w : World A) :
  is_begin c = false → enabled (profile w) ≠ 0%Z →
  let p := profile w in
  let q := profile (exec w c) in
  all_pairs_hbond_pair_h_catalog_calls q
  = (match c with
     | AddHbondPairHCatalog _ => wrap64 (all_pairs_hbond_pair_h_catalog_calls p + 1)
     | _ => all_pairs_hbond_pair_h_catalog_calls p
     end)
  ∧ all_pairs_hbond_pair_h_catalog_ns q
    = (match c with
       | AddHbondPairHCatalog d => wrap64 (all_pairs_hbond_pair_h_catalog_ns p + d)
       | _ => all_pairs_hbond_pair_h_catalog_ns p
       end)
  ∧ all_pairs_lw_get_hbond_ij_calls q
    = (match c with
       | AddLwGetHbondIj _ => wrap64 (all_pairs_lw_get_hbond_ij_calls p + 1)
       | _ => all_pairs_lw_get_hbond_ij_calls p
       end)
  ∧ all_pairs_lw_get_hbond_ij_ns q
    = (match c with
       | AddLwGetHbondIj d => wrap64 (all_pairs_lw_get_hbond_ij_ns p + d)
       | _ => all_pairs_lw_get_hbond_ij_ns p
       end).
Proof.
  intros Hc He p q. unfold q, p. destruct c; try discriminate; simpl.
  - unfold rnaview_profile_add_all_pairs_hbond_pair_h_catalog.
    destruct (Z.eqb_spec (enabled (profile w)) 0); [done|].
    by destruct (profile w).
  - unfold rnaview_profile_add_all_pairs_lw_get_hbond_ij.
    destruct (Z.eqb_spec (enabled (profile w)) 0); [done|].
    by destruct (profile w).
  - unfold rnaview_profile_dump.
    destruct (_ || _); [done|].
    destruct (fopen_ok _); by destruct (profile w).
  - done.
Qed.

Lemma exec_enabled {A : Type} (c : call A) (w : World A) :
  is_begin c = false → enabled (profile (exec w c)) = enabled (profile w).
Proof.
  intros Hc. pose proof (exec_begin_fields c w Hc) as H. cbv zeta in H.
  by injection H.
Qed.

(** X4.  Between two calls of [rnaview_profile_begin], with profiling
    enabled, each accumulator function adds up what it is given: the call
    count grows by the number of calls and the time by the sum of the
    intervals, in 64-bit wrap-around arithmetic, whatever other calls come
    in between. *)
Theorem accumulators_sum {A : Type} (cs : list (call A)) (w : World A) :
  Forall (fun c => is_begin c = false) cs →
  enabled (profile w) ≠ 0%Z →
  let p := profile w in
  let q := profile (run cs w) in
  in_range (all_pairs_hbond_pair_h_catalog_calls p) →
  in_range (all_pairs_hbond_pair_h_catalog_ns p) →
  in_range (all_pairs_lw_get_hbond_ij_calls p) →
  in_range (all_pairs_lw_get_hbond_ij_ns p) →
  all_pairs_hbond_pair_h_catalog_calls q
  = wrap64 (all_pairs_hbond_pair_h_catalog_calls p
            + Z.of_nat (length (hbond_pair_h_catalog_deltas_of cs)))
  ∧ all_pairs_hbond_pair_h_catalog_ns q
    = wrap64 (all_pairs_hbond_pair_h_catalog_ns p
              + sumZ (hbond_pair_h_catalog_deltas_of cs))
  ∧ all_pairs_lw_get_hbond_ij_calls q
    = wrap64 (all_pairs_lw_get_hbond_ij_calls p
              + Z.of_nat (length (lw_get_hbond_ij_deltas_of cs)))
  ∧ all_pairs_lw_get_hbond_ij_ns q
    = wrap64 (all_pairs_lw_get_hbond_ij_ns p + sumZ (lw_get_hbond_ij_deltas_of cs)).
Proof.
  intros Hcs. revert w. induction Hcs as [|c cs Hc _ IH]; intros w He p q H1 H2 H3 H4.
  - unfold q, p in *. simpl. rewrite !Z.add_0_r.
    by rewrite !wrap64_id.
  - unfold q. simpl run.
    destruct (exec_accumulates c w Hc He) as (E1 & E2 & E3 & E4).
    assert (He' : enabled (profile (exec w c)) ≠ 0%Z) by (by rewrite exec_enabled).
    fold p in E1, E2, E3, E4.
    destruct (IH (exec w c) He') as (I1 & I2 & I3 & I4).
    + rewrite E1. destruct c; try done; apply wrap64_in_range.
    + rewrite E2. destruct c; try done; apply wrap64_in_range.
    + rewrite E3. destruct c; try done; apply wrap64_in_range.
    + rewrite E4. destruct c; try done; apply wrap64_in_range.
    + rewrite I1, I2, I3, I4, E1, E2, E3, E4.
      destruct c; try discriminate; csimpl; rewrite ?wrap64_add_l;
        (split_and!; f_equal; lia).
Qed.

Lemma accumulators_sum_witness :
  let w := run [ Begin (Some (list_ascii_of_string "p.json")) (Some (mkTimespec 1 0))
                       (Some (list_ascii_of_string "a.pdb")) 76 ] (fresh tt ∅) in
  let q := profile (run [ AddLwGetHbondIj 5; AddHbondPairHCatalog 7;
                          Dump (fun _ => false) None; AddLwGetHbondIj 11 ] w) in
  all_pairs_hbond_pair_h_catalog_calls q = wrap64 (0 + 1)
  ∧ all_pairs_hbond_pair_h_catalog_ns q = wrap64 (0 + 7)
  ∧ all_pairs_lw_get_hbond_ij_calls q = wrap64 (0 + 2)
  ∧ all_pairs_lw_get_hbond_ij_ns q = wrap64 (0 + 16).
Proof.
  intros w.
  apply (accumulators_sum
           [ AddLwGetHbondIj 5; AddHbondPairHCatalog 7; Dump (fun _ => false) None;
             AddLwGetHbondIj 11 ] w).
  - repeat constructor.
  - vm_compute. discriminate.
  - vm_compute. split; [discriminate|reflexivity].
  - vm_compute. split; [discriminate|reflexivity].
  - vm_compute. split; [discriminate|reflexivity].
  - vm_compute. split; [discriminate|reflexivity].
Defined.

End Accumulation.

Section AccumulatorOrder.
Import Profile Process ProfileRuns.

Lemma add_calls_commute {A : Type} (c1 c2 : call A) (w : World A) :
  is_add c1 = true → is_add c2 = true →
  exec (exec w c1) c2 = exec (exec w c2) c1.
Proof.
  intros H1 H2. destruct w as [p a files].
  destruct c1; try discriminate; destruct c2; try discriminate; simpl;
    f_equal;
    unfold rnaview_profile_add_all_pairs_hbond_pair_h_catalog,
      rnaview_profile_add_all_pairs_lw_get_hbond_ij;
    destruct p as [e ? ? ? ? ? ? ? ? ? ? ? ? ? ? ? ? ? ? ? ? ? ? ? ?]; simpl;
    destruct (Z.eqb_spec e 0); simpl; try done;
    destruct (Z.eqb_spec e 0); simpl; try done;
    f_equal; rewrite !wrap64_add_l; f_equal; lia.
Qed.

(** X5.  The order of the accumulator calls does not matter: two sequences
    of accumulator calls that are permutations of each other leave the same
    global, analysis state and files. *)
Theorem accumulator_order_irrelevant {A : Type} (cs cs' : list (call A)) (w : World A) :
  cs ≡ₚ cs' → Forall (fun c => is_add c = true) cs → run cs w = run cs' w.
Proof.
  intros Hperm. revert w.
  induction Hperm as [|c cs cs' _ IH|c1 c2 cs|cs1 cs2 cs3 H12 IH12 H23 IH23];
    intros w Hadd.
  - done.
  - simpl. apply IH. by inversion Hadd.
  - simpl. inversion Hadd as [|? ? Hc2 Hrest]; subst.
    inversion Hrest as [|? ? Hc1 _]; subst.
    by rewrite (add_calls_commute c2 c1).
  - rewrite IH12 by done. apply IH23. by rewrite <- H12.
Qed.

Lemma accumulator_order_irrelevant_witness :
  let w := run [ Begin (Some (list_ascii_of_string "p.json")) None None 76 ]
               (fresh tt ∅) in
  run [ AddLwGetHbondIj 5; AddHbondPairHCatalog 7; AddLwGetHbondIj 11 ] w
  = run [ AddLwGetHbondIj 11; AddLwGetHbondIj 5; AddHbondPairHCatalog 7 ] w.
Proof.
  intros w.
  apply (accumulator_order_irrelevant
           ([ AddLwGetHbondIj 5; AddHbondPairHCatalog 7 ] ++ [ AddLwGetHbondIj 11 ])
           ([ AddLwGetHbondIj 11 ] ++ [ AddLwGetHbondIj 5; AddHbondPairHCatalog 7 ]) w).
  - apply Permutation_app_comm.
  - repeat constructor.
Defined.

(** X6.  No entry point of the module gives a non-zero value to the six
    counters and nine accumulators that have no accumulator function: when
    they are zero before a run of entry points they are zero after it, as
    they are in every run from the initial global. *)
Theorem engine_fields_stay_zero {A : Type} (cs : list (call A)) (w : World A) :
  Forall (eq 0%Z) (engine_fields (profile w)) →
  Forall (eq 0%Z) (engine_fields (profile (run cs w))).
Proof.
  revert w. induction cs as [|c cs IH]; intros w Hw; [done|].
  simpl. apply IH.
  destruct (is_begin c) eqn:Hb.
  - destruct c; try discriminate. simpl.
    destruct (unset_or_empty_dec env) as [Hu|Hs].
    + rewrite begin_unset by done. by destruct (profile w).
    + destruct env as [path|]; [|by destruct Hs]. rewrite begin_set by done.
      unfold engine_fields. simpl. repeat constructor.
  - destruct (exec_profile_cases c w Hb)
      as [-> | [[v ->] | [(_ & d & _ & ->) | (_ & d & _ & ->)]]];
      by destruct (profile w).
Qed.

Lemma engine_fields_stay_zero_witness :
  Forall (eq 0%Z)
    (engine_fields
       (profile (run [ Begin (Some (list_ascii_of_string "p.json")) None None 76;
                       AddLwGetHbondIj 5; Dump (fun _ => true) None ]
                     (fresh tt ∅)))).
Proof.
  apply (engine_fields_stay_zero
           [ Begin (Some (list_ascii_of_string "p.json")) None None 76;
             AddLwGetHbondIj 5; Dump (fun _ => true) None ] (fresh tt ∅)).
  repeat constructor.
Defined.

End AccumulatorOrder.

Section DumpFile.
Import Profile Process ProfileRuns.

Lemma string_app_assoc (a b c : string) : ((a ++ b) ++ c = a ++ (b ++ c))%string.
Proof.
  induction a as [|x a IH]; [done|].
  change (String x ((a ++ b) ++ c) = String x (a ++ (b ++ c)))%string.
  by rewrite IH.
Qed.

Lemma string_app_nil_r (a : string) : (a ++ EmptyString)%string = a.
Proof.
  induction a as [|x a IH]; [done|].
  change (String x (a ++ EmptyString) = String x a)%string.
  by rewrite IH.
Qed.

(** Printing to an open file appends the printed text to it. *)
Lemma fprintf_content (path : string) (evs : list io_event)
    (m : gmap string string) (c : string) :
  Forall (fun e => ∃ txt, e = Fprintf txt) evs → m !! path = Some c →
  foldl io_step (Some path, m) evs
  = (Some path, <[path := (c ++ printed evs)%string]> m).
Proof.
  intros Hevs. revert m c. induction Hevs as [|e evs [txt ->] _ IH]; intros m c Hc.
  - simpl. rewrite string_app_nil_r. by rewrite insert_id.
  - simpl. rewrite Hc. simpl.
    rewrite (IH _ (c ++ txt)%string) by apply lookup_insert_eq.
    by rewrite insert_insert_eq, string_app_assoc.
Qed.

Lemma exec_io_dump (path : string) (body : list io_event) (m : gmap string string) :
  Forall (fun e => ∃ txt, e = Fprintf txt) body →
  foldl io_step (None, m) (Fopen path "w" true :: body ++ [Fclose])
  = (None, <[path := printed body]> m).
Proof.
  intros Hbody. simpl. rewrite foldl_app.
  rewrite (fprintf_content path body _ EmptyString Hbody) by apply lookup_insert_eq.
  simpl. by rewrite insert_insert_eq.
Qed.

Lemma dump_enabled (fopen_ok : string → bool) (clk : option timespec)
    (p : RnaViewProfile) :
  enabled p ≠ 0%Z → strlen (json_path p) ≠ 0 →
  let q := set_end_ns (rnaview_profile_now_ns clk) p in
  let path := fmt_s (json_path p) in
  rnaview_profile_dump fopen_ok clk p
  = if fopen_ok path
    then (q, Fopen path "w" true :: dump_body q ++ [Fclose])
    else (q, [Fopen path "w" false]).
Proof.
  intros He Hj q path. unfold rnaview_profile_dump.
  destruct (Z.eqb_spec (enabled p) 0); [done|].
  destruct (Nat.eqb_spec (strlen (json_path p)) 0); [done|]. simpl.
  assert (Hp : json_path (set_end_ns (rnaview_profile_now_ns clk) p) = json_path p)
    by (by destruct p).
  by rewrite Hp.
Qed.

(** X7.  When profiling is enabled and the profile file can be opened,
    [rnaview_profile_dump] replaces the contents of that file by the text it
    prints, whatever the file held before, closes the file, and changes no
    field of the global but [end_ns].  A second dump with the same clock
    reading leaves the global and all files as they are. *)
Theorem dump_replaces_file {A : Type} (fopen_ok : string → bool)
    (clk : option timespec) (w : World A) :
  enabled (profile w) ≠ 0%Z → strlen (json_path (profile w)) ≠ 0 →
  fopen_ok (profile_file w) = true →
  let w' := exec w (Dump fopen_ok clk) in
  profile w' = set_end_ns (rnaview_profile_now_ns clk) (profile w)
  ∧ fs w' = <[profile_file w := printed (dump_body (profile w'))]> (fs w)
  ∧ fst (foldl io_step (None, fs w)
           (snd (rnaview_profile_dump fopen_ok clk (profile w)))) = None
  ∧ exec w' (Dump fopen_ok clk) = w'.
Proof.
  intros He Hj Hok w'.
  assert (Hw' : w' = mkWorld (set_end_ns (rnaview_profile_now_ns clk) (profile w))
                      (analysis w)
                      (<[profile_file w
                         := printed (dump_body
                              (set_end_ns (rnaview_profile_now_ns clk) (profile w)))]>
                         (fs w))).
  { unfold w', exec. rewrite dump_enabled by done. unfold profile_file in Hok.
    rewrite Hok. unfold exec_io.
    by rewrite exec_io_dump by apply dump_body_fprintf. }
  split_and!.
  - by rewrite Hw'.
  - by rewrite Hw'.
  - rewrite dump_enabled by done. unfold profile_file in Hok. rewrite Hok.
    cbn [snd]. by rewrite exec_io_dump by apply dump_body_fprintf.
  - rewrite Hw'. unfold exec. cbn [profile analysis fs].
    rewrite dump_enabled by (by destruct (profile w)).
    assert (Hjp : json_path (set_end_ns (rnaview_profile_now_ns clk) (profile w))
                  = json_path (profile w)) by (by destruct (profile w)).
    assert (Hq : set_end_ns (rnaview_profile_now_ns clk)
                   (set_end_ns (rnaview_profile_now_ns clk) (profile w))
                 = set_end_ns (rnaview_profile_now_ns clk) (profile w))
      by (by destruct (profile w)).
    rewrite Hjp, Hq. unfold profile_file in Hok. rewrite Hok.
    unfold exec_io. rewrite exec_io_dump by apply dump_body_fprintf.
    cbn [snd]. unfold profile_file. by rewrite insert_insert_eq.
Qed.

Lemma dump_replaces_file_witness :
  let w := mkWorld Demo.profiled tt {[ "prof.json" := "left over from an earlier run" ]} in
  let w' := exec w (Dump (fun _ => true) (Some (mkTimespec 6 7))) in
  fs w' = {[ "prof.json" := printed (dump_body (profile w')) ]}
  ∧ exec w' (Dump (fun _ => true) (Some (mkTimespec 6 7))) = w'.
Proof.
  intros w w'.
  destruct (dump_replaces_file (fun _ => true) (Some (mkTimespec 6 7)) w)
    as (_ & Hfs & _ & Hidem).
  - vm_compute. discriminate.
  - vm_compute. discriminate.
  - reflexivity.
  - split; [|exact Hidem].
    fold w' in Hfs. rewrite Hfs. apply insert_singleton_eq.
Defined.

(** X8.  When profiling is enabled and the profile file cannot be opened,
    [rnaview_profile_dump] leaves every file as it is; the only trace of the
    call is the new [end_ns], and the only file operation the failed open. *)
Theorem dump_failed_open {A : Type} (fopen_ok : string → bool)
    (clk : option timespec) (w : World A) :
  enabled (profile w) ≠ 0%Z → strlen (json_path (profile w)) ≠ 0 →
  fopen_ok (profile_file w) = false →
  rnaview_profile_dump fopen_ok clk (profile w)
  = (set_end_ns (rnaview_profile_now_ns clk) (profile w),
     [ Fopen (profile_file w) "w" false ])
  ∧ exec w (Dump fopen_ok clk)
    = mkWorld (set_end_ns (rnaview_profile_now_ns clk) (profile w))
              (analysis w) (fs w).
Proof.
  intros He Hj Hfail.
  assert (Hd : rnaview_profile_dump fopen_ok clk (profile w)
               = (set_end_ns (rnaview_profile_now_ns clk) (profile w),
                  [ Fopen (profile_file w) "w" false ])).
  { rewrite dump_enabled by done. unfold profile_file in *. by rewrite Hfail. }
  split; [done|]. unfold exec. by rewrite Hd.
Qed.

Lemma dump_failed_open_witness :
  let w := mkWorld Demo.profiled tt {[ "a.out" := "core" ]} in
  exec w (Dump (fun _ => false) (Some (mkTimespec 6 7)))
  = mkWorld (set_end_ns 6000000007 Demo.profiled) tt {[ "a.out" := "core" ]}.
Proof.
  intros w.
  destruct (dump_failed_open (fun _ => false) (Some (mkTimespec 6 7)) w)
    as [_ Hw].
  - vm_compute. discriminate.
  - vm_compute. discriminate.
  - reflexivity.
  - exact Hw.
Defined.

End DumpFile.

Section BeginThenDump.
Import Profile Process ProfileRuns.

Lemma string_of_list_ascii_length (l : list ascii) :
  String.length (string_of_list_ascii l) = length l.
Proof. induction l as [|c l IH]; simpl; [done|]. by rewrite IH. Qed.

(** The global after [rnaview_profile_begin] has enabled profiling. *)
Lemma begin_set_facts (path : list ascii) clk ip n p :
  strlen path ≠ 0 →
  let q := rnaview_profile_begin (Some path) clk ip n p in
  enabled q = 1%Z ∧ begin_ns q = rnaview_profile_now_ns clk
  ∧ strlen (json_path q) ≠ 0 ∧ fmt_s (json_path q) = opened_path path.
Proof.
  intros Hne q. unfold q. rewrite begin_set by done.
  cbn [enabled begin_ns json_path].
  destruct (begin_holds_copy (Some path)) as (_ & Hc & _).
  cbn [default from_option id] in Hc.
  split_and!; [done|done| |].
  - rewrite <- c_str_length, Hc, length_take, c_str_length.
    pose proof PATH_CAP_eq. lia.
  - unfold fmt_s, opened_path. by rewrite Hc.
Qed.

(** The global of a run that starts with an enabling
    [rnaview_profile_begin] and does not call it again. *)
Lemma enabled_run_facts {A : Type} (path : list ascii) clk ip n
    (cs : list (call A)) (w : World A) :
  strlen path ≠ 0 → Forall (fun c => is_begin c = false) cs →
  let p := profile (run (Begin (Some path) clk ip n :: cs) w) in
  enabled p = 1%Z ∧ begin_ns p = rnaview_profile_now_ns clk
  ∧ strlen (json_path p) ≠ 0 ∧ fmt_s (json_path p) = opened_path path.
Proof.
  intros Hne Hcs p. unfold p.
  change (run (Begin (Some path) clk ip n :: cs) w)
    with (run cs (exec w (Begin (Some path) clk ip n))).
  pose proof (run_preserves enabled cs (exec w (Begin (Some path) clk ip n))
                (fun c w Hc => f_equal (fun t => t.1.1.1.1) (exec_begin_fields c w Hc))
                Hcs) as He.
  pose proof (run_preserves begin_ns cs (exec w (Begin (Some path) clk ip n))
                (fun c w Hc => f_equal (fun t => t.1.1.2) (exec_begin_fields c w Hc))
                Hcs) as Hb.
  pose proof (run_preserves json_path cs (exec w (Begin (Some path) clk ip n))
                (fun c w Hc => f_equal (fun t => t.2) (exec_begin_fields c w Hc))
                Hcs) as Hj.
  rewrite He, Hb, Hj. simpl.
  by apply begin_set_facts.
Qed.

(** X9.  The time reported as [total] is the time between the clock
    readings of [rnaview_profile_begin] and [rnaview_profile_dump]; it is
    not negative when the second reading is not earlier than the first.
    When [clock_gettime] fails at the dump, the reported total is minus the
    reading taken at the start. *)
Theorem total_is_elapsed {A : Type} (path : list ascii) (t1 : timespec) ip n
    (cs : list (call A)) (fopen_ok : string → bool) (w : World A) :
  strlen path ≠ 0 → Forall (fun c => is_begin c = false) cs → valid_reading t1 →
  let p := profile (run (Begin (Some path) (Some t1) ip n :: cs) w) in
  (∀ t2, valid_reading t2 →
     let q := fst (rnaview_profile_dump fopen_ok (Some t2) p) in
     let total := wrap64 (end_ns q - begin_ns q) in
     total = ((tv_sec t2 - tv_sec t1) * 1000000000 + (tv_nsec t2 - tv_nsec t1))%Z
     ∧ (not_later t1 t2 → (0 ≤ total)%Z)
     ∧ json_kv_ll "total" total true ∈ dump_body q)
  ∧ (let q := fst (rnaview_profile_dump fopen_ok None p) in
     wrap64 (end_ns q - begin_ns q)
     = (- (tv_sec t1 * 1000000000 + tv_nsec t1))%Z).
Proof.
  intros Hne Hcs [Hs1 Hn1] p.
  destruct (enabled_run_facts path (Some t1) ip n cs w Hne Hcs)
    as (He & Hb & Hj & _). fold p in He, Hb, Hj.
  rewrite now_ns_exact in Hb by done.
  assert (Hq : ∀ clk, fst (rnaview_profile_dump fopen_ok clk p)
                      = set_end_ns (rnaview_profile_now_ns clk) p).
  { intros clk. rewrite dump_enabled by (done || by rewrite He).
    by destruct (fopen_ok _). }
  assert (Hend : ∀ v, end_ns (set_end_ns v p) = v ∧ begin_ns (set_end_ns v p) = begin_ns p)
    by (intros v; by destruct p).
  split.
  - intros t2 [Hs2 Hn2] q total.
    assert (Htotal : total = ((tv_sec t2 - tv_sec t1) * 1000000000
                              + (tv_nsec t2 - tv_nsec t1))%Z).
    { unfold total, q. rewrite Hq. destruct (Hend (rnaview_profile_now_ns (Some t2)))
        as [-> ->]. rewrite Hb, now_ns_exact by done.
      rewrite wrap64_id; lia. }
    split_and!; [done| |].
    + intros Hle. rewrite Htotal. destruct Hle as [Hlt | [Heq Hle]]; nia.
    + apply list_elem_of_lookup. exists 15. reflexivity.
  - intros q. unfold q. rewrite Hq.
    destruct (Hend (rnaview_profile_now_ns None)) as [-> ->]. rewrite Hb. simpl.
    rewrite wrap64_id; lia.
Qed.

Lemma total_is_elapsed_witness :
  let p := profile (run [ Begin (Some (list_ascii_of_string "p.json"))
                                (Some (mkTimespec 5 900000000)) None 76;
                          AddLwGetHbondIj 3 ] (fresh tt ∅)) in
  let q := fst (rnaview_profile_dump (fun _ => true) (Some (mkTimespec 7 100000000)) p) in
  wrap64 (end_ns q - begin_ns q) = 1200000000%Z
  ∧ wrap64 (end_ns (fst (rnaview_profile_dump (fun _ => true) None p))
            - begin_ns (fst (rnaview_profile_dump (fun _ => true) None p)))
    = (-5900000000)%Z.
Proof.
  intros p q.
  destruct (total_is_elapsed (list_ascii_of_string "p.json") (mkTimespec 5 900000000)
              None 76 [ AddLwGetHbondIj 3 ] (fun _ => true) (fresh tt ∅))
    as [Hok Hfail].
  - simpl. lia.
  - repeat constructor.
  - split; simpl; lia.
  - split; [|exact Hfail].
    destruct (Hok (mkTimespec 7 100000000)) as [Ht _]; [split; simpl; lia|].
    exact Ht.
Defined.

(** X10.  After [rnaview_profile_begin] has enabled profiling,
    [rnaview_profile_dump] opens the file named by the first 1023 characters
    of RNAVIEW_PROFILE_JSON: the value itself when it is that short, and
    another, shorter name when it is longer. *)
Theorem dump_opens_truncated_path {A : Type} (path : list ascii) clk ip n
    (cs : list (call A)) (fopen_ok : string → bool) clk' (w : World A) :
  strlen path ≠ 0 → Forall (fun c => is_begin c = false) cs →
  let p := profile (run (Begin (Some path) clk ip n :: cs) w) in
  head (snd (rnaview_profile_dump fopen_ok clk' p))
  = Some (Fopen (opened_path path) "w" (fopen_ok (opened_path path)))
  ∧ (strlen path ≤ 1023 → opened_path path = string_of_list_ascii (c_str path))
  ∧ (1023 < strlen path →
       String.length (opened_path path) = 1023
       ∧ opened_path path ≠ string_of_list_ascii (c_str path)).
Proof.
  intros Hne Hcs p.
  destruct (enabled_run_facts path clk ip n cs w Hne Hcs) as (He & _ & Hj & Hf).
  fold p in He, Hj, Hf.
  assert (Hlen : String.length (opened_path path) = 1023 `min` strlen path).
  { unfold opened_path. by rewrite string_of_list_ascii_length, strlen_take_c_str. }
  split_and!.
  - rewrite dump_enabled by (done || by rewrite He). rewrite Hf.
    by destruct (fopen_ok _).
  - intros Hshort. unfold opened_path. f_equal. apply take_ge.
    rewrite c_str_length. pose proof PATH_CAP_eq. lia.
  - intros Hlong. split; [lia|].
    intros Heq. apply (f_equal String.length) in Heq.
    rewrite Hlen, string_of_list_ascii_length, c_str_length in Heq. lia.
Qed.

Lemma dump_opens_truncated_path_witness :
  let long := repeat "a"%char 1500 in
  let p := profile (run [ Begin (Some long) None None 76 ] (fresh tt ∅)) in
  head (snd (rnaview_profile_dump (fun _ => false) None p))
  = Some (Fopen (opened_path long) "w" false)
  ∧ String.length (opened_path long) = 1023.
Proof.
  intros long p.
  destruct (dump_opens_truncated_path long None None 76 [] (fun _ => false) None
              (fresh tt ∅)) as (Hhead & _ & Hlong).
  - vm_compute. discriminate.
  - constructor.
  - split; [exact Hhead|]. apply Hlong. vm_compute. lia.
Defined.

End BeginThenDump.

Section DumpText.
Import Profile Process ProfileRuns.

Lemma c_str_whole (s : list ascii) :
  Forall (fun c => is_nul c = false) s → c_str s = s.
Proof.
  unfold c_str. induction 1 as [|c s Hc _ IH]; simpl; [reflexivity|].
  rewrite Hc. simpl. by rewrite IH.
Qed.

Lemma printed_cons (txt : string) (evs : list io_event) :
  printed (Fprintf txt :: evs) = (txt ++ printed evs)%string.
Proof. reflexivity. Qed.

(** X11.  The profile file starts with the schema version, the input path
    and the number of residues given to [rnaview_profile_begin].  The input
    path is printed between double quotes as it was stored, character by
    character: [rnaview_profile_dump] escapes no quote, backslash or control
    character of it. *)
Theorem dump_prints_input_verbatim {A : Type} (path : list ascii) clk ip n
    (cs : list (call A)) (fopen_ok : string → bool) clk' (w : World A) :
  strlen path ≠ 0 → Forall (fun c => is_begin c = false) cs →
  fopen_ok (opened_path path) = true →
  let w' := exec (run (Begin (Some path) clk ip n :: cs) w) (Dump fopen_ok clk') in
  (∃ rest,
     fs w' !! opened_path path
     = Some ("{" ++ nl
             ++ "  " ++ dq ++ "schema_version" ++ dq ++ ": 1," ++ nl
             ++ "  " ++ dq ++ "input" ++ dq ++ ": " ++ dq ++ shown_input ip ++ dq ++ "," ++ nl
             ++ "  " ++ dq ++ "num_residue" ++ dq ++ ": " ++ fmt_d n ++ "," ++ nl
             ++ rest)%string)
  ∧ (∀ s, ip = Some s → Forall (fun c => is_nul c = false) s → length s < PATH_CAP →
       shown_input ip = string_of_list_ascii s).
Proof.
  intros Hne Hcs Hok w'. split.
  - destruct (enabled_run_facts path clk ip n cs w Hne Hcs) as (He & _ & Hj & Hf).
    set (w0 := run (Begin (Some path) clk ip n :: cs) w) in *.
    assert (Hin : fmt_s (input_path (profile w0)) = shown_input ip
                  ∧ num_residue (profile w0) = n).
    { unfold w0.
      change (run (Begin (Some path) clk ip n :: cs) w)
        with (run cs (exec w (Begin (Some path) clk ip n))).
      rewrite (run_preserves input_path cs (exec w (Begin (Some path) clk ip n))
                 (fun c w Hc => f_equal (fun t => t.1.2) (exec_begin_fields c w Hc)) Hcs).
      rewrite (run_preserves num_residue cs (exec w (Begin (Some path) clk ip n))
                 (fun c w Hc => f_equal (fun t => t.1.1.1.2) (exec_begin_fields c w Hc))
                 Hcs).
      cbn [exec profile]. rewrite begin_set by done. cbn [input_path num_residue].
      destruct (begin_holds_copy ip) as (_ & Hc & _).
      split; [|done]. unfold fmt_s, shown_input. by rewrite Hc. }
    destruct Hin as [Hin Hn].
    unfold w', exec. rewrite dump_enabled by (done || by rewrite He).
    rewrite Hf, Hok. unfold exec_io.
    rewrite exec_io_dump by apply dump_body_fprintf.
    cbn [fs snd]. rewrite lookup_insert_eq.
    assert (Hq : input_path (set_end_ns (rnaview_profile_now_ns clk') (profile w0))
                 = input_path (profile w0)
                 ∧ num_residue (set_end_ns (rnaview_profile_now_ns clk') (profile w0))
                   = num_residue (profile w0))
      by (by destruct (profile w0)).
    destruct Hq as [Hqi Hqn].
    unfold dump_body. do 4 rewrite printed_cons. rewrite Hqi, Hqn, Hin, Hn.
    rewrite !string_app_assoc. eexists. reflexivity.
  - intros s -> Hs Hlen. unfold shown_input. cbn [default from_option id].
    rewrite c_str_whole by done. f_equal. apply take_ge. lia.
Qed.

Lemma dump_prints_input_verbatim_witness :
  let quoted := [ "a"; "034"; "b"; "092" ]%char in
  shown_input (Some quoted) = string_of_list_ascii quoted
  ∧ ∃ rest,
      fs (exec (run [ Begin (Some (list_ascii_of_string "p.json")) None (Some quoted) 3;
                      AddLwGetHbondIj 1 ] (fresh tt ∅))
               (Dump (fun _ => true) None))
      !! opened_path (list_ascii_of_string "p.json")
      = Some ("{" ++ nl
              ++ "  " ++ dq ++ "schema_version" ++ dq ++ ": 1," ++ nl
              ++ "  " ++ dq ++ "input" ++ dq ++ ": " ++ dq ++ shown_input (Some quoted)
              ++ dq ++ "," ++ nl
              ++ "  " ++ dq ++ "num_residue" ++ dq ++ ": " ++ fmt_d 3 ++ "," ++ nl
              ++ rest)%string.
Proof.
  intros quoted.
  destruct (dump_prints_input_verbatim (list_ascii_of_string "p.json") None
              (Some quoted) 3 [ AddLwGetHbondIj 1 ] (fun _ => true) None (fresh tt ∅))
    as [Hfile Hshown].
  - vm_compute. discriminate.
  - repeat constructor.
  - reflexivity.
  - split; [|exact Hfile].
    apply (Hshown quoted eq_refl); [repeat constructor|].
    rewrite PATH_CAP_eq. simpl. lia.
Defined.

End DumpText.

Section EngineRuns.
Import Profile Process ProfileRuns Instrumented.



(** Only [rnaview_profile_dump] touches the files. *)
Lemma exec_fs {A : Type} (c : call A) (w : World A) :
  (∀ fopen_ok clk, c ≠ Dump fopen_ok clk) → fs (exec w c) = fs w.
Proof. intros Hc. destruct c; try reflexivity. by destruct (Hc fopen_ok clk). Qed.











Lemma same_code_refl {A : Type} (x : action A) : same_code x x.
Proof. destruct x as [[]|]; constructor. Qed.




#[local] Existing Instance Demo.demo_engine.


(** The condition on the engine is needed.  The header gives the engine the
    clock, and a step that keeps a reading in the analysis state is not
    instrumentation: two runs of it under two readings end in different
    analysis states. *)
Lemma clock_in_analysis_state :
  ¬ instrumentation keeps_reading
  ∧ analysis (play [ Engine [ Some (mkTimespec 1 0) ] keeps_reading ] (fresh 0%Z ∅))
    ≠ analysis (play [ Engine [ Some (mkTimespec 2 0) ] keeps_reading ] (fresh 0%Z ∅)).
Proof.
  split.
  - intros [Hsem _].
    specialize (Hsem zero_profile zero_profile [ 1%Z ] [ 2%Z ] 0%Z). discriminate.
  - intros H. vm_compute in H. discriminate.
Qed.

End EngineRuns.

(** * The build scripts *)

Section ShellLoops.
Import Tools.

Lemma for_each_cmd {X : Type} (argv : X → list string) (status : X → nat)
    (words : list X) (s : ToolState) :
  for_each words (fun x => cmd (argv x) (status x)) s
  = (match first_failure status words with
     | None => TestScript.Go tt
     | Some n => TestScript.Exit n
     end,
     mkToolState
       (rev ((fun x => (argv x, status x)) <$> attempted status words) ++ commands s)
       (exports s) (stdout s) (stderr s)).
Proof.
  revert s. induction words as [|x words IH]; intros s.
  - by destruct s.
  - simpl. unfold bind at 1. unfold cmd at 1, bind at 1, log at 1.
    destruct (Nat.eqb_spec (status x) 0) as [H0|H0].
    + unfold ret at 1. rewrite IH. cbn [commands exports stdout stderr].
      f_equal. f_equal. csimpl. by rewrite <- app_assoc.
    + unfold exit at 1. f_equal.
Qed.

Lemma first_failure_nonzero {X : Type} (status : X → nat) (words : list X) (n : nat) :
  first_failure status words = Some n → n ≠ 0.
Proof.
  induction words as [|x words IH]; simpl; [done|].
  destruct (Nat.eqb_spec (status x) 0); [done|]. by intros [= <-].
Qed.

Lemma first_failure_None {X : Type} (status : X → nat) (words : list X) :
  first_failure status words = None ↔ Forall (fun x => status x = 0) words.
Proof.
  induction words as [|x words IH]; simpl; [done|].
  destruct (Nat.eqb_spec (status x) 0) as [H0|H0].
  - rewrite IH. split; [by constructor|by inversion 1].
  - split; [done|]. by inversion 1.
Qed.


(** The loop reaches a prefix of its words, and every word before the last
    one reached succeeded. *)
Lemma attempted_prefix {X : Type} (status : X → nat) (words : list X) :
  attempted status words `prefix_of` words
  ∧ (∀ n, first_failure status words = Some n →
       ∃ done_ x, attempted status words = done_ ++ [x]
                  ∧ Forall (fun y => status y = 0) done_ ∧ status x = n).
Proof.
  induction words as [|x words [IHp IHf]]; simpl.
  - split; [done|]. by intros n.
  - destruct (Nat.eqb_spec (status x) 0) as [H0|H0].
    + split; [by apply prefix_cons|].
      intros n Hn. destruct (IHf n Hn) as (done_ & y & Heq & Hd & Hy).
      exists (x :: done_), y. rewrite Heq.
      split; [done|]. split; [by constructor|done].
    + split; [by apply prefix_cons, prefix_nil|].
      intros n [= <-]. by exists [], x.
Qed.

(** Commands of another program do not count. *)
Lemma ran_skip (prog : string) (pre rest : list (list string * nat))
    (ex : gmap string string) (out err : list string) :
  Forall (fun c => head c.1 ≠ Some prog) pre →
  ran prog (mkToolState (pre ++ rest) ex out err)
  = ran prog (mkToolState rest ex out err).
Proof.
  unfold ran. cbn [commands]. induction 1 as [|c pre Hc _ IH]; [done|].
  simpl. by rewrite bool_decide_eq_false_2.
Qed.


End ShellLoops.

Section ShellSteps.
Import Tools.

Lemma step_cmd {B : Type} (argv : list string) (n : nat) (k : Tool B) (s : ToolState) :
  bind (cmd argv n) (fun _ => k) s
  = match n with
    | 0 => k (logged argv 0 s)
    | S _ => (TestScript.Exit n, logged argv n s)
    end.
Proof. by destruct n. Qed.

Lemma step_cmd_if {B : Type} (argv : list string) (n : nat) (k : bool → Tool B)
    (s : ToolState) :
  bind (cmd_if argv n) k s = k (n =? 0)%nat (logged argv n s).
Proof. done. Qed.

Lemma step_cmd_or_true {B : Type} (argv : list string) (n : nat) (k : Tool B)
    (s : ToolState) :
  bind (cmd_or_true argv n) (fun _ => k) s = k (logged argv n s).
Proof. done. Qed.

Lemma step_for_each {B X : Type} (argv : X → list string) (status : X → nat)
    (words : list X) (k : Tool B) (s : ToolState) :
  bind (for_each words (fun x => cmd (argv x) (status x))) (fun _ => k) s
  = let s' := mkToolState
                (rev ((fun x => (argv x, status x)) <$> attempted status words)
                 ++ commands s) (exports s) (stdout s) (stderr s) in
    match first_failure status words with
    | None => k s'
    | Some n => (TestScript.Exit n, s')
    end.
Proof.
  unfold bind at 1. rewrite for_each_cmd. by destruct (first_failure status words).
Qed.

Lemma first_failure_app {X : Type} (status : X → nat) (l1 l2 : list X) :
  first_failure status (l1 ++ l2)
  = match first_failure status l1 with
    | Some n => Some n
    | None => first_failure status l2
    end.
Proof.
  induction l1 as [|x l1 IH]; simpl; [done|].
  by destruct (status x =? 0)%nat.
Qed.

Lemma first_failure_fmap {X : Type} (status : X → nat) (l : list X) :
  first_failure id (status <$> l) = first_failure status l.
Proof.
  induction l as [|x l IH]; [done|].
  change (first_failure id (status <$> x :: l))
    with (if (status x =? 0)%nat then first_failure id (status <$> l) else Some (status x)).
  by rewrite IH.
Qed.

End ShellSteps.

Section LegacyBuild.
Import Tools.

Lemma first_nonzero_zero (l : list nat) :
  first_nonzero l = 0 ↔ Forall (eq 0) l.
Proof.
  unfold first_nonzero. destruct (first_failure id l) as [n|] eqn:E; simpl.
  - pose proof (first_failure_nonzero _ _ _ E) as Hn. split; [done|].
    intros Hall. exfalso.
    assert (first_failure id l = None) as Hnone.
    { apply first_failure_None. eapply Forall_impl; [exact Hall|].
      intros x Hx. unfold id. by symmetry. }
    congruence.
  - split; [|done]. intros _. apply first_failure_None in E.
    eapply Forall_impl; [exact E|]. intros x Hx. unfold id in Hx. by symmetry.
Qed.

Lemma fallback_status_gates (e : LegacyEnv) (s : ToolState) :
  status_of (legacy_fallback e s) = first_nonzero (fallback_gates e).
Proof.
  destruct e as [st repo home path mx gx lib lib64 d1 ds].
  unfold legacy_fallback, first_nonzero, fallback_gates.
  cbn [l_status l_REPO_ROOT l_HOME l_PATH l_sysroot_make_x l_sysroot_gcc_x
       l_lib_exists l_lib64_exists l_deb_first l_deb_rest].
  remember (d1 :: ds) as debs eqn:Hdebs. clear Hdebs.
  destruct (mx && gx).
  - unfold bind at 1, export at 1. unfold bind at 1, export at 1.
    rewrite step_cmd. by destruct (st LSysrootMake).
  - rewrite step_cmd. destruct (st LMkdirApt) as [|?]; [|reflexivity].
    rewrite step_cmd. destruct (st LTruncStatus) as [|?]; [|reflexivity].
    rewrite step_cmd. destruct (st LAptUpdate) as [|?]; [|reflexivity].
    rewrite step_cmd. destruct (st LRmToolchain) as [|?]; [|reflexivity].
    rewrite step_cmd. destruct (st LMkdirToolchain) as [|?]; [|reflexivity].
    rewrite step_cmd. destruct (st LCdDebs) as [|?]; [|reflexivity].
    rewrite step_cmd. destruct (st LAptDownload) as [|?]; [|reflexivity].
    rewrite step_for_each. cbv zeta.
    cbn [app first_failure id Nat.eqb].
    rewrite first_failure_app, first_failure_fmap.
    destruct (first_failure snd debs) as [n|]; [reflexivity|].
    match goal with |- context [bind _ _ ?s0] => generalize s0 end. intros s1.
    assert (Htail : ∀ s2,
      status_of
        ((cmd_or_true [ "ln"; "-sf"; "x86_64-linux-gnu-ld";
                        (sysroot_of home ++ "/usr/bin/ld")%string ] (st LLnLd) ;;;
          cmd_or_true [ "ln"; "-sf"; "x86_64-linux-gnu-as";
                        (sysroot_of home ++ "/usr/bin/as")%string ] (st LLnAs) ;;;
          cmd_or_true [ "ln"; "-sf"; "x86_64-linux-gnu-ar";
                        (sysroot_of home ++ "/usr/bin/ar")%string ] (st LLnAr) ;;;
          cmd_or_true [ "ln"; "-sf"; "x86_64-linux-gnu-ranlib";
                        (sysroot_of home ++ "/usr/bin/ranlib")%string ] (st LLnRanlib) ;;;
          cmd_or_true [ "ln"; "-sf"; "gcc-14";
                        (sysroot_of home ++ "/usr/bin/cc")%string ] (st LLnCc) ;;;
          export "PATH" (sysroot_PATH (sysroot_of home) path) ;;;
          export "LD_LIBRARY_PATH" (sysroot_libs (sysroot_of home)) ;;;
          cmd [ "cd"; repo ] (st LCdRepo) ;;;
          cmd (sysroot_make_argv (sysroot_of home)) (st LAptMake) ;;;
          echo ("built: " ++ repo ++ "/bin/rnaview")%string) s2)
      = default 0 (first_failure id [ st LCdRepo; st LAptMake ])).
    { intros s2. rewrite !step_cmd_or_true.
      unfold bind at 1, export at 1. unfold bind at 1, export at 1.
      rewrite step_cmd. destruct (st LCdRepo) as [|?]; [|reflexivity].
      rewrite step_cmd. by destruct (st LAptMake). }
    destruct lib; cbn [app].
    + unfold bind at 1, ret at 1.
      destruct lib64; cbn [app].
      * unfold bind at 1, ret at 1. apply Htail.
      * rewrite step_cmd. destruct (st LLnLib64) as [|?]; [|reflexivity].
        apply Htail.
    + rewrite step_cmd. destruct (st LLnLib) as [|?]; [|reflexivity].
      destruct lib64; cbn [app].
      * unfold bind at 1, ret at 1. apply Htail.
      * rewrite step_cmd. destruct (st LLnLib64) as [|?]; [|reflexivity].
        apply Htail.
Qed.

Lemma legacy_status_gates (e : LegacyEnv) :
  status_of (legacy_run e) = first_nonzero (legacy_gates e).
Proof.
  unfold legacy_run, build_legacy_rnaview_sh, legacy_gates.
  pose proof (fallback_status_gates e) as Hfb.
  set (fb := legacy_fallback e) in *. set (gates := fallback_gates e) in *.
  unfold first_nonzero in *. cbv zeta.
  rewrite step_cmd. destruct (l_status e LRepoRoot) as [|?]; [|reflexivity].
  rewrite step_cmd. destruct (l_status e LCd) as [|?]; [|reflexivity].
  rewrite step_cmd_if. cbv beta.
  destruct (l_status e LCommandMake) as [|?]; cbn [Nat.eqb andb].
  - rewrite step_cmd_if. cbv beta.
    destruct (l_status e LCommandCc) as [|?]; cbn [Nat.eqb andb].
    + rewrite step_cmd. by destruct (l_status e LMake).
    + apply Hfb.
  - unfold bind at 1, ret at 1. apply Hfb.
Qed.

Lemma legacy_gates_optional (e : LegacyEnv) (st' : LegacyStep → nat) :
  (∀ s, optional_link s = false → st' s = l_status e s) →
  legacy_gates (with_status st' e) = legacy_gates e.
Proof.
  intros Hst. unfold legacy_gates, fallback_gates, with_status.
  cbn [l_status l_REPO_ROOT l_HOME l_PATH l_sysroot_make_x l_sysroot_gcc_x
       l_lib_exists l_lib64_exists l_deb_first l_deb_rest].
  by rewrite !Hst.
Qed.

(** X12.  The exit status of build_legacy_rnaview.sh is the status of the
    first failing command among those the script runs under [set -e] on the
    path it takes (system toolchain, cached sysroot, or download), and 0
    when none fails.  The links made with [ln -sf ... || true] have no
    influence on it. *)
Theorem legacy_exit_status (e : LegacyEnv) :
  status_of (legacy_run e) = first_nonzero (legacy_gates e)
  ∧ (status_of (legacy_run e) = 0 ↔ Forall (eq 0) (legacy_gates e))
  ∧ (∀ st', (∀ s, optional_link s = false → st' s = l_status e s) →
       status_of (legacy_run (with_status st' e)) = status_of (legacy_run e)).
Proof.
  split_and!.
  - apply legacy_status_gates.
  - rewrite legacy_status_gates. apply first_nonzero_zero.
  - intros st' Hst. rewrite !legacy_status_gates. by rewrite legacy_gates_optional.
Qed.

Lemma legacy_exit_status_witness :
  status_of (legacy_run ToolsDemo.downloading) = 0
  ∧ status_of (legacy_run (with_status ToolsDemo.links_fail ToolsDemo.downloading)) = 0
  ∧ status_of (legacy_run ToolsDemo.broken_package) = 2.
Proof.
  pose proof (legacy_exit_status ToolsDemo.downloading) as (Hs & _ & Hlinks).
  pose proof (legacy_exit_status ToolsDemo.broken_package) as (Hb & _ & _).
  split_and!.
  - rewrite Hs. reflexivity.
  - rewrite (Hlinks ToolsDemo.links_fail).
    + rewrite Hs. reflexivity.
    + intros s Hopt. unfold ToolsDemo.links_fail. by rewrite Hopt.
  - rewrite Hb. reflexivity.
Defined.

(** X13.  build_legacy_rnaview.sh removes the cached toolchain directory
    ([rm -rf]) only on the download path and only after [apt-get update]
    has succeeded: when [rm] has run, the system toolchain was not found,
    the cached sysroot was not usable and the update ended with status 0. *)
Theorem legacy_keeps_toolchain (e : LegacyEnv) (n : nat) :
  ran "rm" (snd (legacy_run e)) = Some n →
  ¬ system_toolchain e ∧ ¬ cached_toolchain e ∧ l_status e LAptUpdate = 0.
Proof.
  destruct e as [st repo home path mx gx lib lib64 d1 ds].
  unfold legacy_run, build_legacy_rnaview_sh, system_toolchain, cached_toolchain.
  cbn [l_status l_REPO_ROOT l_sysroot_make_x l_sysroot_gcc_x].
  assert (Hfb : ∀ s, ran "rm" s = None →
            ran "rm" (snd (legacy_fallback
                             (mkLegacyEnv st repo home path mx gx lib lib64 d1 ds) s))
            = Some n →
            ¬ (mx = true ∧ gx = true) ∧ st LAptUpdate = 0).
  { intros s Hs. unfold legacy_fallback.
    cbn [l_status l_REPO_ROOT l_HOME l_PATH l_sysroot_make_x l_sysroot_gcc_x
         l_lib_exists l_lib64_exists l_deb_first l_deb_rest].
    assert (Hlog : ∀ argv k s', head argv ≠ Some "rm" →
              ran "rm" s' = None → ran "rm" (logged argv k s') = None).
    { intros argv k s' Hh Hn. unfold ran in *. cbn [logged commands find fst].
      by rewrite bool_decide_eq_false_2. }
    destruct (mx && gx) eqn:Hcached.
    - unfold bind at 1, export at 1. unfold bind at 1, export at 1.
      rewrite step_cmd.
      destruct (st LSysrootMake) as [|?]; unfold ran in *; simpl; by rewrite Hs.
    - intros Hrm. split; [intros [-> ->]; done|]. revert Hrm.
      rewrite step_cmd. destruct (st LMkdirApt) as [|?];
        [|by (cbn [snd]; rewrite Hlog)].
      rewrite step_cmd. destruct (st LTruncStatus) as [|?];
        [|by (cbn [snd]; rewrite !Hlog)].
      rewrite step_cmd. destruct (st LAptUpdate) as [|?];
        [done|by (cbn [snd]; rewrite !Hlog)]. }
  rewrite step_cmd. destruct (st LRepoRoot) as [|?]; [|by vm_compute].
  rewrite step_cmd. destruct (st LCd) as [|?]; [|by vm_compute].
  rewrite step_cmd_if. cbv beta.
  destruct (st LCommandMake) as [|?]; cbn [Nat.eqb andb].
  - rewrite step_cmd_if. cbv beta.
    destruct (st LCommandCc) as [|?]; cbn [Nat.eqb andb].
    + rewrite step_cmd. destruct (st LMake) as [|?]; by vm_compute.
    + intros Hrm. apply Hfb in Hrm; [|by vm_compute].
      destruct Hrm as [Hc Hu]. by split_and!; [intros [_ ?]| |].
  - unfold bind at 1, ret at 1.
    intros Hrm. apply Hfb in Hrm; [|by vm_compute].
    destruct Hrm as [Hc Hu]. by split_and!; [intros [? _]| |].
Qed.

Lemma legacy_keeps_toolchain_witness :
  ran "rm" (snd (legacy_run ToolsDemo.downloading)) = Some 0
  ∧ ¬ system_toolchain ToolsDemo.downloading
  ∧ ran "rm" (snd (legacy_run ToolsDemo.offline)) = None
  ∧ ran "rm" (snd (legacy_run ToolsDemo.system_make_fails)) = None.
Proof.
  assert (Hrm : ran "rm" (snd (legacy_run ToolsDemo.downloading)) = Some 0)
    by reflexivity.
  split_and!; [exact Hrm| |reflexivity|reflexivity].
  apply (legacy_keeps_toolchain ToolsDemo.downloading 0 Hrm).
Defined.

End LegacyBuild.

Section ColonLists.
Import Tools.

Lemma string_cons_app (c : ascii) (a b : string) :
  (String c a ++ b)%string = String c (a ++ b)%string.
Proof. reflexivity. Qed.

Lemma no_colon_app (a b : string) : no_colon a → no_colon b → no_colon (a ++ b).
Proof.
  unfold no_colon. intros Ha Hb. induction a as [|c a IH]; [done|].
  rewrite string_cons_app. cbn [list_ascii_of_string] in *.
  inversion Ha; subst. constructor; [done|]. by apply IH.
Qed.

(** An entry without colon, followed by a colon. *)
Lemma split_colon_entry (a b : string) :
  no_colon a → split_colon (a ++ String ":" b) = a :: split_colon b.
Proof.
  unfold no_colon. induction a as [|c a IH]; intros Ha.
  - reflexivity.
  - rewrite string_cons_app. cbn [list_ascii_of_string] in Ha.
    inversion Ha as [|? ? Hc Ha']; subst.
    cbn [split_colon]. rewrite (proj2 (Ascii.eqb_neq c ":") Hc).
    by rewrite (IH Ha').
Qed.

Lemma split_colon_single (a : string) : no_colon a → split_colon a = [a].
Proof.
  unfold no_colon. induction a as [|c a IH]; intros Ha; [done|].
  cbn [list_ascii_of_string] in Ha. inversion Ha as [|? ? Hc Ha']; subst.
  cbn [split_colon]. rewrite (proj2 (Ascii.eqb_neq c ":") Hc).
  by rewrite (IH Ha').
Qed.

Lemma no_colon_sysroot (home : string) : no_colon home → no_colon (sysroot_of home).
Proof.
  intros Hh. unfold sysroot_of, toolchain_dir.
  repeat apply no_colon_app; try done; unfold no_colon; simpl;
    repeat constructor; discriminate.
Qed.


(** The entries of the library path the scripts export. *)
Lemma split_sysroot_libs (sysroot : string) (old : option string) :
  no_colon sysroot →
  split_colon (sysroot_libs sysroot ++ colon_if_set old)
  = [ (sysroot ++ "/usr/lib/x86_64-linux-gnu")%string;
      (sysroot ++ "/lib/x86_64-linux-gnu")%string;
      (sysroot ++ "/usr/lib")%string; (sysroot ++ "/lib")%string ]
    ++ match old with
       | Some (String c s) => split_colon (String c s)
       | _ => []
       end.
Proof.
  intros Hs.
  assert (Hlit : ∀ d, no_colon d → no_colon (sysroot ++ d))
    by (intros; by apply no_colon_app).
  assert (H1 : no_colon "/usr/lib/x86_64-linux-gnu")
    by (unfold no_colon; simpl; repeat constructor; discriminate).
  assert (H2 : no_colon "/lib/x86_64-linux-gnu")
    by (unfold no_colon; simpl; repeat constructor; discriminate).
  assert (H3 : no_colon "/usr/lib")
    by (unfold no_colon; simpl; repeat constructor; discriminate).
  assert (H4 : no_colon "/lib")
    by (unfold no_colon; simpl; repeat constructor; discriminate).
  unfold sysroot_libs.
  set (tail := colon_if_set old).
  replace ((sysroot ++ "/usr/lib/x86_64-linux-gnu:" ++ sysroot ++ "/lib/x86_64-linux-gnu:"
            ++ sysroot ++ "/usr/lib:" ++ sysroot ++ "/lib") ++ tail)%string
    with ((sysroot ++ "/usr/lib/x86_64-linux-gnu")
          ++ String ":" ((sysroot ++ "/lib/x86_64-linux-gnu")
          ++ String ":" ((sysroot ++ "/usr/lib")
          ++ String ":" ((sysroot ++ "/lib") ++ tail))))%string.
  2:{ rewrite !string_app_assoc. reflexivity. }
  rewrite !split_colon_entry by auto.
  cbn [app]. do 3 f_equal. unfold tail.
  destruct old as [[|c s]|]; cbn [colon_if_set].
  - rewrite string_app_nil_r. by apply split_colon_single, Hlit.
  - change (":" ++ String c s)%string with (String ":" (String c s)).
    by rewrite split_colon_entry by auto.
  - rewrite string_app_nil_r. by apply split_colon_single, Hlit.
Qed.

Lemma split_sysroot_PATH (sysroot path : string) :
  no_colon sysroot →
  split_colon (sysroot_PATH sysroot path)
  = [ (sysroot ++ "/usr/bin")%string; (sysroot ++ "/bin")%string ] ++ split_colon path.
Proof.
  intros Hs. unfold sysroot_PATH.
  replace (sysroot ++ "/usr/bin:" ++ sysroot ++ "/bin:" ++ path)%string
    with ((sysroot ++ "/usr/bin") ++ String ":" ((sysroot ++ "/bin") ++ String ":" path))%string.
  2:{ rewrite !string_app_assoc. reflexivity. }
  rewrite !split_colon_entry; [done| |];
    apply no_colon_app; try done; unfold no_colon; simpl;
    repeat constructor; discriminate.
Qed.

End ColonLists.

Section CargoWrapper.
Import Tools.

(** The wrapper once the sysroot compiler is there. *)
Lemma cargo_run_exec (e : CargoEnv) :
  c_root_status e = 0 →
  c_cc_x e = true
  ∨ status_of (legacy_run (inherit (c_REPO_ROOT e) (c_HOME e) (c_PATH e) (c_legacy e))) = 0 →
  let sysroot := sysroot_of (c_HOME e) in
  ∃ pre,
    cargo_run e
    = (TestScript.Exit (c_cargo_status e),
       mkToolState
         (("cargo" :: c_args e, c_cargo_status e) :: pre)
         (<["RUSTFLAGS" := cargo_link_arg sysroot (c_RUSTFLAGS e)]>
            (<["CARGO_TARGET_X86_64_UNKNOWN_LINUX_GNU_LINKER"
               := (sysroot ++ "/usr/bin/gcc-14")%string]>
               (<["LD_LIBRARY_PATH"
                  := (sysroot_libs sysroot ++ colon_if_set (c_LD_LIBRARY_PATH e))%string]>
                  (<["PATH" := sysroot_PATH sysroot (c_PATH e)]> ∅))))
         [] [])
    ∧ Forall (fun c => head c.1 ≠ Some "cargo") pre
    ∧ (c_cc_x e = true → Forall (fun c => head c.1 ≠ Some "bash") pre).
Proof.
  intros Hroot Hcc sysroot. unfold cargo_run, cargo_sysroot_sh.
  rewrite step_cmd, Hroot.
  destruct (c_cc_x e) eqn:Hx.
  - unfold bind at 1, ret at 1. eexists. split; [reflexivity|].
    split; [|intros _]; by repeat constructor.
  - destruct Hcc as [?|Hl]; [done|]. rewrite step_cmd, Hl.
    eexists. split; [reflexivity|]. split; [|done]. by repeat constructor.
Qed.

(** X14.  cargo_sysroot.sh hands over to [cargo] with exactly the arguments
    it was given, and its exit status is then the status of [cargo].  It
    does so when the sysroot compiler is there, without running the legacy
    build, or after a successful legacy build.  When the legacy build
    fails, the script ends with the status of the build, exports nothing and
    does not run [cargo]. *)
Theorem cargo_sysroot_hands_over (e : CargoEnv) :
  c_root_status e = 0 →
  let legacy :=
    status_of (legacy_run (inherit (c_REPO_ROOT e) (c_HOME e) (c_PATH e) (c_legacy e))) in
  let r := cargo_run e in
  (c_cc_x e = true ∨ legacy = 0 →
     status_of r = c_cargo_status e
     ∧ head (commands (snd r)) = Some ("cargo" :: c_args e, c_cargo_status e)
     ∧ times_ran "cargo" (snd r) = 1
     ∧ (c_cc_x e = true → ran "bash" (snd r) = None))
  ∧ (c_cc_x e = false → legacy ≠ 0 →
     status_of r = legacy ∧ ran "cargo" (snd r) = None ∧ exports (snd r) = ∅).
Proof.
  intros Hroot legacy r. split.
  - intros Hcc. destruct (cargo_run_exec e Hroot Hcc) as (pre & Hrun & Hcargo & Hbash).
    unfold r. rewrite Hrun. cbn [snd fst status_of commands].
    split; [done|]. split; [done|]. split.
    + change (("cargo" :: c_args e, c_cargo_status e) :: pre)
        with ([ ("cargo" :: c_args e, c_cargo_status e) ] ++ pre).
      unfold times_ran. cbn [commands]. rewrite filter_app, length_app.
      assert (Hnil : filter (fun c : list string * nat => head c.1 = Some "cargo") pre = []).
      { clear -Hcargo. induction Hcargo as [|c pre Hc _ IH]; [done|].
        rewrite filter_cons, decide_False by done. exact IH. }
      rewrite Hnil. reflexivity.
    + intros Hx. specialize (Hbash Hx).
      change (("cargo" :: c_args e, c_cargo_status e) :: pre)
        with ([ ("cargo" :: c_args e, c_cargo_status e) ] ++ pre).
      rewrite ran_skip by (by repeat constructor).
      rewrite <- (app_nil_r pre). rewrite ran_skip by done. reflexivity.
  - intros Hx Hl. unfold r, cargo_run, cargo_sysroot_sh.
    rewrite step_cmd, Hroot, Hx. rewrite step_cmd. fold legacy.
    destruct legacy as [|n]; [done|]. done.
Qed.

Lemma cargo_sysroot_hands_over_witness :
  status_of (cargo_run ToolsDemo.cargo_test) = 101
  ∧ head (commands (snd (cargo_run ToolsDemo.cargo_test)))
    = Some ([ "cargo"; "test"; "--manifest-path"; "rust/Cargo.toml" ], 101)
  ∧ status_of (cargo_run ToolsDemo.cargo_offline) = 100
  ∧ ran "cargo" (snd (cargo_run ToolsDemo.cargo_offline)) = None.
Proof.
  destruct (cargo_sysroot_hands_over ToolsDemo.cargo_test eq_refl) as [Hok _].
  destruct (cargo_sysroot_hands_over ToolsDemo.cargo_offline eq_refl) as [_ Hfail].
  destruct (Hok (or_introl eq_refl)) as (H1 & H2 & _).
  destruct Hfail as (H3 & H4 & _); [reflexivity|vm_compute; discriminate|].
  split_and!; [exact H1|exact H2|exact H3|exact H4].
Defined.

(** X15.  When cargo_sysroot.sh runs [cargo] and HOME contains no colon,
    the LD_LIBRARY_PATH it has exported consists of the four library
    directories of the sysroot followed by the entries of the previous
    value, and nothing after them when the previous value is unset or
    empty; so the script adds no empty entry.  PATH starts with the two
    program directories of the sysroot, followed by the previous entries. *)
Theorem cargo_sysroot_search_paths (e : CargoEnv) :
  c_root_status e = 0 →
  c_cc_x e = true
  ∨ status_of (legacy_run (inherit (c_REPO_ROOT e) (c_HOME e) (c_PATH e) (c_legacy e))) = 0 →
  no_colon (c_HOME e) →
  let sysroot := sysroot_of (c_HOME e) in
  ∃ ld path,
    exports (snd (cargo_run e)) !! "LD_LIBRARY_PATH" = Some ld
    ∧ exports (snd (cargo_run e)) !! "PATH" = Some path
    ∧ split_colon ld
      = [ (sysroot ++ "/usr/lib/x86_64-linux-gnu")%string;
          (sysroot ++ "/lib/x86_64-linux-gnu")%string;
          (sysroot ++ "/usr/lib")%string; (sysroot ++ "/lib")%string ]
        ++ match c_LD_LIBRARY_PATH e with
           | Some (String c s) => split_colon (String c s)
           | _ => []
           end
    ∧ split_colon path
      = [ (sysroot ++ "/usr/bin")%string; (sysroot ++ "/bin")%string ]
        ++ split_colon (c_PATH e)
    ∧ ((∀ old, c_LD_LIBRARY_PATH e = Some old → old ≠ EmptyString →
          Forall (fun d => d ≠ EmptyString) (split_colon old)) →
       Forall (fun d => d ≠ EmptyString) (split_colon ld)).
Proof.
  intros Hroot Hcc Hhome sysroot.
  destruct (cargo_run_exec e Hroot Hcc) as (pre & Hrun & _ & _).
  pose proof (no_colon_sysroot _ Hhome) as Hsys. fold sysroot in Hsys.
  exists (sysroot_libs sysroot ++ colon_if_set (c_LD_LIBRARY_PATH e))%string,
         (sysroot_PATH sysroot (c_PATH e)).
  rewrite Hrun. cbn [snd exports].
  split_and!.
  - by rewrite !lookup_insert_ne, lookup_insert_eq by done.
  - by rewrite !lookup_insert_ne, lookup_insert_eq by done.
  - by apply split_sysroot_libs.
  - by apply split_sysroot_PATH.
  - intros Hold. rewrite split_sysroot_libs by done.
    apply Forall_app. split.
    + assert (Hne : ∀ d c, (sysroot ++ String c d)%string ≠ EmptyString).
      { intros d c. destruct sysroot; discriminate. }
      repeat constructor; apply Hne.
    + destruct (c_LD_LIBRARY_PATH e) as [[|c s]|] eqn:Eld; [constructor| |constructor].
      by apply Hold.
Qed.

Lemma cargo_sysroot_search_paths_witness :
  ∃ ld path,
    exports (snd (cargo_run ToolsDemo.cargo_test)) !! "LD_LIBRARY_PATH" = Some ld
    ∧ exports (snd (cargo_run ToolsDemo.cargo_test)) !! "PATH" = Some path
    ∧ split_colon ld
      = [ "/home/u/.cache/rnaview-toolchain/root/usr/lib/x86_64-linux-gnu";
          "/home/u/.cache/rnaview-toolchain/root/lib/x86_64-linux-gnu";
          "/home/u/.cache/rnaview-toolchain/root/usr/lib";
          "/home/u/.cache/rnaview-toolchain/root/lib"; "/opt/lib"; "/opt/lib64" ]
    ∧ split_colon path
      = [ "/home/u/.cache/rnaview-toolchain/root/usr/bin";
          "/home/u/.cache/rnaview-toolchain/root/bin"; "/usr/bin" ].
Proof.
  destruct (cargo_sysroot_search_paths ToolsDemo.cargo_test eq_refl (or_introl eq_refl))
    as (ld & path & H1 & H2 & H3 & H4 & _).
  - unfold no_colon. simpl. repeat constructor; discriminate.
  - exists ld, path. split_and!; [exact H1|exact H2|exact H3|exact H4].
Defined.

End CargoWrapper.

Section Rustcore.
Import Tools.

(** The script up to the test for the static library. *)
Lemma rustcore_prefix (e : RustcoreEnv) :
  r_root_status e = 0 →
  r_cc_x e = true
  ∨ status_of (legacy_run (inherit (r_REPO_ROOT e) (r_HOME e) (r_PATH e) (r_legacy e))) = 0 →
  ∃ pre ex,
    rev pre
    = [ ([ "cd"; "--"; "$(dirname -- ${BASH_SOURCE[0]})/.." ], 0) ]
      ++ (if r_cc_x e then [] else [ (legacy_argv (r_REPO_ROOT e), 0) ])
    ∧ ∀ k : Tool unit,
    (cmd [ "cd"; "--"; "$(dirname -- ${BASH_SOURCE[0]})/.." ] (r_root_status e) ;;;
     (if r_cc_x e then ret tt
      else cmd (legacy_argv (r_REPO_ROOT e))
             (status_of (legacy_run
                (inherit (r_REPO_ROOT e) (r_HOME e) (r_PATH e) (r_legacy e))))) ;;;
     export "PATH" (sysroot_PATH (sysroot_of (r_HOME e)) (r_PATH e)) ;;;
     export "LD_LIBRARY_PATH"
       (sysroot_libs (sysroot_of (r_HOME e)) ++ colon_if_set (r_LD_LIBRARY_PATH e))%string ;;;
     echo_err "== build rust staticlib (legacy-ffi) ==" ;;;
     cmd (cargo_sysroot_argv (r_REPO_ROOT e)) (status_of (cargo_run (child_cargo e))) ;;; k)
      start
    = match status_of (cargo_run (child_cargo e)) with
      | 0 => k (mkToolState ((cargo_sysroot_argv (r_REPO_ROOT e), 0) :: pre) ex []
                  [ "== build rust staticlib (legacy-ffi) ==" ])
      | S _ => (TestScript.Exit (status_of (cargo_run (child_cargo e))),
                mkToolState
                  ((cargo_sysroot_argv (r_REPO_ROOT e),
                    status_of (cargo_run (child_cargo e))) :: pre) ex []
                  [ "== build rust staticlib (legacy-ffi) ==" ])
      end.
Proof.
  intros Hroot Hcc.
  destruct (r_cc_x e).
  - eexists _, _. split; [|intros k; rewrite step_cmd, Hroot;
      unfold bind at 1, ret at 1;
      unfold bind at 1, export at 1; unfold bind at 1, export at 1;
      unfold bind at 1, echo_err at 1; rewrite step_cmd;
      destruct (status_of (cargo_run (child_cargo e))); reflexivity].
    reflexivity.
  - destruct Hcc as [?|Hl]; [done|].
    eexists _, _. split; [|intros k; rewrite step_cmd, Hroot; rewrite step_cmd, Hl;
      unfold bind at 1, export at 1; unfold bind at 1, export at 1;
      unfold bind at 1, echo_err at 1; rewrite step_cmd;
      destruct (status_of (cargo_run (child_cargo e))); reflexivity].
    reflexivity.
Qed.

(** A loop whose words all succeed reaches all of them; a loop stops at the
    first word whose command fails. *)
Lemma attempted_all {X : Type} (status : X → nat) (words : list X) :
  Forall (fun x => status x = 0) words →
  attempted status words = words ∧ first_failure status words = None.
Proof.
  induction 1 as [|x words Hx _ [IH1 IH2]]; [done|].
  simpl. rewrite Hx. simpl. by rewrite IH1, IH2.
Qed.

Lemma attempted_until {X : Type} (status : X → nat) (done_ rest : list X) (x : X) :
  Forall (fun y => status y = 0) done_ → status x ≠ 0 →
  attempted status (done_ ++ x :: rest) = done_ ++ [x]
  ∧ first_failure status (done_ ++ x :: rest) = Some (status x).
Proof.
  intros Hdone Hx. induction Hdone as [|y done_ Hy _ [IH1 IH2]].
  - simpl. by destruct (Nat.eqb_spec (status x) 0).
  - simpl. rewrite Hy. simpl. by rewrite IH1, IH2.
Qed.

(** The exit status and the commands of the script once the steps before
    the compilation have succeeded. *)
Lemma rustcore_trace (e : RustcoreEnv) :
  reaches_compile e →
  let repo := r_REPO_ROOT e in
  let sysroot := sysroot_of (r_HOME e) in
  let st := r_compile_status e in
  let r := rustcore_run e in
  status_of r
  = match first_failure st sources with Some n => n | None => r_link_status e end
  ∧ rev (commands (snd r))
    = [ ([ "cd"; "--"; "$(dirname -- ${BASH_SOURCE[0]})/.." ], 0) ]
      ++ (if r_cc_x e then [] else [ (legacy_argv repo, 0) ])
      ++ [ (cargo_sysroot_argv repo, 0);
           ([ "mkdir"; "-p"; (repo ++ "/obj/rustcore")%string; (repo ++ "/bin")%string ],
            0) ]
      ++ ((fun src => (compile_argv repo sysroot src, st src)) <$> attempted st sources)
      ++ match first_failure st sources with
         | None => [ (link_argv repo sysroot (obj_of repo <$> sources), r_link_status e) ]
         | Some _ => []
         end.
Proof.
  intros (Hroot & Hcc & Hchild & Hlib & Hmk) repo sysroot st r.
  destruct (rustcore_prefix e Hroot Hcc) as (pre & ex & Hpre & Heq).
  split.
  - unfold r, rustcore_run, build_rnaview_rustcore_sh.
    subst repo sysroot. cbv zeta. rewrite Heq.
    rewrite Hchild, Hlib. unfold bind at 1, ret at 1.
    rewrite step_cmd, Hmk. rewrite step_for_each. cbv zeta. fold st.
    destruct (first_failure st sources) as [n|]; [done|].
    unfold bind at 1, echo_err at 1. rewrite step_cmd.
    by destruct (r_link_status e).
  - unfold r, rustcore_run, build_rnaview_rustcore_sh.
    subst repo sysroot. cbv zeta. rewrite Heq.
    rewrite Hchild, Hlib. unfold bind at 1, ret at 1.
    rewrite step_cmd, Hmk. rewrite step_for_each. cbv zeta. fold st.
    destruct (first_failure st sources) as [n|].
    + cbn [snd commands logged]. rewrite rev_app_distr, rev_involutive.
      cbn [rev]. rewrite Hpre. by rewrite <- !app_assoc, app_nil_r.
    + unfold bind at 1, echo_err at 1. rewrite step_cmd.
      destruct (r_link_status e);
        cbn [snd commands logged echo_err rev];
        rewrite rev_app_distr, rev_involutive; cbn [rev]; rewrite Hpre;
        by rewrite <- !app_assoc.
Qed.

(** X16.  Once cargo has produced the static library, the commands of
    build_rnaview_rustcore.sh are, from the first to the last: the change
    of directory, the legacy build when the sysroot compiler is missing,
    cargo_sysroot.sh, [mkdir], then one compilation per source in the order
    of the list, each to its own object file, up to and including the first
    source that does not compile.  When every source compiles, the link
    follows as the last command, with the objects of all sources in the
    order of the list, and the exit status is the status of the link.  When
    a source does not compile, nothing is run after its compilation, no
    link either, and the exit status is the status of the compiler. *)
Theorem rustcore_compiles_in_order (e : RustcoreEnv) :
  reaches_compile e →
  let repo := r_REPO_ROOT e in
  let sysroot := sysroot_of (r_HOME e) in
  let st := r_compile_status e in
  let r := rustcore_run e in
  let setup :=
    [ ([ "cd"; "--"; "$(dirname -- ${BASH_SOURCE[0]})/.." ], 0) ]
    ++ (if r_cc_x e then [] else [ (legacy_argv repo, 0) ])
    ++ [ (cargo_sysroot_argv repo, 0);
         ([ "mkdir"; "-p"; (repo ++ "/obj/rustcore")%string; (repo ++ "/bin")%string ],
          0) ] in
  let compile := fun src => (compile_argv repo sysroot src, st src) in
  (Forall (fun src => st src = 0) sources →
     status_of r = r_link_status e
     ∧ rev (commands (snd r))
       = setup ++ (compile <$> sources)
         ++ [ (link_argv repo sysroot (obj_of repo <$> sources), r_link_status e) ])
  ∧ (∀ done_ src rest,
       sources = done_ ++ src :: rest →
       Forall (fun s => st s = 0) done_ → st src ≠ 0 →
       status_of r = st src
       ∧ rev (commands (snd r)) = setup ++ (compile <$> done_ ++ [src])).
Proof.
  intros Hreach repo sysroot st r setup compile.
  destruct (rustcore_trace e Hreach) as [Hs Ht].
  fold repo sysroot st r in Hs, Ht.
  split.
  - intros Hall. destruct (attempted_all st sources Hall) as [Hatt Hff].
    rewrite Hatt, Hff in Ht. rewrite Hff in Hs.
    split; [exact Hs|]. rewrite Ht. unfold setup, compile.
    by rewrite <- !app_assoc.
  - intros done_ src rest Hsplit Hdone Hsrc.
    destruct (attempted_until st done_ rest src Hdone Hsrc) as [Hatt Hff].
    rewrite <- Hsplit in Hatt, Hff.
    rewrite Hatt, Hff in Ht. rewrite Hff in Hs.
    split; [exact Hs|]. rewrite Ht. unfold setup, compile.
    by rewrite <- !app_assoc, app_nil_r.
Qed.

Lemma rustcore_compiles_in_order_witness :
  status_of (rustcore_run ToolsDemo.third_source_fails) = 1
  ∧ length (commands (snd (rustcore_run ToolsDemo.third_source_fails))) = 6
  ∧ status_of (rustcore_run ToolsDemo.all_good) = 0
  ∧ last (commands (snd (rustcore_run ToolsDemo.all_good)))
    = Some ([ "cd"; "--"; "$(dirname -- ${BASH_SOURCE[0]})/.." ], 0).
Proof.
  assert (H1 : reaches_compile ToolsDemo.third_source_fails)
    by (unfold reaches_compile; split_and!; try reflexivity; by left).
  assert (H2 : reaches_compile ToolsDemo.all_good)
    by (unfold reaches_compile; split_and!; try reflexivity; by left).
  destruct (rustcore_compiles_in_order ToolsDemo.third_source_fails H1) as [_ Hfail].
  destruct (rustcore_compiles_in_order ToolsDemo.all_good H2) as [Hok _].
  destruct (Hfail [ "rnaview.c"; "fpair.c" ] "fpair_sub.c"
              [ "pair_type.c"; "nrutil.c"; "ps-xy.c"; "ps-xy-sub.c"; "vrml.c";
                "rnaxml-new.c"; "analyze.c"; "pattern.c"; "xml2ps.c"; "multiple.c";
                "statistics.c" ]) as [Hs Htrace];
    [reflexivity|repeat constructor|discriminate|].
  destruct Hok as [Hs' Htrace']; [repeat constructor|].
  split_and!.
  - exact Hs.
  - rewrite <- length_rev, Htrace. reflexivity.
  - exact Hs'.
  - rewrite <- (rev_involutive (commands _)), Htrace'. reflexivity.
Defined.



End Rustcore.

Section ObjectNames.
Import Tools.

Lemma list_ascii_of_string_app (a b : string) :
  list_ascii_of_string (a ++ b)%string = list_ascii_of_string a ++ list_ascii_of_string b.
Proof.
  induction a as [|c a IH]; [reflexivity|].
  change (c :: list_ascii_of_string (a ++ b)%string
          = c :: (list_ascii_of_string a ++ list_ascii_of_string b)).
  by rewrite IH.
Qed.

Lemma string_app_inv_head (p a b : string) :
  (p ++ a)%string = (p ++ b)%string → a = b.
Proof.
  induction p as [|c p IH]; [done|].
  intros H. apply IH.
  change (String c (p ++ a)%string = String c (p ++ b)%string) in H.
  by injection H.
Qed.

Lemma string_app_inv_tail (a b s : string) :
  (a ++ s)%string = (b ++ s)%string → a = b.
Proof.
  intros H. apply (f_equal list_ascii_of_string) in H.
  rewrite !list_ascii_of_string_app in H. apply app_inv_tail in H.
  apply (f_equal string_of_list_ascii) in H.
  by rewrite !string_of_list_ascii_of_string in H.
Qed.

Lemma strip_dot_c_suffix (base : string) : strip_dot_c (base ++ ".c")%string = base.
Proof.
  unfold strip_dot_c. rewrite list_ascii_of_string_app.
  change (list_ascii_of_string ".c") with [ "."%char; "c"%char ].
  rewrite rev_app_distr. cbn [rev app].
  by rewrite rev_involutive, string_of_list_ascii_of_string.
Qed.

(** X18.  The object file of a source [base.c] is [obj/rustcore/base.o]
    under the repository root, and two different sources named [*.c] never
    share an object file; so the objects of the sources of
    build_rnaview_rustcore.sh are pairwise different and no compilation
    overwrites the output of another. *)
Theorem objects_are_distinct (repo : string) :
  (∀ base, obj_of repo (base ++ ".c")%string
           = (repo ++ "/obj/rustcore/" ++ base ++ ".o")%string)
  ∧ (∀ a b, obj_of repo (a ++ ".c")%string = obj_of repo (b ++ ".c")%string → a = b)
  ∧ NoDup (obj_of repo <$> sources).
Proof.
  assert (Hobj : ∀ base, obj_of repo (base ++ ".c")%string
                         = (repo ++ "/obj/rustcore/" ++ base ++ ".o")%string).
  { intros base. unfold obj_of. by rewrite strip_dot_c_suffix. }
  assert (Hinj : ∀ a b, obj_of repo (a ++ ".c")%string = obj_of repo (b ++ ".c")%string
                        → a = b).
  { intros a b. rewrite !Hobj. intros H.
    apply string_app_inv_head, string_app_inv_head in H.
    by apply string_app_inv_tail in H. }
  split_and!; [done|done|].
  change sources
    with ((fun base => (base ++ ".c")%string)
          <$> [ "rnaview"; "fpair"; "fpair_sub"; "pair_type"; "nrutil"; "ps-xy";
                "ps-xy-sub"; "vrml"; "rnaxml-new"; "analyze"; "pattern"; "xml2ps";
                "multiple"; "statistics" ]).
  rewrite <- list_fmap_compose.
  apply NoDup_fmap_2_strong.
  - intros a b _ _ H. by apply Hinj.
  - apply (bool_decide_unpack _). by vm_compute.
Qed.

Lemma objects_are_distinct_witness :
  obj_of "/repo" "ps-xy-sub.c" = "/repo/obj/rustcore/ps-xy-sub.o"
  ∧ NoDup (obj_of "/repo" <$> sources).
Proof.
  destruct (objects_are_distinct "/repo") as (Hobj & _ & Hnd).
  split; [exact (Hobj "ps-xy-sub")|exact Hnd].
Defined.

End ObjectNames.

Section TestTrace.
Import TestScript TestRuns.

Local Ltac only_head Hc Hne :=
  repeat (apply elem_of_cons in Hc as [->|Hc]; [try done; by destruct Hne|]);
  by apply elem_of_nil in Hc.

(** X19.  test.sh runs its commands in the order of the script and each at
    most once: what it has run is a prefix of the planned commands, and it
    is all of them, the removal of the output directory included, exactly
    when the batch command succeeded.  A command that failed is the last
    one the script ran. *)
Theorem test_sh_runs_in_order (e : ShellEnv) :
  trace e `prefix_of` planned e
  ∧ (trace e = planned e ↔ batch_result e = Some 0)
  ∧ (∀ c, c ∈ trace e → c.2 ≠ 0 → last (trace e) = Some c).
Proof.
  destruct e as [rs root ex bs ms out ps rms].
  unfold trace, planned, final, batch_result; cbn [root_dir_status
    rnaview_executable build_status mktemp_status batch_status rm_status OUT_DIR].
  destruct rs as [|rs]; [|split_and!; [by eexists|by destruct ex|intros c Hc Hne; only_head Hc Hne]].
  destruct ex.
  - destruct ms as [|ms];
      [|split_and!; [by eexists|done|intros c Hc Hne; only_head Hc Hne]].
    destruct ps as [|ps];
      [|split_and!; [by eexists|done|intros c Hc Hne; only_head Hc Hne]].
    destruct rms as [|rms];
      split_and!; [by eexists|done|intros c Hc Hne; only_head Hc Hne
                  |by eexists|done|intros c Hc Hne; only_head Hc Hne].
  - destruct bs as [|bs];
      [|split_and!; [by eexists|done|intros c Hc Hne; only_head Hc Hne]].
    destruct ms as [|ms];
      [|split_and!; [by eexists|done|intros c Hc Hne; only_head Hc Hne]].
    destruct ps as [|ps];
      [|split_and!; [by eexists|done|intros c Hc Hne; only_head Hc Hne]].
    destruct rms as [|rms];
      split_and!; [by eexists|done|intros c Hc Hne; only_head Hc Hne
                  |by eexists|done|intros c Hc Hne; only_head Hc Hne].
Qed.

Lemma test_sh_runs_in_order_witness :
  let bad := mkShellEnv 0 "/repo" false 0 0 "/tmp/tmp.out" 1 0 in
  last (trace bad) = Some (batch_argv bad, 1) ∧ trace bad ≠ planned bad.
Proof.
  intros bad.
  destruct (test_sh_runs_in_order bad) as (_ & Hiff & Hlast).
  split.
  - apply Hlast; [|discriminate].
    apply list_elem_of_lookup. exists 3. reflexivity.
  - intros H. apply Hiff in H. vm_compute in H. discriminate.
Defined.

End TestTrace.
